(** * BLE advertisement payload filtering (APCF): host-side accounting

    Shallow embedding of [system/stack/btm/btm_ble_adv_filter.cc].

    The control blocks [btm_ble_adv_filt_cb], [cmn_ble_vsc_cb] and the
    static [remove_me_later_map] become one [state] record that every
    operation threads explicitly.  Commands handed to
    [btu_hcif_send_cmd_with_cb] and callback invocations are appended to a
    trace kept in the state.  Accesses the C++ code leaves unchecked
    (indexing the slot table, reading a vector, running a null callback)
    return a [Fault] instead of a value. *)

From Stdlib Require Import ZArith Lia List.
From stdpp Require Import base decidable option list gmap.

Local Open Scope Z_scope.

(** ** Data model

    The structures are declared in headers outside this file; each record
    has the fields the file reads and writes. *)

(** [RawAddress]: the six bytes of a device address. *)
Record RawAddress := mkRawAddress { address : list Z }.

#[global] Instance RawAddress_eq_dec : EqDecision RawAddress.
Proof. solve_decision. Defined.

Definition RawAddress_kEmpty : RawAddress := mkRawAddress (replicate 6%nat 0).

(** [RawAddress::IsEmpty] *)
Definition IsEmpty (a : RawAddress) : bool := bool_decide (a = RawAddress_kEmpty).

(** [tBLE_BD_ADDR] *)
Record tBLE_BD_ADDR := mk_tBLE_BD_ADDR { type : Z; bda : RawAddress }.

(** [memset(&x, 0, sizeof(tBLE_BD_ADDR))] *)
Definition tBLE_BD_ADDR_zero : tBLE_BD_ADDR := mk_tBLE_BD_ADDR 0 RawAddress_kEmpty.

(** Modelled from the spec: [tBTM_BLE_PF_COUNT] is declared outside this
    file.  It is the slot of the accounting table: the bound address, the
    in-use flag, and one [uint8_t] counter per condition type
    ([pf_counter[BTM_BLE_PF_TYPE_MAX]]). *)
Record tBTM_BLE_PF_COUNT := mk_tBTM_BLE_PF_COUNT {
  in_use : bool;
  bd_addr : RawAddress;
  pf_counter : list Z
}.

(** Modelled from the spec: [tBTM_BLE_VSC_CB] is declared outside this
    file.  It is the capability record: the filter-support flag, the
    maximum number of filters (a [uint8_t]) and the chip version. *)
Record tBTM_BLE_VSC_CB := mk_tBTM_BLE_VSC_CB {
  filter_support : Z;
  max_filter : nat;
  version_supported : Z
}.

(** [tBTM_BLE_ADV_FILTER_CB]: the operation type, the slot table
    ([p_addr_filter_count], a pointer to the first entry) and the pending
    filter target. *)
Record tBTM_BLE_ADV_FILTER_CB := mk_tBTM_BLE_ADV_FILTER_CB {
  op_type : Z;
  p_addr_filter_count : list tBTM_BLE_PF_COUNT;
  cur_filter_target : tBLE_BD_ADDR
}.

(** [btgatt_filt_param_setup_t] *)
Record btgatt_filt_param_setup_t := mk_btgatt_filt_param_setup_t {
  feat_seln : Z;
  list_logic_type : Z;
  filt_logic_type : Z;
  rssi_high_thres : Z;
  rssi_low_thres : Z;
  dely_mode : Z;
  found_timeout : Z;
  lost_timeout : Z;
  found_timeout_cnt : Z;
  num_of_tracking_entries : Z
}.

(** [tBTM_LE_PID_KEYS] *)
Record tBTM_LE_PID_KEYS := mk_tBTM_LE_PID_KEYS {
  pid_irk : list Z;
  identity_addr_type : Z;
  identity_addr : RawAddress
}.

(** A [base::Callback]: null (default constructed), [base::DoNothing()],
    or a callback of the caller, named by a number. *)
Inductive callback := CbNull | CbDoNothing | CbClient (id : nat).

#[global] Instance callback_eq_dec : EqDecision callback.
Proof. solve_decision. Defined.

(** What [base::Bind] builds as the completion continuation of a command. *)
Inductive continuation :=
  | Bind_btm_flt_update_cb (expected_ocf : Z) (cb : callback)
  | Bind_enable_cmpl_cback (p_stat_cback : callback).

Inductive event :=
  | EvSend (opcode : Z) (param : list Z) (k : continuation)
  | EvRun (id : nat) (args : list Z).

Definition is_send (e : event) : Prop :=
  match e with EvSend _ _ _ => True | EvRun _ _ => False end.

Inductive fault := OutOfBounds (i : nat) | NullDeref.

Inductive result (A : Type) := Ok (a : A) | Fault (f : fault).
Arguments Ok {A} a.
Arguments Fault {A} f.

(** ** Constants and types declared in headers outside this file *)

(** The enumerators and macros of [btm_ble_api_types.h], [btm_api_types.h],
    [hcidefs.h] and [bt_target.h] that the file uses.  They are taken as
    parameters; [HeaderOk] records what C++ itself demands of them. *)
Class Header := {
  BTM_BLE_SCAN_COND_ADD : Z;
  BTM_BLE_SCAN_COND_DELETE : Z;
  BTM_BLE_SCAN_COND_CLEAR : Z;
  BTM_BLE_PF_ADDR_FILTER : Z;
  BTM_BLE_PF_SRVC_DATA : Z;
  BTM_BLE_PF_SRVC_UUID : Z;
  BTM_BLE_PF_SRVC_SOL_UUID : Z;
  BTM_BLE_PF_LOCAL_NAME : Z;
  BTM_BLE_PF_MANU_DATA : Z;
  BTM_BLE_PF_SRVC_DATA_PATTERN : Z;
  BTM_BLE_PF_TYPE_ALL : Z;
  BTM_BLE_PF_TYPE_MAX : Z;
  BTM_BLE_META_PF_ENABLE : Z;
  BTM_BLE_META_PF_FEAT_SEL : Z;
  BTM_BLE_META_PF_ADDR : Z;
  BTM_BLE_META_PF_UUID : Z;
  BTM_BLE_META_PF_SOL_UUID : Z;
  BTM_BLE_META_PF_LOCAL_NAME : Z;
  BTM_BLE_META_PF_MANU_DATA : Z;
  BTM_BLE_META_PF_SRVC_DATA : Z;
  BTM_BLE_META_PF_ALL : Z;
  BTM_BLE_PF_STR_LEN_MAX : Z;
  BTM_BLE_PF_ENABLE : Z;
  BTM_BLE_PF_CONFIG : Z;
  BTM_BLE_PF_LOGIC_OR : Z;
  BTM_BLE_PF_LOGIC_AND : Z;
  BTM_SUCCESS : Z;
  BTM_ERR_PROCESSING : Z;
  BTM_MODE_UNSUPPORTED : Z;
  BTM_ILLEGAL_VALUE : Z;
  BTM_UNKNOWN_ADDR : Z;
  HCI_SUCCESS : Z;
  HCI_BLE_ADV_FILTER : Z;
  BTM_VSC_CHIP_CAPABILITY_L_VERSION : Z;
  BTM_LE_KEY_PID : Z;
  BLE_ADV_FILTER : bool;
  btm_status_value : Z → Z;
  to_ble_addr_type : Z → Z;
  BDADDR_TO_STREAM : RawAddress → list Z
}.

(** Enumerators of one enumeration differ, [case] labels of one [switch]
    differ, the condition types index [pf_counter[BTM_BLE_PF_TYPE_MAX]] and
    [BTM_BLE_PF_TYPE_ALL] is the last of them. *)
Class HeaderOk `{Header} : Prop := {
  scan_cond_add_delete : BTM_BLE_SCAN_COND_ADD ≠ BTM_BLE_SCAN_COND_DELETE;
  scan_cond_add_clear : BTM_BLE_SCAN_COND_ADD ≠ BTM_BLE_SCAN_COND_CLEAR;
  scan_cond_delete_clear : BTM_BLE_SCAN_COND_DELETE ≠ BTM_BLE_SCAN_COND_CLEAR;
  pf_type_all_range : BTM_BLE_PF_TYPE_ALL < BTM_BLE_PF_TYPE_MAX;
  pf_types_range : Forall (λ t, 0 ≤ t < BTM_BLE_PF_TYPE_ALL)
    [BTM_BLE_PF_ADDR_FILTER; BTM_BLE_PF_SRVC_DATA; BTM_BLE_PF_SRVC_UUID;
     BTM_BLE_PF_SRVC_SOL_UUID; BTM_BLE_PF_LOCAL_NAME; BTM_BLE_PF_MANU_DATA;
     BTM_BLE_PF_SRVC_DATA_PATTERN];
  meta_pf_labels : NoDup
    [BTM_BLE_META_PF_FEAT_SEL; BTM_BLE_META_PF_ADDR; BTM_BLE_META_PF_UUID;
     BTM_BLE_META_PF_SOL_UUID; BTM_BLE_META_PF_LOCAL_NAME;
     BTM_BLE_META_PF_MANU_DATA; BTM_BLE_META_PF_SRVC_DATA;
     BTM_BLE_META_PF_ALL];
  pf_labels : NoDup
    [BTM_BLE_PF_ADDR_FILTER; BTM_BLE_PF_SRVC_DATA; BTM_BLE_PF_SRVC_UUID;
     BTM_BLE_PF_SRVC_SOL_UUID; BTM_BLE_PF_LOCAL_NAME; BTM_BLE_PF_MANU_DATA;
     BTM_BLE_PF_SRVC_DATA_PATTERN]
}.

(** The collaborators: the security manager's device records, address
    resolution, the [bluetooth::Uuid] value type, the capability query and
    the allocator.  [btm_find_dev] tells whether the record pointer is
    non-null; [BTM_SecDeleteDevice] returns its result and the records it
    leaves; [osi_malloc n] is a block of [n] entries whose contents are not
    initialised. *)
Class Collaborators := {
  sec_db : Type;
  btm_sec_is_a_bonded_dev : RawAddress → sec_db → bool;
  BTM_SecDeleteDevice : RawAddress → sec_db → bool * sec_db;
  btm_find_dev : RawAddress → sec_db → bool;
  btm_sec_alloc_dev : RawAddress → sec_db → sec_db;
  BTM_SecAddBleKey : RawAddress → tBTM_LE_PID_KEYS → Z → sec_db → sec_db;
  btm_random_pseudo_to_identity_addr : RawAddress → Z → sec_db → RawAddress * Z;
  Uuid : Type;
  Uuid_default : Uuid;
  Uuid_kEmpty : Uuid;
  Uuid_IsEmpty : Uuid → bool;
  GetShortestRepresentationSize : Uuid → Z;
  As16Bit : Uuid → Z;
  As32Bit : Uuid → Z;
  To128BitLE : Uuid → list Z;
  BTM_BleGetVendorCapabilities : tBTM_BLE_VSC_CB;
  osi_malloc : nat → list tBTM_BLE_PF_COUNT;
  osi_malloc_length : ∀ n, length (osi_malloc n) = n
}.

(** [ApcfCommand] *)
Record ApcfCommand `{Collaborators} := mk_ApcfCommand {
  cmd_type : Z;
  cmd_address : RawAddress;
  cmd_addr_type : Z;
  cmd_uuid : Uuid;
  cmd_uuid_mask : Uuid;
  cmd_name : list Z;
  cmd_company : Z;
  cmd_company_mask : Z;
  cmd_data : list Z;
  cmd_data_mask : list Z;
  cmd_irk : list Z
}.
Arguments mk_ApcfCommand {_} _ _ _ _ _ _ _ _ _ _ _.

(** ** Program state *)

Record state `{Collaborators} := mk_state {
  cmn_ble_vsc_cb : tBTM_BLE_VSC_CB;
  btm_ble_adv_filt_cb : tBTM_BLE_ADV_FILTER_CB;
  remove_me_later_map : gmap Z RawAddress;
  sec : sec_db;
  trace : list event
}.
Arguments mk_state {_} _ _ _ _ _.

Section Program.
Context `{Header} `{Collaborators}.

Definition table (st : state) : list tBTM_BLE_PF_COUNT :=
  p_addr_filter_count (btm_ble_adv_filt_cb st).

Definition target (st : state) : tBLE_BD_ADDR :=
  cur_filter_target (btm_ble_adv_filt_cb st).

Definition set_table (t : list tBTM_BLE_PF_COUNT) (st : state) : state :=
  mk_state (cmn_ble_vsc_cb st)
    (mk_tBTM_BLE_ADV_FILTER_CB (op_type (btm_ble_adv_filt_cb st)) t
       (cur_filter_target (btm_ble_adv_filt_cb st)))
    (remove_me_later_map st) (sec st) (trace st).

Definition set_target (a : tBLE_BD_ADDR) (st : state) : state :=
  mk_state (cmn_ble_vsc_cb st)
    (mk_tBTM_BLE_ADV_FILTER_CB (op_type (btm_ble_adv_filt_cb st))
       (p_addr_filter_count (btm_ble_adv_filt_cb st)) a)
    (remove_me_later_map st) (sec st) (trace st).

Definition set_op_type (o : Z) (st : state) : state :=
  mk_state (cmn_ble_vsc_cb st)
    (mk_tBTM_BLE_ADV_FILTER_CB o
       (p_addr_filter_count (btm_ble_adv_filt_cb st))
       (cur_filter_target (btm_ble_adv_filt_cb st)))
    (remove_me_later_map st) (sec st) (trace st).

Definition set_map (m : gmap Z RawAddress) (st : state) : state :=
  mk_state (cmn_ble_vsc_cb st) (btm_ble_adv_filt_cb st) m (sec st) (trace st).

Definition set_sec (s : sec_db) (st : state) : state :=
  mk_state (cmn_ble_vsc_cb st) (btm_ble_adv_filt_cb st)
    (remove_me_later_map st) s (trace st).

Definition emit (e : event) (st : state) : state :=
  mk_state (cmn_ble_vsc_cb st) (btm_ble_adv_filt_cb st)
    (remove_me_later_map st) (sec st) (trace st ++ [e]).

(** ** State and fault monad *)

Definition M (A : Type) : Type := state → result (A * state).

Definition ret {A} (a : A) : M A := λ st, Ok (a, st).

Definition bind {A B} (m : M A) (k : A → M B) : M B :=
  λ st, match m st with
        | Ok (a, st') => k a st'
        | Fault f => Fault f
        end.

#[global] Instance M_ret : MRet M := @ret.
#[global] Instance M_bind : MBind M := λ A B k m, bind m k.

Definition raise {A} (f : fault) : M A := λ _, Fault f.
Definition gets {A} (f : state → A) : M A := λ st, Ok (f st, st).
Definition modify (f : state → state) : M unit := λ st, Ok (tt, f st).

End Program.


Section Accounting.
Context `{Header} `{Collaborators}.

Definition BTM_BLE_ADV_FILT_META_HDR_LENGTH : Z := 3.
Definition BTM_BLE_ADV_FILT_FEAT_SELN_LEN : Z := 13.
Definition BTM_BLE_ADV_FILT_TRACK_NUM : Z := 2.
Definition BTM_BLE_PF_SELECT_NONE : Z := 0.
Definition BTM_BLE_PF_FEAT_SEL_LEN : Z := 18.
Definition BTM_BLE_PCF_ENABLE_LEN : Z := 2.
Definition BTM_BLE_META_ADDR_LEN : Z := 7.
Definition BTM_BLE_META_UUID_LEN : Z := 40.
Definition BTM_BLE_INVALID_COUNTER : Z := 255.

(** Conversion to [uint8_t]. *)
Definition u8 (x : Z) : Z := x mod 256.

(** [memset(p, 0, sizeof(tBTM_BLE_PF_COUNT))] *)
Definition tBTM_BLE_PF_COUNT_zero : tBTM_BLE_PF_COUNT :=
  mk_tBTM_BLE_PF_COUNT false RawAddress_kEmpty
    (replicate (Z.to_nat BTM_BLE_PF_TYPE_MAX) 0).

Definition is_filtering_supported (st : state) : bool :=
  negb (filter_support (cmn_ble_vsc_cb st) =? 0)
  && negb (Nat.eqb (max_filter (cmn_ble_vsc_cb st)) 0).

(** The loop of [btm_ble_find_addr_filter_counter]: [n] iterations are
    left and [p_addr_filter] points at entry [idx]. *)
Fixpoint find_scan (tbl : list tBTM_BLE_PF_COUNT) (a : RawAddress)
    (n idx : nat) : result (option nat) :=
  match n with
  | O => Ok None
  | S n' =>
      match tbl !! idx with
      | None => Fault (OutOfBounds idx)
      | Some s =>
          if in_use s && bool_decide (a = bd_addr s) then Ok (Some idx)
          else find_scan tbl a n' (S idx)
      end
  end.

(** A pointer into the table is the index of the entry; [None] is [NULL]. *)
Definition btm_ble_find_addr_filter_counter (p_le_bda : option tBLE_BD_ADDR)
    : M (option nat) :=
  λ st,
    match p_le_bda with
    | None => Ok (Some 0%nat, st)
    | Some le_bda =>
        match find_scan (table st) (bda le_bda)
                (max_filter (cmn_ble_vsc_cb st)) 1 with
        | Ok r => Ok (r, st)
        | Fault f => Fault f
        end
    end.

Fixpoint alloc_scan (tbl : list tBTM_BLE_PF_COUNT) (a : RawAddress)
    (n idx : nat) : result (option nat * list tBTM_BLE_PF_COUNT) :=
  match n with
  | O => Ok (None, tbl)
  | S n' =>
      match tbl !! idx with
      | None => Fault (OutOfBounds idx)
      | Some s =>
          if IsEmpty (bd_addr s)
          then Ok (Some idx,
                   <[idx := mk_tBTM_BLE_PF_COUNT true a (pf_counter s)]> tbl)
          else alloc_scan tbl a n' (S idx)
      end
  end.

Definition btm_ble_alloc_addr_filter_counter (a : RawAddress)
    : M (option nat) :=
  λ st,
    match alloc_scan (table st) a (max_filter (cmn_ble_vsc_cb st)) 1 with
    | Ok (r, tbl) => Ok (r, set_table tbl st)
    | Fault f => Fault f
    end.

Fixpoint dealloc_scan (tbl : list tBTM_BLE_PF_COUNT)
    (p_bd_addr : option tBLE_BD_ADDR) (n idx : nat) (found : bool)
    : result (bool * list tBTM_BLE_PF_COUNT) :=
  match n with
  | O => Ok (found, tbl)
  | S n' =>
      match tbl !! idx with
      | None => Fault (OutOfBounds idx)
      | Some s =>
          if in_use s &&
             match p_bd_addr with
             | None => true
             | Some b => bool_decide (bda b = bd_addr s)
             end
          then
            let tbl' := <[idx := tBTM_BLE_PF_COUNT_zero]> tbl in
            match p_bd_addr with
            | Some _ => Ok (true, tbl')
            | None => dealloc_scan tbl' p_bd_addr n' (S idx) true
            end
          else dealloc_scan tbl p_bd_addr n' (S idx) found
      end
  end.

Definition btm_ble_dealloc_addr_filter_counter
    (p_bd_addr : option tBLE_BD_ADDR) (filter_type : Z) : M bool :=
  λ st,
    let generic_cleared :=
      if bool_decide (BTM_BLE_PF_TYPE_ALL = filter_type)
         && bool_decide (p_bd_addr = None)
      then match table st with
           | [] => Fault (OutOfBounds 0)
           | _ :: rest => Ok (tBTM_BLE_PF_COUNT_zero :: rest)
           end
      else Ok (table st) in
    match generic_cleared with
    | Fault f => Fault f
    | Ok tbl =>
        match dealloc_scan tbl p_bd_addr
                (max_filter (cmn_ble_vsc_cb st)) 1 false with
        | Ok (found, tbl') => Ok (found, set_table tbl' st)
        | Fault f => Fault f
        end
    end.

(** [p_counter = p_addr_filter->pf_counter;
     if (num_available > 0) p_counter[cond_type] += 1;
     return p_counter[cond_type];] for the entry at index [i]. *)
Definition bump_counter (i : nat) (cond_type num_available : Z) : M Z :=
  λ st,
    match table st !! i with
    | None => Fault (OutOfBounds i)
    | Some s =>
        match pf_counter s !! Z.to_nat cond_type with
        | None => Fault (OutOfBounds (Z.to_nat cond_type))
        | Some c =>
            let c' := if bool_decide (num_available > 0) then u8 (c + 1)
                      else c in
            Ok (c',
                set_table
                  (<[i := mk_tBTM_BLE_PF_COUNT (in_use s) (bd_addr s)
                            (<[Z.to_nat cond_type := c']> (pf_counter s))]>
                     (table st)) st)
        end
    end.

Definition btm_ble_cs_update_pf_counter (action cond_type : Z)
    (p_bd_addr : option tBLE_BD_ADDR) (num_available : Z) : M Z :=
  if bool_decide (cond_type > BTM_BLE_PF_TYPE_ALL)
  then ret BTM_BLE_INVALID_COUNTER
  else
    (* for these three types of filter, always generic *)
    let p_bd_addr :=
      if bool_decide (BTM_BLE_PF_ADDR_FILTER = cond_type)
         || bool_decide (BTM_BLE_PF_MANU_DATA = cond_type)
         || bool_decide (BTM_BLE_PF_LOCAL_NAME = cond_type)
         || bool_decide (BTM_BLE_PF_SRVC_DATA_PATTERN = cond_type)
      then None else p_bd_addr in
    found ← btm_ble_find_addr_filter_counter p_bd_addr;
    p_addr_filter ←
      match found with
      | None =>
          if bool_decide (BTM_BLE_SCAN_COND_ADD = action)
          then match p_bd_addr with
               | Some b => btm_ble_alloc_addr_filter_counter (bda b)
               | None => raise NullDeref
               end
          else ret None
      | Some i => ret (Some i)
      end;
    match p_addr_filter with
    | Some i =>
        if (bool_decide (BTM_BLE_PF_TYPE_ALL = cond_type)
            && bool_decide (BTM_BLE_SCAN_COND_CLEAR = action))
           || (bool_decide (BTM_BLE_PF_ADDR_FILTER = cond_type)
               && (bool_decide (BTM_BLE_SCAN_COND_DELETE = action)
                   || bool_decide (BTM_BLE_SCAN_COND_CLEAR = action)))
        then
          btm_ble_dealloc_addr_filter_counter p_bd_addr cond_type ;;
          ret BTM_BLE_INVALID_COUNTER
        else if bool_decide (cond_type ≠ BTM_BLE_PF_TYPE_ALL)
        then bump_counter i cond_type num_available
        else ret BTM_BLE_INVALID_COUNTER
    | None => ret BTM_BLE_INVALID_COUNTER
    end.

End Accounting.

(** ** Completion router *)

Section Router.
Context `{Header} `{Collaborators}.

(** [cb.Run(args)] *)
Definition Run (cb : callback) (args : list Z) : M unit :=
  match cb with
  | CbNull => raise NullDeref
  | CbDoNothing => ret tt
  | CbClient id => modify (emit (EvRun id args))
  end.

Definition btm_ble_ocf_to_condtype (ocf : Z) : Z :=
  if bool_decide (ocf = BTM_BLE_META_PF_FEAT_SEL) then BTM_BLE_META_PF_FEAT_SEL
  else if bool_decide (ocf = BTM_BLE_META_PF_ADDR) then BTM_BLE_PF_ADDR_FILTER
  else if bool_decide (ocf = BTM_BLE_META_PF_UUID) then BTM_BLE_PF_SRVC_UUID
  else if bool_decide (ocf = BTM_BLE_META_PF_SOL_UUID)
       then BTM_BLE_PF_SRVC_SOL_UUID
  else if bool_decide (ocf = BTM_BLE_META_PF_LOCAL_NAME)
       then BTM_BLE_PF_LOCAL_NAME
  else if bool_decide (ocf = BTM_BLE_META_PF_MANU_DATA)
       then BTM_BLE_PF_MANU_DATA
  else if bool_decide (ocf = BTM_BLE_META_PF_SRVC_DATA)
       then BTM_BLE_PF_SRVC_DATA_PATTERN
  else if bool_decide (ocf = BTM_BLE_META_PF_ALL) then BTM_BLE_PF_TYPE_ALL
  else BTM_BLE_PF_TYPE_MAX.

(** [p] is the event buffer; the four [STREAM_TO_UINT8] read its first
    four bytes. *)
Definition btm_flt_update_cb (expected_ocf : Z) (cb : callback)
    (p : list Z) (evt_len : Z) : M unit :=
  if bool_decide (evt_len ≠ 4) then ret tt
  else
    match p with
    | status :: op_subcode :: action :: num_avail :: _ =>
        if bool_decide (expected_ocf ≠ op_subcode) then ret tt
        else
          let btm_status :=
            if bool_decide (status = 0) then BTM_SUCCESS
            else BTM_ERR_PROCESSING in
          if bool_decide (op_subcode = BTM_BLE_META_PF_FEAT_SEL)
          then Run cb [num_avail; action; btm_status]
          else
            let cond_type := btm_ble_ocf_to_condtype expected_ocf in
            (if bool_decide (HCI_SUCCESS = status)
             then
               tgt ← gets target;
               (if IsEmpty (bda tgt)
                then btm_ble_cs_update_pf_counter action cond_type None
                       num_avail
                else btm_ble_cs_update_pf_counter action cond_type
                       (Some tgt) num_avail) ;;
               ret tt
             else ret tt) ;;
            (* send ADV PF operation complete *)
            modify (set_op_type 0) ;;
            Run cb [num_avail; action; btm_status]
    | _ => raise (OutOfBounds (length p))
    end.

Definition enable_cmpl_cback (p_stat_cback : callback) (p : list Z)
    (evt_len : Z) : M unit :=
  if bool_decide (evt_len ≠ 3) then ret tt
  else
    match p with
    | status :: op_subcode :: action :: _ =>
        if bool_decide (op_subcode ≠ BTM_BLE_META_PF_ENABLE) then ret tt
        else
          let btm_status :=
            if bool_decide (status = 0) then BTM_SUCCESS
            else BTM_ERR_PROCESSING in
          Run p_stat_cback [action; btm_status]
    | _ => raise (OutOfBounds (length p))
    end.

End Router.

(** ** Condition encoders *)

Section Encoders.
Context `{Header} `{Collaborators}.

(** Modelled from the spec: the stream macros of [bt_types.h] are outside
    this file; integers go on the wire little-endian, one byte per
    [uint8_t].  The pointer [p] into [param] is the list of bytes written
    so far. *)
Definition UINT8_TO_STREAM (p : list Z) (v : Z) : list Z := p ++ [u8 v].

Definition UINT16_TO_STREAM (p : list Z) (v : Z) : list Z :=
  p ++ [v mod 256; (v / 256) mod 256].

Definition UINT32_TO_STREAM (p : list Z) (v : Z) : list Z :=
  p ++ [v mod 256; (v / 256) mod 256; (v / 65536) mod 256;
        (v / 16777216) mod 256].

(** [ARRAY_TO_STREAM(p, v.data(), n)]: copies [n] bytes out of the vector. *)
Definition ARRAY_TO_STREAM (p : list Z) (v : list Z) (n : Z) : M (list Z) :=
  if bool_decide (n ≤ Z.of_nat (length v))
  then ret (p ++ take (Z.to_nat n) v)
  else raise (OutOfBounds (length v)).

(** [uint8_t param[len_max]; memset(param, 0, len_max);] followed by the
    writes through [p]. *)
Definition param_of (len_max : Z) (p : list Z) : list Z :=
  p ++ replicate (Z.to_nat len_max - length p) 0.

(** The transport is handed the first [len] bytes of [param]. *)
Definition btu_hcif_send_cmd_with_cb (opcode : Z) (param : list Z) (len : Z)
    (k : continuation) : M unit :=
  modify (emit (EvSend opcode (take (Z.to_nat len) param) k)).

Definition reset_cur_filter_target : M unit :=
  modify (set_target tBLE_BD_ADDR_zero).

Definition BTM_LE_PF_local_name (action filt_index : Z) (name : list Z)
    (cb : callback) : M unit :=
  let len := BTM_BLE_ADV_FILT_META_HDR_LENGTH in
  let len_max := u8 (len + BTM_BLE_PF_STR_LEN_MAX) in
  let p := UINT8_TO_STREAM [] BTM_BLE_META_PF_LOCAL_NAME in
  let p := UINT8_TO_STREAM p action in
  let p := UINT8_TO_STREAM p filt_index in
  '(p, len) ←
    (if bool_decide (action ≠ BTM_BLE_SCAN_COND_CLEAR)
     then
       let size := Z.min (Z.of_nat (length name)) BTM_BLE_PF_STR_LEN_MAX in
       p ← ARRAY_TO_STREAM p name size;
       ret (p, u8 (len + size))
     else ret (p, len));
  (* send local name filter *)
  btu_hcif_send_cmd_with_cb HCI_BLE_ADV_FILTER (param_of len_max p) len
    (Bind_btm_flt_update_cb BTM_BLE_META_PF_LOCAL_NAME cb) ;;
  reset_cur_filter_target.

Definition BTM_LE_PF_srvc_data (action filt_index : Z) : M unit :=
  let num_avail := if bool_decide (action = BTM_BLE_SCAN_COND_ADD) then 0
                   else 1 in
  btm_ble_cs_update_pf_counter action BTM_BLE_PF_SRVC_DATA None num_avail ;;
  ret tt.

Definition BTM_LE_PF_manu_data (action filt_index company_id
    company_id_mask : Z) (data data_mask : list Z) (cb : callback) : M unit :=
  let len := BTM_BLE_ADV_FILT_META_HDR_LENGTH in
  let len_max := len + BTM_BLE_PF_STR_LEN_MAX + BTM_BLE_PF_STR_LEN_MAX in
  let p := UINT8_TO_STREAM [] BTM_BLE_META_PF_MANU_DATA in
  let p := UINT8_TO_STREAM p action in
  let p := UINT8_TO_STREAM p filt_index in
  '(p, len) ←
    (if bool_decide (action ≠ BTM_BLE_SCAN_COND_CLEAR)
     then
       let size := u8 (Z.min (Z.of_nat (length data))
                             (BTM_BLE_PF_STR_LEN_MAX - 2)) in
       let p := UINT16_TO_STREAM p company_id in
       '(p, len) ←
         (if bool_decide (size > 0) && bool_decide (length data_mask ≠ 0%nat)
          then p ← ARRAY_TO_STREAM p data size;
               ret (p, u8 (len + (size + 2)))
          else ret (p, u8 (len + 2)));
       let p := if bool_decide (company_id_mask ≠ 0)
                then UINT16_TO_STREAM p company_id_mask
                else UINT16_TO_STREAM p 65535 in
       let len := u8 (len + 2) in
       (if bool_decide (size > 0) && bool_decide (length data_mask ≠ 0%nat)
        then p ← ARRAY_TO_STREAM p data_mask size;
             ret (p, u8 (len + size))
        else ret (p, len))
     else ret (p, len));
  btu_hcif_send_cmd_with_cb HCI_BLE_ADV_FILTER (param_of len_max p) len
    (Bind_btm_flt_update_cb BTM_BLE_META_PF_MANU_DATA cb) ;;
  reset_cur_filter_target.

Definition BTM_LE_PF_srvc_data_pattern (action filt_index : Z)
    (data data_mask : list Z) (cb : callback) : M unit :=
  let len := BTM_BLE_ADV_FILT_META_HDR_LENGTH in
  let len_max := len + BTM_BLE_PF_STR_LEN_MAX + BTM_BLE_PF_STR_LEN_MAX in
  let p := UINT8_TO_STREAM [] BTM_BLE_META_PF_SRVC_DATA in
  let p := UINT8_TO_STREAM p action in
  let p := UINT8_TO_STREAM p filt_index in
  '(p, len) ←
    (if bool_decide (action ≠ BTM_BLE_SCAN_COND_CLEAR)
     then
       let size := u8 (Z.min (Z.of_nat (length data))
                             (BTM_BLE_PF_STR_LEN_MAX - 2)) in
       if bool_decide (size > 0)
       then p ← ARRAY_TO_STREAM p data size;
            let len := u8 (len + size) in
            p ← ARRAY_TO_STREAM p data_mask size;
            ret (p, u8 (len + size))
       else ret (p, len)
     else ret (p, len));
  btu_hcif_send_cmd_with_cb HCI_BLE_ADV_FILTER (param_of len_max p) len
    (Bind_btm_flt_update_cb BTM_BLE_META_PF_SRVC_DATA cb) ;;
  reset_cur_filter_target.

Definition BTM_LE_PF_addr_filter (action filt_index : Z) (addr : tBLE_BD_ADDR)
    (cb : callback) : M unit :=
  let len := BTM_BLE_ADV_FILT_META_HDR_LENGTH + BTM_BLE_META_ADDR_LEN in
  let p := UINT8_TO_STREAM [] BTM_BLE_META_PF_ADDR in
  let p := UINT8_TO_STREAM p action in
  let p := UINT8_TO_STREAM p filt_index in
  p ←
    (if bool_decide (action ≠ BTM_BLE_SCAN_COND_CLEAR)
     then
       (* Always do the pseudo to id address check! *)
       db ← gets sec;
       let '(addr_bda, addr_type) :=
         btm_random_pseudo_to_identity_addr (bda addr) (type addr) db in
       let p := p ++ BDADDR_TO_STREAM addr_bda in
       (* ALWAYS FORCE 2 for this vendor command! *)
       let addr_type := 2 in
       ret (UINT8_TO_STREAM p addr_type)
     else ret p);
  (* send address filter *)
  btu_hcif_send_cmd_with_cb HCI_BLE_ADV_FILTER (param_of len p) len
    (Bind_btm_flt_update_cb BTM_BLE_META_PF_ADDR cb) ;;
  reset_cur_filter_target.

Definition Uuid_kNumBytes16 : Z := 2.
Definition Uuid_kNumBytes32 : Z := 4.
Definition Uuid_kNumBytes128 : Z := 16.

(** The value and the mask of [BTM_LE_PF_uuid_filter]: [None] is the
    [return] after the illegal-length callback. *)
Definition BTM_LE_PF_uuid_filter (action filt_index filter_type : Z)
    (uuid : Uuid) (cond_logic : Z) (uuid_mask : Uuid) (cb : callback)
    : M unit :=
  let evt_type := if bool_decide (BTM_BLE_PF_SRVC_UUID = filter_type)
                  then BTM_BLE_META_PF_UUID else BTM_BLE_META_PF_SOL_UUID in
  let len := BTM_BLE_ADV_FILT_META_HDR_LENGTH in
  let max_len := u8 (len + BTM_BLE_META_UUID_LEN) in
  let p := UINT8_TO_STREAM [] evt_type in
  let p := UINT8_TO_STREAM p action in
  let p := UINT8_TO_STREAM p filt_index in
  let uuid_len := u8 (GetShortestRepresentationSize uuid) in
  let send (p : list Z) (len : Z) : M unit :=
    (* send UUID filter update *)
    btu_hcif_send_cmd_with_cb HCI_BLE_ADV_FILTER (param_of max_len p) len
      (Bind_btm_flt_update_cb evt_type cb) ;;
    reset_cur_filter_target in
  if bool_decide (action ≠ BTM_BLE_SCAN_COND_CLEAR)
  then
    let value :=
      if bool_decide (uuid_len = Uuid_kNumBytes16)
      then Some (UINT16_TO_STREAM p (As16Bit uuid), u8 (len + Uuid_kNumBytes16))
      else if bool_decide (uuid_len = Uuid_kNumBytes32)
      then Some (UINT32_TO_STREAM p (As32Bit uuid), u8 (len + Uuid_kNumBytes32))
      else if bool_decide (uuid_len = Uuid_kNumBytes128)
      then Some (p ++ take (Z.to_nat Uuid_kNumBytes128) (To128BitLE uuid),
                 u8 (len + Uuid_kNumBytes128))
      else None in
    match value with
    | None => Run cb [0; BTM_BLE_PF_CONFIG; BTM_ILLEGAL_VALUE]
    | Some (p, len) =>
        let '(p, len) :=
          if negb (Uuid_IsEmpty uuid_mask)
          then
            if bool_decide (uuid_len = Uuid_kNumBytes16)
            then (UINT16_TO_STREAM p (As16Bit uuid_mask),
                  u8 (len + Uuid_kNumBytes16))
            else if bool_decide (uuid_len = Uuid_kNumBytes32)
            then (UINT32_TO_STREAM p (As32Bit uuid_mask),
                  u8 (len + Uuid_kNumBytes32))
            else if bool_decide (uuid_len = Uuid_kNumBytes128)
            then (p ++ take (Z.to_nat Uuid_kNumBytes128)
                         (To128BitLE uuid_mask),
                  u8 (len + Uuid_kNumBytes128))
            else (p, len)
          else (p ++ replicate (Z.to_nat uuid_len) 255, u8 (len + uuid_len)) in
        send p len
    end
  else send p len.

End Encoders.

(** ** Public operations *)

Section Operations.
Context `{Header} `{Collaborators}.

Definition is_empty_128bit (data : list Z) : bool :=
  forallb (λ b, bool_decide (b = 0)) data.

(** How one pass through the body of the [for] loop of [BTM_LE_PF_set]
    ends: it goes on to the next command, or the function returns. *)
Inductive flow := Next | Return.

(** The cleanup of an entry of [remove_me_later_map], as
    [BTM_LE_PF_set] and the delete branch of [BTM_BleAdvFilterParamSetup]
    write it: [Return] is the [return] taken when the device cannot be
    removed. *)
Definition replace_existing_entry (filt_index : Z) : M flow :=
  m ← gets remove_me_later_map;
  match m !! filt_index with
  | Some entry =>
      db ← gets sec;
      removed ←
        (if negb (btm_sec_is_a_bonded_dev entry db)
         then
           let '(ok, db') := BTM_SecDeleteDevice entry db in
           modify (set_sec db') ;; ret ok
         else ret true);
      if negb removed then ret Return
      else modify (set_map (delete filt_index m)) ;; ret Next
  | None => ret Next
  end.

(** [std::unordered_map::emplace]: an existing key keeps its value. *)
Definition emplace (k : Z) (v : RawAddress) (m : gmap Z RawAddress)
    : gmap Z RawAddress :=
  match m !! k with Some _ => m | None => <[k := v]> m end.

(** Both sizes non-zero and different: the command is skipped. *)
Definition size_mismatch (cmd : ApcfCommand) : bool :=
  bool_decide (length (cmd_data cmd) ≠ length (cmd_data_mask cmd))
  && bool_decide (length (cmd_data cmd) ≠ 0%nat)
  && bool_decide (length (cmd_data_mask cmd) ≠ 0%nat).

(** The body of the loop over [commands]. *)
Definition BTM_LE_PF_set_cmd (filt_index : Z) (cmd : ApcfCommand) : M flow :=
  let action := BTM_BLE_SCAN_COND_ADD in
  (* If data is passed, both mask and data have to be the same length *)
  if size_mismatch cmd then ret Next
  else if bool_decide (cmd_type cmd = BTM_BLE_PF_ADDR_FILTER) then
    let target_addr :=
      mk_tBLE_BD_ADDR (to_ble_addr_type (cmd_addr_type cmd))
        (cmd_address cmd) in
    BTM_LE_PF_addr_filter action filt_index target_addr CbDoNothing ;;
    if negb (is_empty_128bit (cmd_irk cmd)) then
      (* Save index and addr *)
      r ← replace_existing_entry filt_index;
      match r with
      | Return => ret Return
      | Next =>
          db ← gets sec;
          if btm_find_dev (cmd_address cmd) db then ret Return
          else
            (* Allocate a new "temporary" device record *)
            modify (set_sec (btm_sec_alloc_dev (cmd_address cmd) db)) ;;
            m ← gets remove_me_later_map;
            modify (set_map (emplace filt_index (cmd_address cmd) m)) ;;
            (* Set the IRK *)
            let pid_keys :=
              mk_tBTM_LE_PID_KEYS (cmd_irk cmd)
                (to_ble_addr_type (cmd_addr_type cmd)) (cmd_address cmd) in
            db ← gets sec;
            modify (set_sec (BTM_SecAddBleKey (cmd_address cmd) pid_keys
                               BTM_LE_KEY_PID db)) ;;
            ret Next
      end
    else ret Next
  else if bool_decide (cmd_type cmd = BTM_BLE_PF_SRVC_DATA) then
    BTM_LE_PF_srvc_data action filt_index ;; ret Next
  else if bool_decide (cmd_type cmd = BTM_BLE_PF_SRVC_UUID)
          || bool_decide (cmd_type cmd = BTM_BLE_PF_SRVC_SOL_UUID) then
    BTM_LE_PF_uuid_filter action filt_index (cmd_type cmd) (cmd_uuid cmd)
      BTM_BLE_PF_LOGIC_AND (cmd_uuid_mask cmd) CbDoNothing ;;
    ret Next
  else if bool_decide (cmd_type cmd = BTM_BLE_PF_LOCAL_NAME) then
    BTM_LE_PF_local_name action filt_index (cmd_name cmd) CbDoNothing ;;
    ret Next
  else if bool_decide (cmd_type cmd = BTM_BLE_PF_MANU_DATA) then
    BTM_LE_PF_manu_data action filt_index (cmd_company cmd)
      (cmd_company_mask cmd) (cmd_data cmd) (cmd_data_mask cmd) CbDoNothing ;;
    ret Next
  else if bool_decide (cmd_type cmd = BTM_BLE_PF_SRVC_DATA_PATTERN) then
    BTM_LE_PF_srvc_data_pattern action filt_index (cmd_data cmd)
      (cmd_data_mask cmd) CbDoNothing ;;
    ret Next
  else ret Next.

Fixpoint BTM_LE_PF_set_loop (filt_index : Z) (commands : list ApcfCommand)
    : M flow :=
  match commands with
  | [] => ret Next
  | cmd :: rest =>
      r ← BTM_LE_PF_set_cmd filt_index cmd;
      match r with
      | Return => ret Return
      | Next => BTM_LE_PF_set_loop filt_index rest
      end
  end.

Definition BTM_LE_PF_set (filt_index : Z) (commands : list ApcfCommand)
    (cb : callback) : M unit :=
  supported ← gets is_filtering_supported;
  if negb supported
  then Run cb [0; BTM_BLE_PF_ENABLE; BTM_MODE_UNSUPPORTED]
  else
    r ← BTM_LE_PF_set_loop filt_index commands;
    match r with
    | Return => ret tt
    | Next => Run cb [0; 0; BTM_SUCCESS]
    end.

(** all adv payload filter by de-selecting all the adv pf feature bits *)
Definition BTM_LE_PF_clear (filt_index : Z) (cb : callback) : M unit :=
  supported ← gets is_filtering_supported;
  if negb supported
  then Run cb [0; BTM_BLE_PF_ENABLE; BTM_MODE_UNSUPPORTED]
  else
    (* clear the general filter entry *)
    let fDoNothing := CbNull in
    (* clear manufactuer data filter *)
    BTM_LE_PF_manu_data BTM_BLE_SCAN_COND_CLEAR filt_index 0 0 [] []
      fDoNothing ;;
    (* clear local name filter *)
    BTM_LE_PF_local_name BTM_BLE_SCAN_COND_CLEAR filt_index [] fDoNothing ;;
    (* update the counter for service data *)
    BTM_LE_PF_srvc_data BTM_BLE_SCAN_COND_CLEAR filt_index ;;
    (* clear UUID filter *)
    BTM_LE_PF_uuid_filter BTM_BLE_SCAN_COND_CLEAR filt_index
      BTM_BLE_PF_SRVC_UUID Uuid_default 0 Uuid_kEmpty fDoNothing ;;
    BTM_LE_PF_uuid_filter BTM_BLE_SCAN_COND_CLEAR filt_index
      BTM_BLE_PF_SRVC_SOL_UUID Uuid_default 0 Uuid_kEmpty fDoNothing ;;
    (* clear service data filter *)
    BTM_LE_PF_srvc_data_pattern BTM_BLE_SCAN_COND_CLEAR filt_index [] []
      fDoNothing ;;
    (* If we have an entry, lets remove the device if it isn't bonded *)
    m ← gets remove_me_later_map;
    match m !! filt_index with
    | Some entry =>
        db ← gets sec;
        if negb (btm_sec_is_a_bonded_dev entry db)
        then modify (set_sec (snd (BTM_SecDeleteDevice entry db)))
        else ret tt
    | None => ret tt
    end ;;
    let len := u8 (BTM_BLE_ADV_FILT_META_HDR_LENGTH
                   + BTM_BLE_PF_FEAT_SEL_LEN) in
    (* select feature based on control block settings *)
    let p := UINT8_TO_STREAM [] BTM_BLE_META_PF_FEAT_SEL in
    let p := UINT8_TO_STREAM p BTM_BLE_SCAN_COND_CLEAR in
    let p := UINT8_TO_STREAM p filt_index in
    (* set PCF selection *)
    let p := UINT32_TO_STREAM p BTM_BLE_PF_SELECT_NONE in
    (* set logic condition as OR as default *)
    let p := UINT8_TO_STREAM p BTM_BLE_PF_LOGIC_OR in
    btu_hcif_send_cmd_with_cb HCI_BLE_ADV_FILTER (param_of len p) len
      (Bind_btm_flt_update_cb BTM_BLE_META_PF_FEAT_SEL cb) ;;
    reset_cur_filter_target.

(** [p_filt_params] is a [std::unique_ptr]: [None] is the null pointer.
    [param] has the length computed at the head of the function. *)
Definition BTM_BleAdvFilterParamSetup (action filt_index : Z)
    (p_filt_params : option btgatt_filt_param_setup_t) (cb : callback)
    : M unit :=
  let param_len := u8 (BTM_BLE_ADV_FILT_META_HDR_LENGTH
                       + BTM_BLE_ADV_FILT_FEAT_SELN_LEN
                       + BTM_BLE_ADV_FILT_TRACK_NUM) in
  supported ← gets is_filtering_supported;
  if negb supported
  then Run cb [0; BTM_BLE_PF_ENABLE; btm_status_value BTM_MODE_UNSUPPORTED]
  else if bool_decide (BTM_BLE_SCAN_COND_ADD = action) then
    p_bda_filter ← btm_ble_find_addr_filter_counter None;
    match p_bda_filter with
    | None => Run cb [0; BTM_BLE_PF_ENABLE; btm_status_value BTM_UNKNOWN_ADDR]
    | Some _ =>
        match p_filt_params with
        | None => raise NullDeref
        | Some params =>
            vsc ← gets cmn_ble_vsc_cb;
            (* select feature based on control block settings *)
            let p := UINT8_TO_STREAM [] BTM_BLE_META_PF_FEAT_SEL in
            let p := UINT8_TO_STREAM p BTM_BLE_SCAN_COND_ADD in
            (* Filter index *)
            let p := UINT8_TO_STREAM p filt_index in
            (* set PCF selection *)
            let p := UINT16_TO_STREAM p (feat_seln params) in
            (* set logic type *)
            let p := UINT16_TO_STREAM p (list_logic_type params) in
            (* set logic condition *)
            let p := UINT8_TO_STREAM p (filt_logic_type params) in
            (* set RSSI high threshold *)
            let p := UINT8_TO_STREAM p (rssi_high_thres params) in
            (* set delivery mode *)
            let p := UINT8_TO_STREAM p (dely_mode params) in
            let p :=
              if bool_decide (1 = dely_mode params) then
                (* set onfound timeout *)
                let p := UINT16_TO_STREAM p (found_timeout params) in
                (* set onfound timeout count*)
                let p := UINT8_TO_STREAM p (found_timeout_cnt params) in
                (* set RSSI low threshold *)
                let p := UINT8_TO_STREAM p (rssi_low_thres params) in
                (* set onlost timeout *)
                let p := UINT16_TO_STREAM p (lost_timeout params) in
                (* set num_of_track_entries for firmware greater than
                   L-release version *)
                if bool_decide (version_supported vsc
                                > BTM_VSC_CHIP_CAPABILITY_L_VERSION)
                then UINT16_TO_STREAM p (num_of_tracking_entries params)
                else p
              else p in
            let len :=
              if bool_decide (version_supported vsc
                              = BTM_VSC_CHIP_CAPABILITY_L_VERSION)
              then u8 (BTM_BLE_ADV_FILT_META_HDR_LENGTH
                       + BTM_BLE_ADV_FILT_FEAT_SELN_LEN)
              else u8 (BTM_BLE_ADV_FILT_META_HDR_LENGTH
                       + BTM_BLE_ADV_FILT_FEAT_SELN_LEN
                       + BTM_BLE_ADV_FILT_TRACK_NUM) in
            if BLE_ADV_FILTER
            then btu_hcif_send_cmd_with_cb HCI_BLE_ADV_FILTER
                   (param_of param_len p) len
                   (Bind_btm_flt_update_cb BTM_BLE_META_PF_FEAT_SEL cb)
            else ret tt
        end
    end
  else if bool_decide (BTM_BLE_SCAN_COND_DELETE = action) then
    (* select feature based on control block settings *)
    let p := UINT8_TO_STREAM [] BTM_BLE_META_PF_FEAT_SEL in
    let p := UINT8_TO_STREAM p BTM_BLE_SCAN_COND_DELETE in
    (* Filter index *)
    let p := UINT8_TO_STREAM p filt_index in
    if BLE_ADV_FILTER
    then
      btu_hcif_send_cmd_with_cb HCI_BLE_ADV_FILTER (param_of param_len p)
        (u8 BTM_BLE_ADV_FILT_META_HDR_LENGTH)
        (Bind_btm_flt_update_cb BTM_BLE_META_PF_FEAT_SEL cb) ;;
      replace_existing_entry filt_index ;;
      ret tt
    else ret tt
  else if bool_decide (BTM_BLE_SCAN_COND_CLEAR = action) then
    (* Deallocate all filters here *)
    btm_ble_dealloc_addr_filter_counter None BTM_BLE_PF_TYPE_ALL ;;
    (* select feature based on control block settings *)
    let p := UINT8_TO_STREAM [] BTM_BLE_META_PF_FEAT_SEL in
    let p := UINT8_TO_STREAM p BTM_BLE_SCAN_COND_CLEAR in
    btu_hcif_send_cmd_with_cb HCI_BLE_ADV_FILTER (param_of param_len p)
      (u8 (BTM_BLE_ADV_FILT_META_HDR_LENGTH - 1))
      (Bind_btm_flt_update_cb BTM_BLE_META_PF_FEAT_SEL cb)
  else ret tt.

Definition BTM_BleEnableDisableFilterFeature (enable : Z)
    (p_stat_cback : callback) : M unit :=
  supported ← gets is_filtering_supported;
  if negb supported
  then
    if bool_decide (p_stat_cback ≠ CbNull)
    then Run p_stat_cback [BTM_BLE_PF_ENABLE; BTM_MODE_UNSUPPORTED]
    else ret tt
  else
    let p := UINT8_TO_STREAM [] BTM_BLE_META_PF_ENABLE in
    let p := UINT8_TO_STREAM p enable in
    btu_hcif_send_cmd_with_cb HCI_BLE_ADV_FILTER (param_of 20 p)
      BTM_BLE_PCF_ENABLE_LEN (Bind_enable_cmpl_cback p_stat_cback).

(** [btm_ble_adv_filter_init]: the control block is zeroed, the
    capabilities are read, and a table of [max_filter] entries is
    allocated. *)
Definition btm_ble_adv_filter_init : M unit :=
  modify (λ st,
    mk_state BTM_BleGetVendorCapabilities
      (mk_tBTM_BLE_ADV_FILTER_CB 0 [] tBLE_BD_ADDR_zero)
      (remove_me_later_map st) (sec st) (trace st)) ;;
  supported ← gets is_filtering_supported;
  if negb supported then ret tt
  else
    vsc ← gets cmn_ble_vsc_cb;
    if bool_decide (0 < max_filter vsc)%nat
    then modify (set_table (osi_malloc (max_filter vsc)))
    else ret tt.

End Operations.

(** ** A reference configuration *)

(** Modelled from the spec: the constants are declared in headers outside
    this file.  The action values are those of the command envelope
    (Add = 1, Delete = 2, Clear = 3).  The spec gives no numbers for the
    other enumerators: condition types and subcodes are numbered in the
    order in which the [switch] statements of the file list them, the
    remaining constants are given distinct values. *)
Definition reference_header : Header := {|
  BTM_BLE_SCAN_COND_ADD := 1;
  BTM_BLE_SCAN_COND_DELETE := 2;
  BTM_BLE_SCAN_COND_CLEAR := 3;
  BTM_BLE_PF_ADDR_FILTER := 0;
  BTM_BLE_PF_SRVC_DATA := 1;
  BTM_BLE_PF_SRVC_UUID := 2;
  BTM_BLE_PF_SRVC_SOL_UUID := 3;
  BTM_BLE_PF_LOCAL_NAME := 4;
  BTM_BLE_PF_MANU_DATA := 5;
  BTM_BLE_PF_SRVC_DATA_PATTERN := 6;
  BTM_BLE_PF_TYPE_ALL := 7;
  BTM_BLE_PF_TYPE_MAX := 8;
  BTM_BLE_META_PF_ENABLE := 0;
  BTM_BLE_META_PF_FEAT_SEL := 1;
  BTM_BLE_META_PF_ADDR := 2;
  BTM_BLE_META_PF_UUID := 3;
  BTM_BLE_META_PF_SOL_UUID := 4;
  BTM_BLE_META_PF_LOCAL_NAME := 5;
  BTM_BLE_META_PF_MANU_DATA := 6;
  BTM_BLE_META_PF_SRVC_DATA := 7;
  BTM_BLE_META_PF_ALL := 8;
  BTM_BLE_PF_STR_LEN_MAX := 29;
  BTM_BLE_PF_ENABLE := 1;
  BTM_BLE_PF_CONFIG := 2;
  BTM_BLE_PF_LOGIC_OR := 0;
  BTM_BLE_PF_LOGIC_AND := 1;
  BTM_SUCCESS := 0;
  BTM_ERR_PROCESSING := 10;
  BTM_MODE_UNSUPPORTED := 4;
  BTM_ILLEGAL_VALUE := 5;
  BTM_UNKNOWN_ADDR := 7;
  HCI_SUCCESS := 0;
  HCI_BLE_ADV_FILTER := 64855;
  BTM_VSC_CHIP_CAPABILITY_L_VERSION := 55;
  BTM_LE_KEY_PID := 2;
  BLE_ADV_FILTER := true;
  btm_status_value := λ s, s;
  to_ble_addr_type := λ t, t;
  BDADDR_TO_STREAM := λ a, rev (address a)
|}.

(** A small security manager: a device record is an address with a bonded
    and a connected flag, and a connected device cannot be deleted. *)
Record device := mk_device {
  dev_addr : RawAddress;
  dev_bonded : bool;
  dev_connected : bool
}.

Definition has_device (a : RawAddress) (d : device) : bool :=
  bool_decide (dev_addr d = a).

Definition reference_collaborators : Collaborators := {|
  sec_db := list device;
  btm_sec_is_a_bonded_dev := λ a db,
    existsb (λ d, has_device a d && dev_bonded d) db;
  BTM_SecDeleteDevice := λ a db,
    if existsb (λ d, has_device a d && dev_connected d) db
    then (false, db)
    else (true, filter (λ d, has_device a d = false) db);
  btm_find_dev := λ a db, existsb (has_device a) db;
  btm_sec_alloc_dev := λ a db, mk_device a false false :: db;
  BTM_SecAddBleKey := λ _ _ _ db, db;
  btm_random_pseudo_to_identity_addr := λ a t _, (a, t);
  Uuid := list Z;
  Uuid_default := replicate 16%nat 0;
  Uuid_kEmpty := replicate 16%nat 0;
  Uuid_IsEmpty := λ u, forallb (λ b, bool_decide (b = 0)) u;
  GetShortestRepresentationSize := λ u, Z.of_nat (length u);
  As16Bit := λ u, nth 0 u 0 + 256 * nth 1 u 0;
  As32Bit := λ u, nth 0 u 0 + 256 * nth 1 u 0 + 65536 * nth 2 u 0
                  + 16777216 * nth 3 u 0;
  To128BitLE := λ u, u;
  BTM_BleGetVendorCapabilities := mk_tBTM_BLE_VSC_CB 1 2 96;
  osi_malloc := λ n,
    replicate n (mk_tBTM_BLE_PF_COUNT false RawAddress_kEmpty
                   (replicate 8%nat 0));
  osi_malloc_length := λ n, length_replicate n _
|}.

Definition AA_BB_CC_DD_EE_FF : RawAddress :=
  mkRawAddress [170; 187; 204; 221; 238; 255].

Definition free_slot : tBTM_BLE_PF_COUNT :=
  mk_tBTM_BLE_PF_COUNT false RawAddress_kEmpty (replicate 8%nat 0).

(** Two filters supported, a table with the generic entry and the two
    entries the scans visit, nothing pending. *)
Definition reference_state (tbl : list tBTM_BLE_PF_COUNT)
    (tgt : tBLE_BD_ADDR) (m : gmap Z RawAddress) (db : list device)
    : @state reference_collaborators :=
  @mk_state reference_collaborators (mk_tBTM_BLE_VSC_CB 1 2 96)
    (mk_tBTM_BLE_ADV_FILTER_CB 0 tbl tgt) m db [].

Definition idle_state : @state reference_collaborators :=
  reference_state [free_slot; free_slot; free_slot] tBLE_BD_ADDR_zero ∅ [].

(** Entry 1 is bound to AA:BB:CC:DD:EE:FF. *)
Definition bound_slot : tBTM_BLE_PF_COUNT :=
  mk_tBTM_BLE_PF_COUNT true AA_BB_CC_DD_EE_FF (replicate 8%nat 0).

Definition busy_state : @state reference_collaborators :=
  reference_state [free_slot; bound_slot; free_slot] tBLE_BD_ADDR_zero ∅ [].

(** Filter index 5 has a temporary record for AA:BB:CC:DD:EE:FF, which is
    not bonded and still connected. *)
Definition pending_state : @state reference_collaborators :=
  reference_state [free_slot; free_slot; free_slot] tBLE_BD_ADDR_zero
    {[ 5 := AA_BB_CC_DD_EE_FF ]} [mk_device AA_BB_CC_DD_EE_FF false true].

(** The pending target holds AA:BB:CC:DD:EE:FF. *)
Definition stale_target_state : @state reference_collaborators :=
  reference_state [free_slot; free_slot; free_slot]
    (mk_tBLE_BD_ADDR 0 AA_BB_CC_DD_EE_FF) ∅ [].

(** Another subsystem already has a record for AA:BB:CC:DD:EE:FF; the
    table has the two entries that initialisation allocates. *)
Definition known_device_state : @state reference_collaborators :=
  reference_state [free_slot; free_slot] tBLE_BD_ADDR_zero ∅
    [mk_device AA_BB_CC_DD_EE_FF true false].

(** The controller reports no filter support. *)
Definition unsupported_state : @state reference_collaborators :=
  @mk_state reference_collaborators (mk_tBTM_BLE_VSC_CB 0 0 0)
    (mk_tBTM_BLE_ADV_FILTER_CB 0 [] tBLE_BD_ADDR_zero) ∅ [] [].

(** An address command that carries an IRK. *)
Definition irk_command : @ApcfCommand reference_collaborators :=
  @mk_ApcfCommand reference_collaborators 0 AA_BB_CC_DD_EE_FF 0
    (replicate 16%nat 0) (replicate 16%nat 0) [] 0 0 [] []
    (1 :: replicate 15%nat 0).

(** A manufacturer-data command with two data bytes and one mask byte. *)
Definition mismatched_command : @ApcfCommand reference_collaborators :=
  @mk_ApcfCommand reference_collaborators 5 RawAddress_kEmpty 0
    (replicate 16%nat 0) (replicate 16%nat 0) [] 76 0 [1; 2] [255]
    (replicate 16%nat 0).

(** A second address, 11:22:33:44:55:66. *)
Definition ADDR_11_22_33_44_55_66 : RawAddress :=
  mkRawAddress [17; 34; 51; 68; 85; 102].

(** A local-name command. *)
Definition name_command : @ApcfCommand reference_collaborators :=
  @mk_ApcfCommand reference_collaborators 4 RawAddress_kEmpty 0
    (replicate 16%nat 0) (replicate 16%nat 0) [78; 97] 0 0 [] []
    (replicate 16%nat 0).

(** The 16-bit UUID 0x180F. *)
Definition uuid_180F : @Uuid reference_collaborators := [15; 24].

(** Filter parameters with immediate delivery. *)
Definition immediate_params : btgatt_filt_param_setup_t :=
  mk_btgatt_filt_param_setup_t 1 0 1 176 170 0 0 0 0 0.

(** The control block as [btm_ble_adv_filter_init] leaves it on this
    configuration: two filters supported and a table of two entries, the
    generic entry and one per-address entry. *)
Definition ready_state : @state reference_collaborators :=
  reference_state [free_slot; free_slot] tBLE_BD_ADDR_zero ∅ [].

(** The same table with its per-address entry bound to
    AA:BB:CC:DD:EE:FF. *)
Definition bound_state : @state reference_collaborators :=
  reference_state [free_slot; bound_slot] tBLE_BD_ADDR_zero ∅ [].

(** The same collaborators with an allocator that hands out memory as it
    was left: every entry of the block still holds an old entry in use for
    AA:BB:CC:DD:EE:FF.  [osi_malloc] does not initialise what it
    returns. *)
Definition stale_heap_collaborators : Collaborators := {|
  sec_db := list device;
  btm_sec_is_a_bonded_dev := @btm_sec_is_a_bonded_dev reference_collaborators;
  BTM_SecDeleteDevice := @BTM_SecDeleteDevice reference_collaborators;
  btm_find_dev := @btm_find_dev reference_collaborators;
  btm_sec_alloc_dev := @btm_sec_alloc_dev reference_collaborators;
  BTM_SecAddBleKey := @BTM_SecAddBleKey reference_collaborators;
  btm_random_pseudo_to_identity_addr :=
    @btm_random_pseudo_to_identity_addr reference_collaborators;
  Uuid := list Z;
  Uuid_default := @Uuid_default reference_collaborators;
  Uuid_kEmpty := @Uuid_kEmpty reference_collaborators;
  Uuid_IsEmpty := @Uuid_IsEmpty reference_collaborators;
  GetShortestRepresentationSize :=
    @GetShortestRepresentationSize reference_collaborators;
  As16Bit := @As16Bit reference_collaborators;
  As32Bit := @As32Bit reference_collaborators;
  To128BitLE := @To128BitLE reference_collaborators;
  BTM_BleGetVendorCapabilities := mk_tBTM_BLE_VSC_CB 1 2 96;
  osi_malloc := λ n, replicate n bound_slot;
  osi_malloc_length := λ n, length_replicate n _
|}.

(** What initialisation leaves with that allocator: a table of two
    entries, both as the allocator returned them. *)
Definition stale_state : @state stale_heap_collaborators :=
  @mk_state stale_heap_collaborators (mk_tBTM_BLE_VSC_CB 1 2 96)
    (mk_tBTM_BLE_ADV_FILTER_CB 0 [bound_slot; bound_slot] tBLE_BD_ADDR_zero)
    ∅ [] [].

(** A UUID of three bytes, which is none of the legal widths. *)
Definition uuid_of_three_bytes : @Uuid reference_collaborators := [1; 2; 3].

(** ** Vocabulary of the statements *)

Section Vocabulary.
Context `{Header} `{Collaborators}.

(** What a scan that clears entries does to one entry: an entry in use
    is zeroed, another is kept. *)
Definition wipe (s : tBTM_BLE_PF_COUNT) : tBTM_BLE_PF_COUNT :=
  if in_use s then tBTM_BLE_PF_COUNT_zero else s.

(** [wipe] applied to the entries [lo], ..., [lo + n - 1]. *)
Definition wipe_range (lo n : nat) (tbl : list tBTM_BLE_PF_COUNT)
    : list tBTM_BLE_PF_COUNT :=
  imap (λ i s, if bool_decide (lo ≤ i < lo + n)%nat then wipe s else s) tbl.

(** [st'] extends the trace of [st] by commands only: no callback ran. *)
Definition only_sends (st st' : state) : Prop :=
  ∃ l, trace st' = trace st ++ l ∧ Forall is_send l.

(** A command type without a [case] in [BTM_LE_PF_set]. *)
Definition unknown_type (cmd : ApcfCommand) : bool :=
  bool_decide (cmd_type cmd ∉
    [BTM_BLE_PF_ADDR_FILTER; BTM_BLE_PF_SRVC_DATA; BTM_BLE_PF_SRVC_UUID;
     BTM_BLE_PF_SRVC_SOL_UUID; BTM_BLE_PF_LOCAL_NAME; BTM_BLE_PF_MANU_DATA;
     BTM_BLE_PF_SRVC_DATA_PATTERN]).

(** A computation that, when it returns, has run no callback. *)
Definition sends_only {A} (m : M A) : Prop :=
  ∀ st a st', m st = Ok (a, st') → only_sends st st'.

(** A command [BTM_LE_PF_set] passes over: sizes that do not match, or a
    type it does not know. *)
Definition skipped (cmd : ApcfCommand) : bool :=
  size_mismatch cmd || unknown_type cmd.

Definition effective (commands : list ApcfCommand) : list ApcfCommand :=
  List.filter (λ cmd, negb (skipped cmd)) commands.

(** The first three bytes of every filter command. *)
Definition header_bytes (ocf action filt_index : Z) : list Z :=
  [u8 ocf; u8 action; u8 filt_index].

(** The acknowledgement the controller sends: status, echoed subcode,
    echoed action, number of available entries. *)
Definition ack (status ocf action num_avail : Z) : list Z :=
  [status; ocf; action; num_avail].

(** Among the entries 1, ..., [max] no two entries in use are bound to the
    same address. *)
Definition one_slot_per_address (max : nat)
    (tbl : list tBTM_BLE_PF_COUNT) : Prop :=
  ∀ i j si sj,
    (1 ≤ i ≤ max)%nat → (1 ≤ j ≤ max)%nat →
    tbl !! i = Some si → tbl !! j = Some sj →
    in_use si = true → in_use sj = true →
    bd_addr si = bd_addr sj → i = j.

(** Two and four bytes, least significant first. *)
Definition le16 (v : Z) : list Z := [v mod 256; (v / 256) mod 256].

Definition le32 (v : Z) : list Z :=
  [v mod 256; (v / 256) mod 256; (v / 65536) mod 256;
   (v / 16777216) mod 256].

(** The entry [s] with the counter of condition type [cond_type] set. *)
Definition with_counter (s : tBTM_BLE_PF_COUNT) (cond_type c : Z)
    : tBTM_BLE_PF_COUNT :=
  mk_tBTM_BLE_PF_COUNT (in_use s) (bd_addr s)
    (<[Z.to_nat cond_type := c]> (pf_counter s)).

(** A computation that keeps the property [I] of the state: when it runs
    on a state with [I] and returns, the state it leaves has [I]. *)
Definition preserves {A} (I : state → Prop) (m : M A) : Prop :=
  ∀ st a st', I st → m st = Ok (a, st') → I st'.

(** Every event that a computation adds to the trace has [P]. *)
Definition appends {A} (P : event → Prop) (m : M A) : Prop :=
  ∀ st a st', m st = Ok (a, st') →
    ∃ l, trace st' = trace st ++ l ∧ Forall P l.

(** The subcodes of the six condition encoders. *)
Definition condition_subcodes : list Z :=
  [BTM_BLE_META_PF_ADDR; BTM_BLE_META_PF_UUID; BTM_BLE_META_PF_SOL_UUID;
   BTM_BLE_META_PF_LOCAL_NAME; BTM_BLE_META_PF_MANU_DATA;
   BTM_BLE_META_PF_SRVC_DATA].

(** The second byte of a command, when the command has one, is the byte of
    [action]. *)
Definition carries_action (action : Z) (e : event) : Prop :=
  match e with
  | EvSend _ payload _ => ∀ x, payload !! 1%nat = Some x → x = u8 action
  | EvRun _ _ => True
  end.

(** A command bound to a condition subcode whose action byte is Clear
    consists of the three header bytes. *)
Definition clear_is_header_only (e : event) : Prop :=
  match e with
  | EvSend _ payload (Bind_btm_flt_update_cb ocf _) =>
      ocf ∈ condition_subcodes →
      payload !! 1%nat = Some (u8 BTM_BLE_SCAN_COND_CLEAR) →
      ∃ filt_index,
        payload = header_bytes ocf BTM_BLE_SCAN_COND_CLEAR filt_index
  | _ => True
  end.

(** The two early returns of the address case of [BTM_LE_PF_set], for a
    command that carries an identity resolving key: the filter index has a
    temporary record of a device that is not bonded and cannot be deleted,
    or, once that record is out of the way, the device records have a
    record of the command's address. *)
Definition irk_returns_early (filt_index : Z) (cmd : ApcfCommand)
    (st : state) : bool :=
  match remove_me_later_map st !! filt_index with
  | Some entry =>
      if btm_sec_is_a_bonded_dev entry (sec st)
      then btm_find_dev (cmd_address cmd) (sec st)
      else if fst (BTM_SecDeleteDevice entry (sec st))
           then btm_find_dev (cmd_address cmd)
                  (snd (BTM_SecDeleteDevice entry (sec st)))
           else true
  | None => btm_find_dev (cmd_address cmd) (sec st)
  end.

(** One call into the file after initialisation: a public operation, or
    the completion of a command with the controller's reply.  Replies are
    not matched with the commands sent: any reply may arrive at any
    time. *)
Inductive call : state → state → Prop :=
  | call_set filt_index commands cb st st' :
      BTM_LE_PF_set filt_index commands cb st = Ok (tt, st') → call st st'
  | call_clear filt_index cb st st' :
      BTM_LE_PF_clear filt_index cb st = Ok (tt, st') → call st st'
  | call_param_setup action filt_index p_filt_params cb st st' :
      BTM_BleAdvFilterParamSetup action filt_index p_filt_params cb st
      = Ok (tt, st') →
      call st st'
  | call_enable enable p_stat_cback st st' :
      BTM_BleEnableDisableFilterFeature enable p_stat_cback st
      = Ok (tt, st') →
      call st st'
  | call_flt_update_cb expected_ocf cb p evt_len st st' :
      btm_flt_update_cb expected_ocf cb p evt_len st = Ok (tt, st') →
      call st st'
  | call_enable_cmpl_cback p_stat_cback p evt_len st st' :
      enable_cmpl_cback p_stat_cback p evt_len st = Ok (tt, st') →
      call st st'.

(** The states of a run: what initialisation leaves, and what calls that
    return make of it. *)
Inductive reachable : state → Prop :=
  | reachable_init st0 st :
      btm_ble_adv_filter_init st0 = Ok (tt, st) → reachable st
  | reachable_call st st' : reachable st → call st st' → reachable st'.

(** A computation that, when it returns, has left the device records and
    the map of temporary identity records as they were. *)
Definition keeps_records {A} (m : M A) : Prop :=
  ∀ st a st', m st = Ok (a, st') →
    sec st' = sec st ∧ remove_me_later_map st' = remove_me_later_map st.

(** An address command that carries an identity resolving key. *)
Definition carries_irk (cmd : ApcfCommand) : bool :=
  bool_decide (cmd_type cmd = BTM_BLE_PF_ADDR_FILTER)
  && negb (is_empty_128bit (cmd_irk cmd)).

End Vocabulary.

(** * Properties *)

Section MonadLemmas.
Context `{Header} `{Collaborators}.

Lemma bind_Ok {A B} (m : M A) (k : A → M B) st a st1 :
  m st = Ok (a, st1) → (m ≫= k) st = k a st1.
Proof. intros Hm. unfold mbind, M_bind, bind. by rewrite Hm. Qed.

Lemma bind_Fault {A B} (m : M A) (k : A → M B) st f :
  m st = Fault f → (m ≫= k) st = Fault f.
Proof. intros Hm. unfold mbind, M_bind, bind. by rewrite Hm. Qed.

Lemma bind_inv {A B} (m : M A) (k : A → M B) st b st' :
  (m ≫= k) st = Ok (b, st') →
  ∃ a st1, m st = Ok (a, st1) ∧ k a st1 = Ok (b, st').
Proof.
  unfold mbind, M_bind, bind. destruct (m st) as [[a st1]|f]; [|done].
  intros Hk. by exists a, st1.
Qed.

End MonadLemmas.

Ltac monad_simpl :=
  unfold mbind, M_bind, bind, ret, gets, modify, raise in *; simpl in *.

Section RouterProperties.
Context `{Header} `{Collaborators}.

(** C6. For every action, address argument and availability value, the
    counter update called with a condition type above
    [BTM_BLE_PF_TYPE_ALL] returns the invalid-counter sentinel 0xFF and
    leaves the whole state, so every slot, as it was. *)
Theorem update_pf_counter_unknown_type (action cond_type : Z)
    (p_bd_addr : option tBLE_BD_ADDR) (num_available : Z) (st : state) :
  cond_type > BTM_BLE_PF_TYPE_ALL →
  btm_ble_cs_update_pf_counter action cond_type p_bd_addr num_available st
    = Ok (BTM_BLE_INVALID_COUNTER, st)
  ∧ BTM_BLE_INVALID_COUNTER = 255.
Proof.
  intros Hty. split; [|reflexivity].
  unfold btm_ble_cs_update_pf_counter.
  by rewrite bool_decide_eq_true_2.
Qed.

(** C5. A reply whose length is not four, or a four-byte reply whose
    echoed subcode is not the expected one, is dropped: the router returns
    the state it was given, so no continuation has run (the trace is the
    same) and the slot table is the same. *)
Theorem flt_update_cb_drops_mismatch (expected_ocf : Z) (cb : callback)
    (p : list Z) (evt_len : Z) (st : state) :
  evt_len ≠ 4
  ∨ (∃ status op_subcode action num_avail rest,
       p = status :: op_subcode :: action :: num_avail :: rest
       ∧ op_subcode ≠ expected_ocf) →
  btm_flt_update_cb expected_ocf cb p evt_len st = Ok (tt, st).
Proof.
  intros [Hlen | (status & op_subcode & action & num_avail & rest & -> & Hne)];
    unfold btm_flt_update_cb.
  - by rewrite bool_decide_eq_true_2.
  - destruct (bool_decide (evt_len ≠ 4)); [done|].
    by rewrite bool_decide_eq_true_2.
Qed.

Lemma is_filtering_supported_false (st : state) :
  filter_support (cmn_ble_vsc_cb st) = 0
  ∨ max_filter (cmn_ble_vsc_cb st) = 0%nat →
  is_filtering_supported st = false.
Proof.
  unfold is_filtering_supported. intros [-> | ->]; [done|].
  by rewrite andb_false_r.
Qed.

(** C7. When the capability record reports no filter support or a zero
    maximum filter count, each public operation does nothing but run the
    caller's callback once with the unsupported status: the trace gains
    that one callback event and no command.  Enabling or disabling the
    feature with no callback at all does nothing. *)
Theorem unsupported_fails_fast (st : state) (id : nat) :
  filter_support (cmn_ble_vsc_cb st) = 0
  ∨ max_filter (cmn_ble_vsc_cb st) = 0%nat →
  (∀ filt_index commands,
     BTM_LE_PF_set filt_index commands (CbClient id) st
     = Ok (tt, emit (EvRun id [0; BTM_BLE_PF_ENABLE; BTM_MODE_UNSUPPORTED])
                 st))
  ∧ (∀ filt_index,
       BTM_LE_PF_clear filt_index (CbClient id) st
       = Ok (tt, emit (EvRun id [0; BTM_BLE_PF_ENABLE; BTM_MODE_UNSUPPORTED])
                   st))
  ∧ (∀ action filt_index p_filt_params,
       BTM_BleAdvFilterParamSetup action filt_index p_filt_params
         (CbClient id) st
       = Ok (tt, emit (EvRun id [0; BTM_BLE_PF_ENABLE;
                                 btm_status_value BTM_MODE_UNSUPPORTED]) st))
  ∧ (∀ enable,
       BTM_BleEnableDisableFilterFeature enable (CbClient id) st
       = Ok (tt, emit (EvRun id [BTM_BLE_PF_ENABLE; BTM_MODE_UNSUPPORTED])
                   st)
       ∧ BTM_BleEnableDisableFilterFeature enable CbNull st = Ok (tt, st)).
Proof.
  intros Hcap. apply is_filtering_supported_false in Hcap.
  repeat split; intros;
    unfold BTM_LE_PF_set, BTM_LE_PF_clear, BTM_BleAdvFilterParamSetup,
      BTM_BleEnableDisableFilterFeature;
    monad_simpl; by rewrite Hcap.
Qed.

End RouterProperties.

Section AccountingProperties.
Context `{Header} `{Collaborators}.

Lemma table_set_table (t : list tBTM_BLE_PF_COUNT) (st : state) :
  table (set_table t st) = t.
Proof. reflexivity. Qed.

Lemma vsc_set_table (t : list tBTM_BLE_PF_COUNT) (st : state) :
  cmn_ble_vsc_cb (set_table t st) = cmn_ble_vsc_cb st.
Proof. reflexivity. Qed.

Lemma wipe_not_in_use (s : tBTM_BLE_PF_COUNT) : in_use (wipe s) = false.
Proof. unfold wipe. by destruct (in_use s) eqn:E. Qed.

Lemma wipe_range_length lo n (tbl : list tBTM_BLE_PF_COUNT) :
  length (wipe_range lo n tbl) = length tbl.
Proof. apply length_imap. Qed.

Lemma wipe_range_lookup lo n (tbl : list tBTM_BLE_PF_COUNT) (i : nat) :
  wipe_range lo n tbl !! i
  = (λ s, if bool_decide (lo ≤ i < lo + n)%nat then wipe s else s)
      <$> tbl !! i.
Proof. unfold wipe_range. by rewrite list_lookup_imap. Qed.

Lemma wipe_range_lookup_out lo n (tbl : list tBTM_BLE_PF_COUNT) (i : nat) :
  ¬ (lo ≤ i < lo + n)%nat → wipe_range lo n tbl !! i = tbl !! i.
Proof.
  intros Hi. rewrite wipe_range_lookup.
  destruct (tbl !! i) as [s|]; [|done].
  unfold fmap, option_fmap, option_map. by rewrite bool_decide_eq_false_2.
Qed.

Lemma wipe_range_lookup_in lo n (tbl : list tBTM_BLE_PF_COUNT) (i : nat) s :
  (lo ≤ i < lo + n)%nat → tbl !! i = Some s →
  wipe_range lo n tbl !! i = Some (wipe s).
Proof.
  intros Hi Hs. rewrite wipe_range_lookup, Hs.
  unfold fmap, option_fmap, option_map. by rewrite bool_decide_eq_true_2.
Qed.

(** The scan of [btm_ble_dealloc_addr_filter_counter] for a null address
    visits [n] entries from [idx] on and wipes each of them. *)
Lemma dealloc_scan_null (n : nat) :
  ∀ (tbl : list tBTM_BLE_PF_COUNT) (idx : nat) (found : bool),
    (idx + n ≤ length tbl)%nat →
    ∃ found', dealloc_scan tbl None n idx found
              = Ok (found', wipe_range idx n tbl).
Proof.
  induction n as [|n IH]; intros tbl idx found Hlen; simpl.
  - exists found. f_equal. f_equal. apply list_eq. intros i.
    rewrite wipe_range_lookup. destruct (tbl !! i); simpl; [|done].
    by rewrite bool_decide_eq_false_2 by lia.
  - destruct (lookup_lt_is_Some_2 tbl idx) as [s Hs]; [lia|].
    rewrite Hs, andb_true_r.
    assert (Hstep : ∀ tbl1 : list tBTM_BLE_PF_COUNT,
              length tbl1 = length tbl →
              tbl1 !! idx = Some (wipe s) →
              (∀ i, i ≠ idx → tbl1 !! i = tbl !! i) →
              wipe_range (S idx) n tbl1 = wipe_range idx (S n) tbl).
    { intros tbl1 Hl Hi Ho. apply list_eq. intros i.
      rewrite !wipe_range_lookup. destruct (decide (i = idx)) as [->|Hne].
      - rewrite Hi, Hs. simpl.
        rewrite bool_decide_eq_false_2 by lia.
        by rewrite bool_decide_eq_true_2 by lia.
      - rewrite Ho by done. destruct (tbl !! i); simpl; [|done].
        f_equal. repeat case_bool_decide; try done; lia. }
    destruct (in_use s) eqn:Huse.
    + destruct (IH (<[idx := tBTM_BLE_PF_COUNT_zero]> tbl) (S idx) true)
        as [found' ->]; [rewrite length_insert; lia|].
      exists found'. f_equal. f_equal. apply Hstep.
      * apply length_insert.
      * unfold wipe. rewrite Huse. apply list_lookup_insert_eq. lia.
      * intros i Hne. by apply list_lookup_insert_ne.
    + destruct (IH tbl (S idx) found) as [found' ->]; [lia|].
      exists found'. f_equal. f_equal. apply Hstep; try done.
      unfold wipe. by rewrite Huse.
Qed.

(** A scan over entries none of which is in use finds nothing. *)
Lemma find_scan_not_in_use (n : nat) :
  ∀ (tbl : list tBTM_BLE_PF_COUNT) (a : RawAddress) (idx : nat),
    (idx + n ≤ length tbl)%nat →
    (∀ i s, (idx ≤ i < idx + n)%nat → tbl !! i = Some s → in_use s = false) →
    find_scan tbl a n idx = Ok None.
Proof.
  induction n as [|n IH]; intros tbl a idx Hlen Hfree; simpl; [done|].
  destruct (lookup_lt_is_Some_2 tbl idx) as [s Hs]; [lia|].
  rewrite Hs, (Hfree idx s) by (done || lia). simpl.
  apply IH; [lia|]. intros i s' Hi. apply Hfree. lia.
Qed.

Lemma find_scan_wiped (n : nat) (tbl : list tBTM_BLE_PF_COUNT)
    (a : RawAddress) :
  (1 + n ≤ length tbl)%nat →
  find_scan (wipe_range 1 n tbl) a n 1 = Ok None.
Proof.
  intros Hlen. apply find_scan_not_in_use.
  - by rewrite wipe_range_length.
  - intros i s Hi. rewrite wipe_range_lookup.
    destruct (tbl !! i) as [s0|]; simpl; [|done].
    rewrite bool_decide_eq_true_2 by lia. intros [= <-].
    apply wipe_not_in_use.
Qed.

(** The deallocation for a null address, on a table that holds the
    entries 1, ..., [max_filter] the scan visits. *)
Lemma dealloc_null (filter_type : Z) (st : state) :
  (max_filter (cmn_ble_vsc_cb st) < length (table st))%nat →
  ∃ found,
    btm_ble_dealloc_addr_filter_counter None filter_type st
    = Ok (found,
          set_table
            (wipe_range 1 (max_filter (cmn_ble_vsc_cb st))
               (if bool_decide (BTM_BLE_PF_TYPE_ALL = filter_type)
                then <[0%nat := tBTM_BLE_PF_COUNT_zero]> (table st)
                else table st)) st).
Proof.
  intros Hlen. unfold btm_ble_dealloc_addr_filter_counter.
  rewrite (bool_decide_eq_true_2 (None = None)), andb_true_r by done.
  case_bool_decide.
  - destruct (table st) as [|s0 rest] eqn:Htbl; [simpl in Hlen; lia|].
    destruct (dealloc_scan_null (max_filter (cmn_ble_vsc_cb st))
                (tBTM_BLE_PF_COUNT_zero :: rest) 1 false) as [found Hscan].
    { simpl in *. lia. }
    rewrite Hscan. by exists found.
  - destruct (dealloc_scan_null (max_filter (cmn_ble_vsc_cb st))
                (table st) 1 false) as [found Hscan]; [lia|].
    rewrite Hscan. by exists found.
Qed.

(** The address encoder always returns: it sends one command and resets
    the pending target. *)
Lemma addr_filter_total action filt_index addr cb (st : state) :
  ∃ payload,
    BTM_LE_PF_addr_filter action filt_index addr cb st
    = Ok (tt, set_target tBLE_BD_ADDR_zero
                (emit (EvSend HCI_BLE_ADV_FILTER payload
                         (Bind_btm_flt_update_cb BTM_BLE_META_PF_ADDR cb))
                   st)).
Proof.
  unfold BTM_LE_PF_addr_filter. case_bool_decide.
  - unfold mbind, M_bind, bind, gets.
    destruct (btm_random_pseudo_to_identity_addr (bda addr) (type addr)
                (sec st)) as [id_addr id_type].
    eexists. reflexivity.
  - eexists. reflexivity.
Qed.

(** The scan for a null address never leaves the loop before its last
    step: [n + m] steps are [n] steps followed by [m] steps from where
    they arrive. *)
Lemma dealloc_scan_null_split (n m : nat) :
  ∀ (tbl : list tBTM_BLE_PF_COUNT) (idx : nat) (found : bool),
    dealloc_scan tbl None (n + m) idx found
    = match dealloc_scan tbl None n idx found with
      | Ok (found', tbl') => dealloc_scan tbl' None m (idx + n) found'
      | Fault f => Fault f
      end.
Proof.
  induction n as [|n IH]; intros tbl idx found.
  - simpl. by rewrite Nat.add_0_r.
  - change (dealloc_scan tbl None (S n + m) idx found) with
      (match tbl !! idx with
       | None => Fault (OutOfBounds idx)
       | Some s =>
           if in_use s && true
           then dealloc_scan (<[idx := tBTM_BLE_PF_COUNT_zero]> tbl) None
                  (n + m) (S idx) true
           else dealloc_scan tbl None (n + m) (S idx) found
       end).
    change (dealloc_scan tbl None (S n) idx found) with
      (match tbl !! idx with
       | None => Fault (OutOfBounds idx)
       | Some s =>
           if in_use s && true
           then dealloc_scan (<[idx := tBTM_BLE_PF_COUNT_zero]> tbl) None
                  n (S idx) true
           else dealloc_scan tbl None n (S idx) found
       end).
    destruct (tbl !! idx) as [s|]; [|done].
    replace (idx + S n)%nat with (S idx + n)%nat by lia.
    destruct (in_use s && true); apply IH.
Qed.

(** The scan for a null address reports that it found an entry exactly
    when it was told so before or one of the entries it visits is in
    use. *)
Lemma dealloc_scan_null_found (n : nat) :
  ∀ (tbl tbl' : list tBTM_BLE_PF_COUNT) (idx : nat) (found found' : bool),
    dealloc_scan tbl None n idx found = Ok (found', tbl') →
    found' = true
    ↔ found = true
      ∨ ∃ i s, (idx ≤ i < idx + n)%nat ∧ tbl !! i = Some s
               ∧ in_use s = true.
Proof.
  induction n as [|n IH]; intros tbl tbl' idx found found' Hscan.
  - simpl in Hscan. simplify_eq. split; [by left|].
    intros [Hf|(i & s & Hi & _)]; [done|lia].
  - simpl in Hscan. destruct (tbl !! idx) as [s|] eqn:Hs; [|done].
    rewrite andb_true_r in Hscan. destruct (in_use s) eqn:Huse.
    + apply IH in Hscan. split.
      * intros _. right. exists idx, s. split; [lia|done].
      * intros _. apply Hscan. by left.
    + apply IH in Hscan. rewrite Hscan. split.
      * intros [Hf|(i & s' & Hi & Hs' & Hu)]; [by left|].
        right. exists i, s'. split; [lia|done].
      * intros [Hf|(i & s' & Hi & Hs' & Hu)]; [by left|].
        destruct (decide (i = idx)) as [->|Hne]; [congruence|].
        right. exists i, s'. split; [lia|done].
Qed.

End AccountingProperties.

Section RoundTrip.
Context `{Header} `{Collaborators} `{!HeaderOk}.

Lemma meta_pf_addr_not_feat_sel :
  BTM_BLE_META_PF_ADDR ≠ BTM_BLE_META_PF_FEAT_SEL.
Proof.
  pose proof meta_pf_labels as Hl.
  apply NoDup_cons in Hl as [Hl _]. set_solver.
Qed.

Lemma pf_addr_filter_range :
  0 ≤ BTM_BLE_PF_ADDR_FILTER < BTM_BLE_PF_TYPE_ALL.
Proof. pose proof pf_types_range as Hr. by apply Forall_cons in Hr as [? _]. Qed.

Lemma pf_srvc_data_range : 0 ≤ BTM_BLE_PF_SRVC_DATA < BTM_BLE_PF_TYPE_ALL.
Proof.
  pose proof pf_types_range as Hr.
  apply Forall_cons in Hr as [_ Hr]. by apply Forall_cons in Hr as [? _].
Qed.

Lemma pf_srvc_data_not_generic :
  BTM_BLE_PF_ADDR_FILTER ≠ BTM_BLE_PF_SRVC_DATA.
Proof.
  pose proof pf_labels as Hl. apply NoDup_cons in Hl as [Hl _]. set_solver.
Qed.

Lemma srvc_uuid_not_sol : BTM_BLE_PF_SRVC_UUID ≠ BTM_BLE_PF_SRVC_SOL_UUID.
Proof.
  pose proof pf_labels as Hnd.
  apply NoDup_cons in Hnd as [_ Hnd]. apply NoDup_cons in Hnd as [_ Hnd].
  apply NoDup_cons in Hnd as [Hnotin _].
  intros Heq. apply Hnotin. rewrite Heq. apply list_elem_of_here.
Qed.

Lemma ocf_to_condtype_addr :
  btm_ble_ocf_to_condtype BTM_BLE_META_PF_ADDR = BTM_BLE_PF_ADDR_FILTER.
Proof.
  unfold btm_ble_ocf_to_condtype.
  rewrite bool_decide_eq_false_2 by apply meta_pf_addr_not_feat_sel.
  by rewrite bool_decide_eq_true_2.
Qed.

(** The address-filter condition is accounted in the generic entry,
    whatever address is passed: an acknowledged add bumps its counter. *)
Lemma update_pf_counter_addr_add (p_bd_addr : option tBLE_BD_ADDR)
    (num_available : Z) (st : state) (s0 : tBTM_BLE_PF_COUNT) (c : Z) :
  table st !! 0%nat = Some s0 →
  pf_counter s0 !! Z.to_nat BTM_BLE_PF_ADDR_FILTER = Some c →
  num_available > 0 →
  btm_ble_cs_update_pf_counter BTM_BLE_SCAN_COND_ADD BTM_BLE_PF_ADDR_FILTER
    p_bd_addr num_available st
  = Ok (u8 (c + 1),
        set_table
          (<[0%nat := mk_tBTM_BLE_PF_COUNT (in_use s0) (bd_addr s0)
                        (<[Z.to_nat BTM_BLE_PF_ADDR_FILTER := u8 (c + 1)]>
                           (pf_counter s0))]> (table st)) st).
Proof.
  intros Hs0 Hc Hnum. pose proof pf_addr_filter_range as Hr.
  pose proof scan_cond_add_delete. pose proof scan_cond_add_clear.
  unfold btm_ble_cs_update_pf_counter.
  rewrite bool_decide_eq_false_2 by lia.
  rewrite (bool_decide_eq_true_2 (BTM_BLE_PF_ADDR_FILTER = _)) by done.
  simpl. monad_simpl.
  rewrite (bool_decide_eq_false_2 (BTM_BLE_PF_TYPE_ALL = _)) by lia.
  rewrite (bool_decide_eq_false_2 (BTM_BLE_SCAN_COND_DELETE = _)) by done.
  rewrite (bool_decide_eq_false_2 (BTM_BLE_SCAN_COND_CLEAR = _)) by done.
  simpl. rewrite bool_decide_eq_true_2 by lia.
  unfold bump_counter. rewrite Hs0, Hc.
  by rewrite bool_decide_eq_true_2.
Qed.

(** An acknowledged delete of the address-filter condition deallocates
    with a null address: every per-address entry in use is zeroed and the
    generic entry is kept. *)
Lemma update_pf_counter_addr_delete (p_bd_addr : option tBLE_BD_ADDR)
    (num_available : Z) (st : state) :
  (max_filter (cmn_ble_vsc_cb st) < length (table st))%nat →
  btm_ble_cs_update_pf_counter BTM_BLE_SCAN_COND_DELETE
    BTM_BLE_PF_ADDR_FILTER p_bd_addr num_available st
  = Ok (BTM_BLE_INVALID_COUNTER,
        set_table (wipe_range 1 (max_filter (cmn_ble_vsc_cb st)) (table st))
          st).
Proof.
  intros Hlen. pose proof pf_addr_filter_range as Hr.
  unfold btm_ble_cs_update_pf_counter.
  rewrite bool_decide_eq_false_2 by lia.
  rewrite (bool_decide_eq_true_2 (BTM_BLE_PF_ADDR_FILTER = _)) by done.
  simpl. monad_simpl.
  rewrite (bool_decide_eq_true_2 (BTM_BLE_SCAN_COND_DELETE = _)) by done.
  rewrite orb_true_r. simpl.
  destruct (dealloc_null BTM_BLE_PF_ADDR_FILTER st Hlen) as [found ->].
  by rewrite bool_decide_eq_false_2 by lia.
Qed.

(** The router on a successful acknowledgement of an address-filter
    command: the counter update runs, then the continuation. *)
Lemma flt_update_cb_addr_ack (cb : callback) (action num_avail : Z)
    (st st1 : state) (v : Z) :
  cb ≠ CbNull →
  (∀ p_bd_addr,
     btm_ble_cs_update_pf_counter action BTM_BLE_PF_ADDR_FILTER p_bd_addr
       num_avail st = Ok (v, st1)) →
  ∃ st2,
    btm_flt_update_cb BTM_BLE_META_PF_ADDR cb
      (ack HCI_SUCCESS BTM_BLE_META_PF_ADDR action num_avail) 4 st
    = Ok (tt, st2)
    ∧ table st2 = table st1
    ∧ cmn_ble_vsc_cb st2 = cmn_ble_vsc_cb st1.
Proof.
  intros Hcb Hupd. unfold btm_flt_update_cb, ack.
  rewrite bool_decide_eq_false_2 by (intros Hne; by apply Hne).
  rewrite bool_decide_eq_false_2 by (intros Hne; by apply Hne).
  rewrite bool_decide_eq_false_2 by apply meta_pf_addr_not_feat_sel.
  rewrite ocf_to_condtype_addr.
  rewrite (bool_decide_eq_true_2 (HCI_SUCCESS = HCI_SUCCESS)) by done.
  monad_simpl.
  destruct (IsEmpty (bda (target st))); rewrite Hupd;
    destruct cb; try done; simpl; eauto.
Qed.

End RoundTrip.

Section SlotTable.
Context `{Header} `{Collaborators} `{!HeaderOk}.

(** C1 (amended). An address-filter add that the controller acknowledges
    with success and one available entry increments the address-filter
    counter of the generic entry by one (modulo 256) and changes no other
    entry: no per-address entry is allocated or changed.  Nothing is
    assumed of the table but that it has its generic entry. *)
Theorem addr_filter_add_acknowledged (cb : callback) (filt_index : Z)
    (addr : tBLE_BD_ADDR) (st : state) (s0 : tBTM_BLE_PF_COUNT) (c : Z) :
  table st !! 0%nat = Some s0 →
  pf_counter s0 !! Z.to_nat BTM_BLE_PF_ADDR_FILTER = Some c →
  cb ≠ CbNull →
  ∃ st0 st1,
    BTM_LE_PF_addr_filter BTM_BLE_SCAN_COND_ADD filt_index addr cb st
    = Ok (tt, st0)
    ∧ btm_flt_update_cb BTM_BLE_META_PF_ADDR cb
        (ack HCI_SUCCESS BTM_BLE_META_PF_ADDR BTM_BLE_SCAN_COND_ADD 1) 4 st0
      = Ok (tt, st1)
    ∧ table st1
      = <[0%nat := mk_tBTM_BLE_PF_COUNT (in_use s0) (bd_addr s0)
                     (<[Z.to_nat BTM_BLE_PF_ADDR_FILTER := u8 (c + 1)]>
                        (pf_counter s0))]> (table st)
    ∧ (∀ i, (1 ≤ i)%nat → table st1 !! i = table st !! i).
Proof.
  intros Hs0 Hc Hcb.
  destruct (addr_filter_total BTM_BLE_SCAN_COND_ADD filt_index addr cb st)
    as [payload Haddr].
  match type of Haddr with _ = Ok (tt, ?s) => set (st0 := s) in * end.
  assert (Htbl0 : table st0 = table st) by reflexivity.
  destruct (flt_update_cb_addr_ack cb BTM_BLE_SCAN_COND_ADD 1 st0 _ _ Hcb
              (λ p, update_pf_counter_addr_add p 1 st0 s0 c
                      ltac:(by rewrite Htbl0) Hc ltac:(lia)))
    as (st1 & Hack & Htbl1 & _).
  rewrite table_set_table, Htbl0 in Htbl1.
  exists st0, st1. split; [done|]. split; [done|]. split; [done|].
  intros i Hi. rewrite Htbl1. apply list_lookup_insert_ne. lia.
Qed.


End SlotTable.

Section PastTheAllocation.
Context `{Header} `{Collaborators}.

(** A scan that starts at [idx] and makes one step more than there are
    entries from [idx] on reads the entry past the end of the table, unless
    it leaves the loop before. *)
Lemma dealloc_scan_null_past_end (n : nat) :
  ∀ (tbl : list tBTM_BLE_PF_COUNT) (idx : nat) (found : bool),
    (idx + n = length tbl)%nat →
    dealloc_scan tbl None (S n) idx found = Fault (OutOfBounds (length tbl)).
Proof.
  induction n as [|n IH]; intros tbl idx found Hlen.
  - simpl. rewrite lookup_ge_None_2 by lia. do 2 f_equal. lia.
  - change (dealloc_scan tbl None (S (S n)) idx found) with
      (match tbl !! idx with
       | None => Fault (OutOfBounds idx)
       | Some s =>
           if in_use s && true
           then dealloc_scan (<[idx := tBTM_BLE_PF_COUNT_zero]> tbl) None
                  (S n) (S idx) true
           else dealloc_scan tbl None (S n) (S idx) found
       end).
    destruct (lookup_lt_is_Some_2 tbl idx) as [s ->]; [lia|].
    destruct (in_use s && true).
    + rewrite IH by (rewrite length_insert; lia).
      by rewrite length_insert.
    + apply IH. lia.
Qed.

Lemma find_scan_past_end (n : nat) :
  ∀ (tbl : list tBTM_BLE_PF_COUNT) (a : RawAddress) (idx : nat),
    (idx + n = length tbl)%nat →
    find_scan tbl a (S n) idx = Fault (OutOfBounds (length tbl))
    ∨ ∃ i, (i < length tbl)%nat ∧ find_scan tbl a (S n) idx = Ok (Some i).
Proof.
  induction n as [|n IH]; intros tbl a idx Hlen.
  - left. simpl. rewrite lookup_ge_None_2 by lia. do 2 f_equal. lia.
  - change (find_scan tbl a (S (S n)) idx) with
      (match tbl !! idx with
       | None => Fault (OutOfBounds idx)
       | Some s =>
           if in_use s && bool_decide (a = bd_addr s) then Ok (Some idx)
           else find_scan tbl a (S n) (S idx)
       end).
    destruct (lookup_lt_is_Some_2 tbl idx) as [s ->]; [lia|].
    destruct (in_use s && bool_decide (a = bd_addr s)).
    + right. exists idx. split; [lia|done].
    + apply IH. lia.
Qed.

Lemma alloc_scan_past_end (n : nat) :
  ∀ (tbl : list tBTM_BLE_PF_COUNT) (a : RawAddress) (idx : nat),
    (idx + n = length tbl)%nat →
    alloc_scan tbl a (S n) idx = Fault (OutOfBounds (length tbl))
    ∨ ∃ i tbl', (i < length tbl)%nat
                ∧ alloc_scan tbl a (S n) idx = Ok (Some i, tbl').
Proof.
  induction n as [|n IH]; intros tbl a idx Hlen.
  - left. simpl. rewrite lookup_ge_None_2 by lia. do 2 f_equal. lia.
  - change (alloc_scan tbl a (S (S n)) idx) with
      (match tbl !! idx with
       | None => Fault (OutOfBounds idx)
       | Some s =>
           if IsEmpty (bd_addr s)
           then Ok (Some idx,
                    <[idx := mk_tBTM_BLE_PF_COUNT true a (pf_counter s)]> tbl)
           else alloc_scan tbl a (S n) (S idx)
       end).
    destruct (lookup_lt_is_Some_2 tbl idx) as [s ->]; [lia|].
    destruct (IsEmpty (bd_addr s)).
    + right. eexists idx, _. split; [lia|done].
    + apply IH. lia.
Qed.

(** C4. Where filtering is supported, [btm_ble_adv_filter_init] leaves a
    table of exactly [max_filter] entries, and each scan loop, started at
    entry 1 for [max_filter] steps, reads entry [max_filter], one past the
    last entry of the table, unless it leaves the loop at an entry before:
    deallocation for a null address always does, lookup does when no entry
    matches, allocation does when no entry is free. *)
Theorem scans_read_past_the_allocated_table (st0 : state) :
  filter_support BTM_BleGetVendorCapabilities ≠ 0 →
  (1 ≤ max_filter BTM_BleGetVendorCapabilities)%nat →
  ∃ st,
    btm_ble_adv_filter_init st0 = Ok (tt, st)
    ∧ length (table st) = max_filter (cmn_ble_vsc_cb st)
    ∧ (∀ filter_type,
         btm_ble_dealloc_addr_filter_counter None filter_type st
         = Fault (OutOfBounds (max_filter (cmn_ble_vsc_cb st))))
    ∧ (∀ le_bda,
         btm_ble_find_addr_filter_counter (Some le_bda) st
         = Fault (OutOfBounds (max_filter (cmn_ble_vsc_cb st)))
         ∨ ∃ i, (i < max_filter (cmn_ble_vsc_cb st))%nat
                ∧ btm_ble_find_addr_filter_counter (Some le_bda) st
                  = Ok (Some i, st))
    ∧ (∀ a,
         btm_ble_alloc_addr_filter_counter a st
         = Fault (OutOfBounds (max_filter (cmn_ble_vsc_cb st)))
         ∨ ∃ i st', (i < max_filter (cmn_ble_vsc_cb st))%nat
                    ∧ btm_ble_alloc_addr_filter_counter a st
                      = Ok (Some i, st')).
Proof.
  intros Hsup Hmax.
  set (st := set_table (osi_malloc (max_filter BTM_BleGetVendorCapabilities))
               (mk_state BTM_BleGetVendorCapabilities
                  (mk_tBTM_BLE_ADV_FILTER_CB 0 [] tBLE_BD_ADDR_zero)
                  (remove_me_later_map st0) (sec st0) (trace st0))).
  exists st.
  assert (Hinit : btm_ble_adv_filter_init st0 = Ok (tt, st)).
  { unfold btm_ble_adv_filter_init. monad_simpl.
    unfold is_filtering_supported. simpl.
    destruct (Z.eqb_spec (filter_support BTM_BleGetVendorCapabilities) 0);
      [contradiction|].
    destruct (Nat.eqb_spec (max_filter BTM_BleGetVendorCapabilities) 0);
      [lia|]. simpl.
    by rewrite bool_decide_eq_true_2 by lia. }
  assert (Hvsc : max_filter (cmn_ble_vsc_cb st)
                 = max_filter BTM_BleGetVendorCapabilities) by done.
  assert (Htbl : length (table st) = max_filter (cmn_ble_vsc_cb st)).
  { rewrite Hvsc. apply osi_malloc_length. }
  clearbody st. rewrite <- Hvsc in Hmax. clear Hvsc Hsup.
  destruct (max_filter (cmn_ble_vsc_cb st)) as [|m] eqn:Hm; [lia|].
  split; [done|]. split; [done|]. split; [|split].
  - intros filter_type. unfold btm_ble_dealloc_addr_filter_counter.
    rewrite Hm. destruct (table st) as [|s0 rest] eqn:Hst; [done|].
    destruct (_ && _);
      rewrite dealloc_scan_null_past_end by (simpl in *; lia);
      simpl in *; do 2 f_equal; lia.
  - intros le_bda. unfold btm_ble_find_addr_filter_counter. rewrite Hm.
    destruct (find_scan_past_end m (table st) (bda le_bda) 1)
      as [Hf | (i & Hi & Hf)]; [lia| |]; rewrite Hf.
    + left. by rewrite Htbl.
    + right. exists i. split; [lia|done].
  - intros a. unfold btm_ble_alloc_addr_filter_counter. rewrite Hm.
    destruct (alloc_scan_past_end m (table st) a 1)
      as [Hf | (i & tbl' & Hi & Hf)]; [lia| |]; rewrite Hf.
    + left. by rewrite Htbl.
    + right. eexists i, _. split; [lia|done].
Qed.

End PastTheAllocation.

Section EncoderProperties.
Context `{Header} `{Collaborators}.

Arguments u8 : simpl never.

Lemma local_name_clear (filt_index : Z) (name : list Z) (cb : callback)
    (st : state) :
  BTM_LE_PF_local_name BTM_BLE_SCAN_COND_CLEAR filt_index name cb st
  = Ok (tt, set_target tBLE_BD_ADDR_zero
              (emit (EvSend HCI_BLE_ADV_FILTER
                       (header_bytes BTM_BLE_META_PF_LOCAL_NAME
                          BTM_BLE_SCAN_COND_CLEAR filt_index)
                       (Bind_btm_flt_update_cb BTM_BLE_META_PF_LOCAL_NAME cb))
                 st)).
Proof.
  unfold BTM_LE_PF_local_name.
  rewrite bool_decide_eq_false_2 by (intros Hne; by apply Hne).
  reflexivity.
Qed.

Lemma manu_data_clear (filt_index company_id company_id_mask : Z)
    (data data_mask : list Z) (cb : callback) (st : state) :
  BTM_LE_PF_manu_data BTM_BLE_SCAN_COND_CLEAR filt_index company_id
    company_id_mask data data_mask cb st
  = Ok (tt, set_target tBLE_BD_ADDR_zero
              (emit (EvSend HCI_BLE_ADV_FILTER
                       (header_bytes BTM_BLE_META_PF_MANU_DATA
                          BTM_BLE_SCAN_COND_CLEAR filt_index)
                       (Bind_btm_flt_update_cb BTM_BLE_META_PF_MANU_DATA cb))
                 st)).
Proof.
  unfold BTM_LE_PF_manu_data.
  rewrite bool_decide_eq_false_2 by (intros Hne; by apply Hne).
  reflexivity.
Qed.

Lemma srvc_data_pattern_clear (filt_index : Z) (data data_mask : list Z)
    (cb : callback) (st : state) :
  BTM_LE_PF_srvc_data_pattern BTM_BLE_SCAN_COND_CLEAR filt_index data
    data_mask cb st
  = Ok (tt, set_target tBLE_BD_ADDR_zero
              (emit (EvSend HCI_BLE_ADV_FILTER
                       (header_bytes BTM_BLE_META_PF_SRVC_DATA
                          BTM_BLE_SCAN_COND_CLEAR filt_index)
                       (Bind_btm_flt_update_cb BTM_BLE_META_PF_SRVC_DATA cb))
                 st)).
Proof.
  unfold BTM_LE_PF_srvc_data_pattern.
  rewrite bool_decide_eq_false_2 by (intros Hne; by apply Hne).
  reflexivity.
Qed.

Lemma uuid_filter_clear (filt_index filter_type : Z) (uuid : Uuid)
    (cond_logic : Z) (uuid_mask : Uuid) (cb : callback) (st : state) :
  let evt_type := if bool_decide (BTM_BLE_PF_SRVC_UUID = filter_type)
                  then BTM_BLE_META_PF_UUID else BTM_BLE_META_PF_SOL_UUID in
  BTM_LE_PF_uuid_filter BTM_BLE_SCAN_COND_CLEAR filt_index filter_type uuid
    cond_logic uuid_mask cb st
  = Ok (tt, set_target tBLE_BD_ADDR_zero
              (emit (EvSend HCI_BLE_ADV_FILTER
                       (header_bytes evt_type BTM_BLE_SCAN_COND_CLEAR
                          filt_index)
                       (Bind_btm_flt_update_cb evt_type cb)) st)).
Proof.
  unfold BTM_LE_PF_uuid_filter.
  rewrite bool_decide_eq_false_2 by (intros Hne; by apply Hne).
  reflexivity.
Qed.

Lemma addr_filter_clear (filt_index : Z) (addr : tBLE_BD_ADDR)
    (cb : callback) (st : state) :
  BTM_LE_PF_addr_filter BTM_BLE_SCAN_COND_CLEAR filt_index addr cb st
  = Ok (tt, set_target tBLE_BD_ADDR_zero
              (emit (EvSend HCI_BLE_ADV_FILTER
                       (header_bytes BTM_BLE_META_PF_ADDR
                          BTM_BLE_SCAN_COND_CLEAR filt_index
                        ++ replicate 7%nat 0)
                       (Bind_btm_flt_update_cb BTM_BLE_META_PF_ADDR cb))
                 st)).
Proof.
  unfold BTM_LE_PF_addr_filter.
  rewrite bool_decide_eq_false_2 by (intros Hne; by apply Hne).
  reflexivity.
Qed.

End EncoderProperties.

Section Invariants.
Context `{Header} `{Collaborators}.

Lemma alloc_scan_length (n : nat) :
  ∀ (tbl tbl' : list tBTM_BLE_PF_COUNT) (a : RawAddress) (idx : nat) r,
    alloc_scan tbl a n idx = Ok (r, tbl') → length tbl' = length tbl.
Proof.
  induction n as [|n IH]; intros tbl tbl' a idx r Hscan; simpl in Hscan.
  - by simplify_eq.
  - destruct (tbl !! idx) as [s|]; [|done].
    destruct (IsEmpty (bd_addr s)); [|by eapply IH].
    simplify_eq. apply length_insert.
Qed.

Lemma dealloc_scan_length (n : nat) :
  ∀ (tbl tbl' : list tBTM_BLE_PF_COUNT) (p : option tBLE_BD_ADDR)
    (idx : nat) (found found' : bool),
    dealloc_scan tbl p n idx found = Ok (found', tbl') →
    length tbl' = length tbl.
Proof.
  induction n as [|n IH]; intros tbl tbl' p idx found found' Hscan;
    simpl in Hscan.
  - by simplify_eq.
  - destruct (tbl !! idx) as [s|]; [|done].
    destruct (in_use s && _); [|by eapply IH].
    destruct p as [b|].
    + simplify_eq. apply length_insert.
    + apply IH in Hscan. by rewrite length_insert in Hscan.
Qed.

(** The property [I] is kept by each of the assignments the file makes to
    its state: a trace event, the reset of the pending target, the
    operation type, the map, the device records, and a table of the same
    length. *)
Variable I : state → Prop.
Hypothesis I_emit : ∀ e st, I st → I (emit e st).
Hypothesis I_reset : ∀ st, I st → I (set_target tBLE_BD_ADDR_zero st).
Hypothesis I_op_type : ∀ o st, I st → I (set_op_type o st).
Hypothesis I_map : ∀ m st, I st → I (set_map m st).
Hypothesis I_sec : ∀ s st, I st → I (set_sec s st).
Hypothesis I_table :
  ∀ tbl st, I st → length tbl = length (table st) → I (set_table tbl st).

Lemma preserves_ret {A} (a : A) : preserves I (ret a).
Proof. by intros st b st' HI [= <- <-]. Qed.

Lemma preserves_gets {A} (f : state → A) : preserves I (gets f).
Proof. by intros st b st' HI [= <- <-]. Qed.

Lemma preserves_raise {A} (f : fault) : preserves I (raise f : M A).
Proof. intros st b st' HI [=]. Qed.

Lemma preserves_modify (f : state → state) :
  (∀ st, I st → I (f st)) → preserves I (modify f).
Proof. intros Hf st b st' HI [= <- <-]. by apply Hf. Qed.

Lemma preserves_bind {A B} (m : M A) (k : A → M B) :
  preserves I m → (∀ a, preserves I (k a)) → preserves I (m ≫= k).
Proof.
  intros Hm Hk st b st' HI Hrun.
  apply bind_inv in Hrun as (a & st1 & Hrun1 & Hrun2).
  eapply Hk; [|exact Hrun2]. by eapply Hm.
Qed.

Lemma preserves_send opcode param len k :
  preserves I (btu_hcif_send_cmd_with_cb opcode param len k).
Proof. apply preserves_modify. intros st. apply I_emit. Qed.

Lemma preserves_Run cb args : preserves I (Run cb args).
Proof.
  destruct cb; simpl; [apply preserves_raise|apply preserves_ret|].
  apply preserves_modify. intros st. apply I_emit.
Qed.

Lemma preserves_reset : preserves I reset_cur_filter_target.
Proof. apply preserves_modify. apply I_reset. Qed.

Lemma preserves_find p_le_bda :
  preserves I (btm_ble_find_addr_filter_counter p_le_bda).
Proof.
  intros st a st' HI. unfold btm_ble_find_addr_filter_counter.
  repeat case_match; intros; by simplify_eq.
Qed.

Lemma preserves_alloc a :
  preserves I (btm_ble_alloc_addr_filter_counter a).
Proof.
  intros st r st' HI. unfold btm_ble_alloc_addr_filter_counter.
  destruct (alloc_scan _ _ _ _) as [[r' tbl]|f] eqn:Hscan; [|done].
  intros [= <- <-]. apply I_table; [done|]. by eapply alloc_scan_length.
Qed.

Lemma preserves_dealloc p_bd_addr filter_type :
  preserves I (btm_ble_dealloc_addr_filter_counter p_bd_addr filter_type).
Proof.
  intros st r st' HI. unfold btm_ble_dealloc_addr_filter_counter.
  destruct (bool_decide (BTM_BLE_PF_TYPE_ALL = filter_type)
            && bool_decide (p_bd_addr = None)).
  - destruct (table st) as [|s0 rest] eqn:Htbl; [done|].
    destruct (dealloc_scan _ _ _ _ _) as [[found tbl]|f] eqn:Hscan; [|done].
    intros [= <- <-]. apply I_table; [done|].
    apply dealloc_scan_length in Hscan. by rewrite Hscan, Htbl.
  - destruct (dealloc_scan _ _ _ _ _) as [[found tbl]|f] eqn:Hscan; [|done].
    intros [= <- <-]. apply I_table; [done|].
    by eapply dealloc_scan_length.
Qed.

Lemma preserves_bump i cond_type num_available :
  preserves I (bump_counter i cond_type num_available).
Proof.
  intros st r st' HI. unfold bump_counter.
  repeat case_match; intros; simplify_eq;
    (apply I_table; [done|apply length_insert]).
Qed.

Ltac preserves_step :=
  match goal with
  | |- preserves _ (_ ≫= _) => apply preserves_bind; [|intros ?]
  | |- preserves _ (ret _) => apply preserves_ret
  | |- preserves _ (gets _) => apply preserves_gets
  | |- preserves _ (raise _) => apply preserves_raise
  | |- preserves _ (Run _ _) => apply preserves_Run
  | |- preserves _ reset_cur_filter_target => apply preserves_reset
  | |- preserves _ (btu_hcif_send_cmd_with_cb _ _ _ _) =>
      apply preserves_send
  | |- preserves _ (btm_ble_find_addr_filter_counter _) =>
      apply preserves_find
  | |- preserves _ (btm_ble_alloc_addr_filter_counter _) =>
      apply preserves_alloc
  | |- preserves _ (btm_ble_dealloc_addr_filter_counter _ _) =>
      apply preserves_dealloc
  | |- preserves _ (bump_counter _ _ _) => apply preserves_bump
  | |- preserves _ (modify (set_op_type _)) =>
      apply preserves_modify; apply I_op_type
  | |- preserves _ (modify (set_sec _)) =>
      apply preserves_modify; apply I_sec
  | |- preserves _ (modify (set_map _)) =>
      apply preserves_modify; apply I_map
  | |- preserves _ (match ?x with _ => _ end) => destruct x
  end.

Lemma preserves_update action cond_type p_bd_addr num_available :
  preserves I (btm_ble_cs_update_pf_counter action cond_type p_bd_addr
                 num_available).
Proof. unfold btm_ble_cs_update_pf_counter. repeat preserves_step. Qed.

Lemma preserves_ARRAY_TO_STREAM p v n : preserves I (ARRAY_TO_STREAM p v n).
Proof. unfold ARRAY_TO_STREAM. repeat preserves_step. Qed.

Ltac preserves_enc :=
  repeat first
    [ apply preserves_ARRAY_TO_STREAM | apply preserves_update
    | preserves_step ].

Lemma preserves_local_name action filt_index name cb :
  preserves I (BTM_LE_PF_local_name action filt_index name cb).
Proof. unfold BTM_LE_PF_local_name. preserves_enc. Qed.

Lemma preserves_srvc_data action filt_index :
  preserves I (BTM_LE_PF_srvc_data action filt_index).
Proof. unfold BTM_LE_PF_srvc_data. preserves_enc. Qed.

Lemma preserves_manu_data action filt_index company_id company_id_mask data
    data_mask cb :
  preserves I (BTM_LE_PF_manu_data action filt_index company_id
                 company_id_mask data data_mask cb).
Proof. unfold BTM_LE_PF_manu_data. preserves_enc. Qed.

Lemma preserves_srvc_data_pattern action filt_index data data_mask cb :
  preserves I (BTM_LE_PF_srvc_data_pattern action filt_index data data_mask
                 cb).
Proof. unfold BTM_LE_PF_srvc_data_pattern. preserves_enc. Qed.

Lemma preserves_addr_filter action filt_index addr cb :
  preserves I (BTM_LE_PF_addr_filter action filt_index addr cb).
Proof. unfold BTM_LE_PF_addr_filter. preserves_enc. Qed.

Lemma preserves_uuid_filter action filt_index filter_type uuid cond_logic
    uuid_mask cb :
  preserves I (BTM_LE_PF_uuid_filter action filt_index filter_type uuid
                 cond_logic uuid_mask cb).
Proof. unfold BTM_LE_PF_uuid_filter. preserves_enc. Qed.

Lemma preserves_replace_existing_entry filt_index :
  preserves I (replace_existing_entry filt_index).
Proof. unfold replace_existing_entry. preserves_enc. Qed.

Ltac preserves_op :=
  repeat first
    [ apply preserves_addr_filter | apply preserves_srvc_data
    | apply preserves_uuid_filter | apply preserves_local_name
    | apply preserves_manu_data | apply preserves_srvc_data_pattern
    | apply preserves_replace_existing_entry | apply preserves_update
    | preserves_step ].

Lemma preserves_set_cmd filt_index cmd :
  preserves I (BTM_LE_PF_set_cmd filt_index cmd).
Proof. unfold BTM_LE_PF_set_cmd. preserves_op. Qed.

Lemma preserves_set_loop filt_index commands :
  preserves I (BTM_LE_PF_set_loop filt_index commands).
Proof.
  induction commands as [|cmd rest IH]; simpl.
  - apply preserves_ret.
  - apply preserves_bind; [apply preserves_set_cmd|].
    intros [|]; [done|apply preserves_ret].
Qed.

Lemma preserves_set filt_index commands cb :
  preserves I (BTM_LE_PF_set filt_index commands cb).
Proof.
  unfold BTM_LE_PF_set.
  repeat first [ apply preserves_set_loop | preserves_step ].
Qed.

Lemma preserves_clear filt_index cb :
  preserves I (BTM_LE_PF_clear filt_index cb).
Proof. unfold BTM_LE_PF_clear. preserves_op. Qed.

Lemma preserves_param_setup action filt_index p_filt_params cb :
  preserves I (BTM_BleAdvFilterParamSetup action filt_index p_filt_params
                 cb).
Proof. unfold BTM_BleAdvFilterParamSetup. preserves_op. Qed.

Lemma preserves_enable enable p_stat_cback :
  preserves I (BTM_BleEnableDisableFilterFeature enable p_stat_cback).
Proof. unfold BTM_BleEnableDisableFilterFeature. preserves_op. Qed.

Lemma preserves_flt_update_cb expected_ocf cb p evt_len :
  preserves I (btm_flt_update_cb expected_ocf cb p evt_len).
Proof. unfold btm_flt_update_cb. preserves_op. Qed.

Lemma preserves_enable_cmpl_cback p_stat_cback p evt_len :
  preserves I (enable_cmpl_cback p_stat_cback p evt_len).
Proof. unfold enable_cmpl_cback. preserves_op. Qed.

End Invariants.

Section CommandActions.
Context `{Header} `{Collaborators} `{!HeaderOk}.

Lemma ARRAY_TO_STREAM_inv (p v q : list Z) (n : Z) (st st' : state) :
  ARRAY_TO_STREAM p v n st = Ok (q, st') →
  st' = st ∧ q = p ++ take (Z.to_nat n) v.
Proof.
  unfold ARRAY_TO_STREAM. case_bool_decide; [|done]. by intros [= <- <-].
Qed.

(** A command cut out of a buffer whose second byte is the byte of
    [action] carries that action, however many bytes are sent. *)
Lemma sent_action (action opcode len_max : Z) (len : nat) (p : list Z)
    (k : continuation) :
  p !! 1%nat = Some (u8 action) →
  carries_action action (EvSend opcode (take len (param_of len_max p)) k).
Proof.
  intros Hp x Hx. apply lookup_take_Some in Hx as [Hx _].
  unfold param_of in Hx. rewrite (lookup_app_l_Some _ _ _ _ Hp) in Hx.
  by simplify_eq.
Qed.

Lemma feat_sel_not_condition :
  BTM_BLE_META_PF_FEAT_SEL ∉ condition_subcodes.
Proof.
  pose proof meta_pf_labels as Hl. apply NoDup_cons in Hl as [Hnotin _].
  intros Hin. apply Hnotin. unfold condition_subcodes in Hin.
  rewrite !elem_of_cons in Hin. rewrite !elem_of_cons. tauto.
Qed.

Lemma feat_sel_header_only opcode payload cb :
  clear_is_header_only
    (EvSend opcode payload
       (Bind_btm_flt_update_cb BTM_BLE_META_PF_FEAT_SEL cb)).
Proof. intros Hin. by destruct feat_sel_not_condition. Qed.

Lemma header_is_header_only opcode ocf filt_index cb :
  clear_is_header_only
    (EvSend opcode (header_bytes ocf BTM_BLE_SCAN_COND_CLEAR filt_index)
       (Bind_btm_flt_update_cb ocf cb)).
Proof. intros _ _. by exists filt_index. Qed.

Lemma add_is_header_only (e : event) :
  u8 BTM_BLE_SCAN_COND_ADD ≠ u8 BTM_BLE_SCAN_COND_CLEAR →
  carries_action BTM_BLE_SCAN_COND_ADD e → clear_is_header_only e.
Proof.
  intros Hne Hadd. destruct e as [opcode payload [ocf cb|cb]|id args];
    [|done..].
  intros _ Hclear. by destruct Hne; rewrite (Hadd _ Hclear).
Qed.

Section Closure.
Variable P : event → Prop.
Hypothesis P_run : ∀ id args, P (EvRun id args).

Lemma appends_same_trace {A} (m : M A) :
  (∀ st a st', m st = Ok (a, st') → trace st' = trace st) → appends P m.
Proof.
  intros Hm st a st' Hrun. exists []. split; [|done].
  rewrite app_nil_r. by eapply Hm.
Qed.

Lemma appends_ret {A} (a : A) : appends P (ret a).
Proof. apply appends_same_trace. by intros st b st' [= <- <-]. Qed.

Lemma appends_gets {A} (f : state → A) : appends P (gets f).
Proof. apply appends_same_trace. by intros st b st' [= <- <-]. Qed.

Lemma appends_raise {A} (f : fault) : appends P (raise f : M A).
Proof. intros st b st' [=]. Qed.

Lemma appends_modify (f : state → state) :
  (∀ st, trace (f st) = trace st) → appends P (modify f).
Proof. intros Hf. apply appends_same_trace. by intros st b st' [= <- <-]. Qed.

Lemma appends_bind {A B} (m : M A) (k : A → M B) :
  appends P m → (∀ a, appends P (k a)) → appends P (m ≫= k).
Proof.
  intros Hm Hk st b st' Hrun.
  apply bind_inv in Hrun as (a & st1 & Hrun1 & Hrun2).
  destruct (Hm _ _ _ Hrun1) as (l1 & Ht1 & Hl1).
  destruct (Hk _ _ _ _ Hrun2) as (l2 & Ht2 & Hl2).
  exists (l1 ++ l2). split; [by rewrite Ht2, Ht1, app_assoc|].
  by apply Forall_app.
Qed.

(** A first part that only computes, and what it computes has [Q]. *)
Lemma appends_computed {A B} (Q : A → Prop) (m : M A) (k : A → M B) :
  (∀ st a st', m st = Ok (a, st') → st' = st ∧ Q a) →
  (∀ a, Q a → appends P (k a)) → appends P (m ≫= k).
Proof.
  intros Hm Hk st b st' Hrun.
  apply bind_inv in Hrun as (a & st1 & Hrun1 & Hrun2).
  destruct (Hm _ _ _ Hrun1) as [-> HQ]. by eapply Hk.
Qed.

Lemma appends_send opcode param len k :
  P (EvSend opcode (take (Z.to_nat len) param) k) →
  appends P (btu_hcif_send_cmd_with_cb opcode param len k).
Proof.
  intros HP st b st' [= <- <-].
  exists [EvSend opcode (take (Z.to_nat len) param) k].
  split; [done|]. by apply Forall_singleton.
Qed.

Lemma appends_reset : appends P reset_cur_filter_target.
Proof. by apply appends_modify. Qed.

Lemma appends_send_reset opcode param len k :
  P (EvSend opcode (take (Z.to_nat len) param) k) →
  appends P (btu_hcif_send_cmd_with_cb opcode param len k ;;
             reset_cur_filter_target).
Proof.
  intros HP. apply appends_bind; [by apply appends_send|].
  intros _. apply appends_reset.
Qed.

Lemma appends_Run cb args : appends P (Run cb args).
Proof.
  destruct cb as [| |id]; simpl; [apply appends_raise|apply appends_ret|].
  intros st b st' [= <- <-]. exists [EvRun id args].
  split; [done|]. by apply Forall_singleton.
Qed.

Lemma appends_find p_le_bda :
  appends P (btm_ble_find_addr_filter_counter p_le_bda).
Proof.
  apply appends_same_trace. intros st a st' Hrun.
  by eapply (preserves_find (λ s, trace s = trace st)).
Qed.

Lemma appends_dealloc p_bd_addr filter_type :
  appends P (btm_ble_dealloc_addr_filter_counter p_bd_addr filter_type).
Proof.
  apply appends_same_trace. intros st a st' Hrun.
  by eapply (preserves_dealloc (λ s, trace s = trace st)).
Qed.

Lemma appends_update action cond_type p_bd_addr num_available :
  appends P (btm_ble_cs_update_pf_counter action cond_type p_bd_addr
               num_available).
Proof.
  apply appends_same_trace. intros st a st' Hrun.
  by eapply (preserves_update (λ s, trace s = trace st)).
Qed.

Lemma appends_srvc_data action filt_index :
  appends P (BTM_LE_PF_srvc_data action filt_index).
Proof.
  unfold BTM_LE_PF_srvc_data.
  apply appends_bind; [apply appends_update|intros _; apply appends_ret].
Qed.

Lemma appends_replace_existing_entry filt_index :
  appends P (replace_existing_entry filt_index).
Proof.
  apply appends_same_trace. intros st a st' Hrun.
  by eapply (preserves_replace_existing_entry (λ s, trace s = trace st)).
Qed.

End Closure.

Ltac computed :=
  repeat match goal with
         | H : (_ ≫= _) _ = Ok _ |- _ =>
             apply bind_inv in H as (? & ? & ? & H)
         | H : ARRAY_TO_STREAM _ _ _ _ = Ok _ |- _ =>
             apply ARRAY_TO_STREAM_inv in H as [-> ->]
         | H : gets _ _ = Ok _ |- _ => unfold gets in H; simplify_eq
         | H : ret _ _ = Ok _ |- _ => unfold ret in H; simplify_eq
         | H : mret _ _ = Ok _ |- _ => unfold mret, M_ret, ret in H; simplify_eq
         | H : (if ?c then _ else _) _ = Ok _ |- _ => destruct c
         | H : (let '(_, _) := ?x in _) _ = Ok _ |- _ => destruct x
         end.

Ltac second_byte :=
  try unfold UINT16_TO_STREAM; try unfold UINT32_TO_STREAM;
  try unfold UINT8_TO_STREAM;
  repeat first
    [ reflexivity
    | match goal with
      | |- (if ?c then _ else _) !! _ = _ => destruct c
      end
    | apply lookup_app_l_Some ].

(** Each condition encoder puts the action it is called with into the
    second byte of the command it sends. *)
Lemma local_name_action action filt_index name cb :
  appends (carries_action action)
    (BTM_LE_PF_local_name action filt_index name cb).
Proof.
  unfold BTM_LE_PF_local_name.
  apply (appends_computed _ (λ '(p, _), p !! 1%nat = Some (u8 action))).
  - intros st [p len] st' Hrun. computed; (split; [done|second_byte]).
  - intros [p len] Hp. apply appends_send_reset. by apply sent_action.
Qed.

Lemma manu_data_action action filt_index company_id company_id_mask data
    data_mask cb :
  appends (carries_action action)
    (BTM_LE_PF_manu_data action filt_index company_id company_id_mask data
       data_mask cb).
Proof.
  unfold BTM_LE_PF_manu_data.
  apply (appends_computed _ (λ '(p, _), p !! 1%nat = Some (u8 action))).
  - intros st [p len] st' Hrun. computed; (split; [done|second_byte]).
  - intros [p len] Hp. apply appends_send_reset. by apply sent_action.
Qed.

Lemma srvc_data_pattern_action action filt_index data data_mask cb :
  appends (carries_action action)
    (BTM_LE_PF_srvc_data_pattern action filt_index data data_mask cb).
Proof.
  unfold BTM_LE_PF_srvc_data_pattern.
  apply (appends_computed _ (λ '(p, _), p !! 1%nat = Some (u8 action))).
  - intros st [p len] st' Hrun. computed; (split; [done|second_byte]).
  - intros [p len] Hp. apply appends_send_reset. by apply sent_action.
Qed.

Lemma addr_filter_action action filt_index addr cb :
  appends (carries_action action)
    (BTM_LE_PF_addr_filter action filt_index addr cb).
Proof.
  unfold BTM_LE_PF_addr_filter.
  apply (appends_computed _ (λ p, p !! 1%nat = Some (u8 action))).
  - intros st p st' Hrun. computed; (split; [done|second_byte]).
  - intros p Hp. apply appends_send_reset. by apply sent_action.
Qed.

Lemma uuid_filter_action action filt_index filter_type uuid cond_logic
    uuid_mask cb :
  appends (carries_action action)
    (BTM_LE_PF_uuid_filter action filt_index filter_type uuid cond_logic
       uuid_mask cb).
Proof.
  unfold BTM_LE_PF_uuid_filter.
  repeat match goal with
         | |- appends _ (if ?c then _ else _) => destruct c
         | |- appends _ (match (if ?c then _ else _) with _ => _ end) =>
             destruct c
         | |- appends _ (let '(_, _) := (if ?c then _ else _) in _) =>
             destruct c
         end;
    first [ by apply appends_Run
          | apply appends_send_reset; apply sent_action; second_byte ].
Qed.

Lemma set_cmd_action filt_index cmd :
  appends (carries_action BTM_BLE_SCAN_COND_ADD)
    (BTM_LE_PF_set_cmd filt_index cmd).
Proof.
  unfold BTM_LE_PF_set_cmd.
  repeat first
    [ apply addr_filter_action | apply uuid_filter_action
    | apply local_name_action | apply manu_data_action
    | apply srvc_data_pattern_action | apply appends_srvc_data
    | apply appends_replace_existing_entry
    | apply appends_ret | apply appends_gets
    | apply appends_modify; intros ?; reflexivity
    | apply appends_bind; [|intros ?]
    | match goal with
      | |- appends _ (match ?x with _ => _ end) => destruct x
      end ].
Qed.

Lemma set_loop_action filt_index commands :
  appends (carries_action BTM_BLE_SCAN_COND_ADD)
    (BTM_LE_PF_set_loop filt_index commands).
Proof.
  induction commands as [|cmd rest IH]; simpl.
  - apply appends_ret.
  - apply appends_bind; [apply set_cmd_action|].
    intros [|]; [done|apply appends_ret].
Qed.

(** Every command of the batch operation, the address command among them,
    carries the action Add. *)
Lemma set_action filt_index commands cb :
  appends (carries_action BTM_BLE_SCAN_COND_ADD)
    (BTM_LE_PF_set filt_index commands cb).
Proof.
  unfold BTM_LE_PF_set. apply appends_bind; [apply appends_gets|].
  intros supported. destruct (negb supported); [by apply appends_Run|].
  apply appends_bind; [apply set_loop_action|].
  intros [|]; [by apply appends_Run|apply appends_ret].
Qed.

Lemma appends_impl {A} (P Q : event → Prop) (m : M A) :
  (∀ e, P e → Q e) → appends P m → appends Q m.
Proof.
  intros HPQ Hm st a st' Hrun. destruct (Hm _ _ _ Hrun) as (l & Ht & Hl).
  exists l. split; [done|]. by eapply Forall_impl.
Qed.

Lemma appends_sent {A} (P : event → Prop) (m : M A) (a : A) (e : event) :
  (∀ st, m st = Ok (a, set_target tBLE_BD_ADDR_zero (emit e st))) →
  P e → appends P m.
Proof.
  intros Hm HP st b st' Hrun. rewrite Hm in Hrun. injection Hrun as <- <-.
  exists [e]. split; [done|]. by apply Forall_singleton.
Qed.

Lemma clear_header_only filt_index cb :
  appends clear_is_header_only (BTM_LE_PF_clear filt_index cb).
Proof.
  unfold BTM_LE_PF_clear. apply appends_bind; [apply appends_gets|].
  intros supported. destruct (negb supported); [by apply appends_Run|].
  apply appends_bind; [|intros ?; cbv beta].
  { eapply appends_sent; [intros st; apply manu_data_clear|].
    apply header_is_header_only. }
  apply appends_bind; [|intros ?; cbv beta].
  { eapply appends_sent; [intros st; apply local_name_clear|].
    apply header_is_header_only. }
  apply appends_bind; [apply appends_srvc_data|intros ?; cbv beta].
  apply appends_bind; [|intros ?; cbv beta].
  { eapply appends_sent; [intros st; apply uuid_filter_clear|].
    apply header_is_header_only. }
  apply appends_bind; [|intros ?; cbv beta].
  { eapply appends_sent; [intros st; apply uuid_filter_clear|].
    apply header_is_header_only. }
  apply appends_bind; [|intros ?; cbv beta].
  { eapply appends_sent; [intros st; apply srvc_data_pattern_clear|].
    apply header_is_header_only. }
  apply appends_bind; [apply appends_gets|intros m; cbv beta].
  apply appends_bind; [|intros ?; cbv beta].
  { destruct (m !! filt_index) as [entry|]; [|apply appends_ret].
    apply appends_bind; [apply appends_gets|intros db].
    destruct (negb (btm_sec_is_a_bonded_dev entry db)); [|apply appends_ret].
    by apply appends_modify. }
  apply appends_bind; [|intros ?; apply appends_reset].
  apply appends_send. apply feat_sel_header_only.
Qed.

Lemma param_setup_header_only action filt_index p_filt_params cb :
  appends clear_is_header_only
    (BTM_BleAdvFilterParamSetup action filt_index p_filt_params cb).
Proof.
  unfold BTM_BleAdvFilterParamSetup.
  repeat first
    [ by apply appends_Run
    | apply appends_send; apply feat_sel_header_only
    | apply appends_find | apply appends_dealloc
    | apply appends_replace_existing_entry
    | apply appends_ret | apply appends_gets | apply appends_raise
    | apply appends_bind; [|intros ?]
    | match goal with
      | |- appends _ (match ?x with _ => _ end) => destruct x
      end ].
Qed.

Lemma enable_header_only enable p_stat_cback :
  appends clear_is_header_only
    (BTM_BleEnableDisableFilterFeature enable p_stat_cback).
Proof.
  unfold BTM_BleEnableDisableFilterFeature.
  apply appends_bind; [apply appends_gets|].
  intros supported. destruct (negb supported).
  - case_bool_decide; [by apply appends_Run|apply appends_ret].
  - by apply appends_send.
Qed.


End CommandActions.

Section PendingTarget.
Context `{Header} `{Collaborators}.

(** Whatever ran before, a reset of the pending target as the last step
    leaves it empty. *)
Lemma then_reset_target {A} (m : M A) (st st' : state) (r : unit) :
  (m ;; reset_cur_filter_target) st = Ok (r, st') →
  target st' = tBLE_BD_ADDR_zero.
Proof.
  intros Hrun. apply bind_inv in Hrun as (a & st1 & _ & Hreset).
  unfold reset_cur_filter_target, modify in Hreset. by simplify_eq.
Qed.

Lemma addr_filter_resets_target action filt_index addr cb (st st' : state) r :
  BTM_LE_PF_addr_filter action filt_index addr cb st = Ok (r, st') →
  target st' = tBLE_BD_ADDR_zero.
Proof.
  unfold BTM_LE_PF_addr_filter. intros Hrun.
  apply bind_inv in Hrun as (p & st1 & _ & Hrun).
  by apply then_reset_target in Hrun.
Qed.

Lemma local_name_resets_target action filt_index name cb (st st' : state) r :
  BTM_LE_PF_local_name action filt_index name cb st = Ok (r, st') →
  target st' = tBLE_BD_ADDR_zero.
Proof.
  unfold BTM_LE_PF_local_name. intros Hrun.
  apply bind_inv in Hrun as ([p len] & st1 & _ & Hrun).
  by apply then_reset_target in Hrun.
Qed.

Lemma manu_data_resets_target action filt_index company_id company_id_mask
    data data_mask cb (st st' : state) r :
  BTM_LE_PF_manu_data action filt_index company_id company_id_mask data
    data_mask cb st = Ok (r, st') →
  target st' = tBLE_BD_ADDR_zero.
Proof.
  unfold BTM_LE_PF_manu_data. intros Hrun.
  apply bind_inv in Hrun as ([p len] & st1 & _ & Hrun).
  by apply then_reset_target in Hrun.
Qed.

Lemma srvc_data_pattern_resets_target action filt_index data data_mask cb
    (st st' : state) r :
  BTM_LE_PF_srvc_data_pattern action filt_index data data_mask cb st
  = Ok (r, st') →
  target st' = tBLE_BD_ADDR_zero.
Proof.
  unfold BTM_LE_PF_srvc_data_pattern. intros Hrun.
  apply bind_inv in Hrun as ([p len] & st1 & _ & Hrun).
  by apply then_reset_target in Hrun.
Qed.

(** The UUID encoder resets the target on the paths that send. *)
Lemma uuid_filter_resets_target action filt_index filter_type uuid cond_logic
    uuid_mask cb (st st' : state) r :
  action = BTM_BLE_SCAN_COND_CLEAR
  ∨ u8 (GetShortestRepresentationSize uuid)
    ∈ [Uuid_kNumBytes16; Uuid_kNumBytes32; Uuid_kNumBytes128] →
  BTM_LE_PF_uuid_filter action filt_index filter_type uuid cond_logic
    uuid_mask cb st = Ok (r, st') →
  target st' = tBLE_BD_ADDR_zero.
Proof.
  intros Hlen. unfold BTM_LE_PF_uuid_filter.
  case_bool_decide as Hact.
  - destruct Hlen as [->|Hlen]; [done|].
    match goal with
    | |- match ?value with _ => _ end _ = _ → _ =>
        assert (Hvalue : is_Some value);
        [|destruct value as [[p len]|]; [|by destruct Hvalue]]
    end.
    { rewrite !elem_of_cons in Hlen.
      destruct Hlen as [Hl|[Hl|[Hl|Hl]]]; [..|by apply elem_of_nil in Hl];
        rewrite Hl; repeat case_bool_decide; done. }
    match goal with
    | |- (let '(_, _) := ?masked in _) _ = _ → _ =>
        destruct masked as [p' len']
    end.
    intros Hrun. by apply then_reset_target in Hrun.
  - intros Hrun. by apply then_reset_target in Hrun.
Qed.

Lemma Run_target cb args (st st' : state) r :
  Run cb args st = Ok (r, st') → target st' = target st.
Proof. unfold Run. destruct cb; monad_simpl; intros; by simplify_eq. Qed.

Lemma send_target opcode param len k (st st' : state) r :
  btu_hcif_send_cmd_with_cb opcode param len k st = Ok (r, st') →
  target st' = target st.
Proof. unfold btu_hcif_send_cmd_with_cb, modify. intros. by simplify_eq. Qed.

Lemma replace_existing_entry_target filt_index (st st' : state) r :
  replace_existing_entry filt_index st = Ok (r, st') → target st' = target st.
Proof.
  unfold replace_existing_entry. monad_simpl.
  repeat case_match; intros; by simplify_eq.
Qed.

Lemma dealloc_target p_bd_addr filter_type (st st' : state) r :
  btm_ble_dealloc_addr_filter_counter p_bd_addr filter_type st = Ok (r, st') →
  target st' = target st.
Proof.
  unfold btm_ble_dealloc_addr_filter_counter.
  repeat case_match; intros; by simplify_eq.
Qed.

(** Filter-parameter setup has no reset: the target is what it was. *)
Lemma param_setup_keeps_target action filt_index p_filt_params cb
    (st st' : state) r :
  BTM_BleAdvFilterParamSetup action filt_index p_filt_params cb st
  = Ok (r, st') →
  target st' = target st.
Proof.
  unfold BTM_BleAdvFilterParamSetup. intros Hrun.
  apply bind_inv in Hrun as (supported & st1 & Hsup & Hrun).
  unfold gets in Hsup. simplify_eq.
  destruct (negb (is_filtering_supported st1));
    [by apply Run_target in Hrun|].
  case_bool_decide.
  { apply bind_inv in Hrun as (found & st2 & Hfind & Hrun).
    unfold btm_ble_find_addr_filter_counter in Hfind. simplify_eq.
    destruct p_filt_params; [|done].
    apply bind_inv in Hrun as (vsc & st3 & Hvsc & Hrun).
    unfold gets in Hvsc. simplify_eq.
    destruct BLE_ADV_FILTER; [by apply send_target in Hrun|].
    unfold ret in Hrun. by simplify_eq. }
  case_bool_decide.
  { destruct BLE_ADV_FILTER; [|unfold ret in Hrun; by simplify_eq].
    apply bind_inv in Hrun as (? & st2 & Hsend & Hrun).
    apply bind_inv in Hrun as (? & st3 & Hrep & Hrun).
    apply send_target in Hsend.
    apply replace_existing_entry_target in Hrep.
    unfold ret in Hrun. simplify_eq. congruence. }
  case_bool_decide; [|unfold ret in Hrun; by simplify_eq].
  apply bind_inv in Hrun as (? & st2 & Hde & Hrun).
  apply dealloc_target in Hde. apply send_target in Hrun. congruence.
Qed.

(** The illegal-length path of the UUID encoder: the callback runs with
    the illegal-value status and the function returns; nothing is sent and
    the target is not reset. *)
Lemma uuid_filter_illegal_length action filt_index filter_type uuid
    cond_logic uuid_mask cb (st : state) :
  action ≠ BTM_BLE_SCAN_COND_CLEAR →
  u8 (GetShortestRepresentationSize uuid)
    ∉ [Uuid_kNumBytes16; Uuid_kNumBytes32; Uuid_kNumBytes128] →
  BTM_LE_PF_uuid_filter action filt_index filter_type uuid cond_logic
    uuid_mask cb st
  = Run cb [0; BTM_BLE_PF_CONFIG; BTM_ILLEGAL_VALUE] st.
Proof.
  intros Hact Hlen. rewrite !not_elem_of_cons in Hlen.
  destruct Hlen as (? & ? & ? & _).
  unfold BTM_LE_PF_uuid_filter.
  rewrite bool_decide_eq_true_2 by done.
  by rewrite !bool_decide_eq_false_2.
Qed.

(** Where the target is empty before, it is empty after each of these
    operations, on every path that returns. *)
Lemma target_stays_empty (st st' : state) (cb : callback) :
  target st = tBLE_BD_ADDR_zero →
  (∀ action filt_index filter_type uuid cond_logic uuid_mask,
     BTM_LE_PF_uuid_filter action filt_index filter_type uuid cond_logic
       uuid_mask cb st = Ok (tt, st') →
     target st' = tBLE_BD_ADDR_zero)
  ∧ (∀ action filt_index p_filt_params,
       BTM_BleAdvFilterParamSetup action filt_index p_filt_params cb st
       = Ok (tt, st') →
       target st' = tBLE_BD_ADDR_zero).
Proof.
  intros Hempty. split.
  - intros action filt_index filter_type uuid cond_logic uuid_mask Hrun.
    destruct (decide (action = BTM_BLE_SCAN_COND_CLEAR)) as [Hact|Hact].
    { eapply uuid_filter_resets_target; [by left|done]. }
    destruct (decide (u8 (GetShortestRepresentationSize uuid)
                      ∈ [Uuid_kNumBytes16; Uuid_kNumBytes32;
                         Uuid_kNumBytes128])) as [Hlen|Hlen].
    { eapply uuid_filter_resets_target; [by right|done]. }
    rewrite uuid_filter_illegal_length in Hrun by done.
    apply Run_target in Hrun. congruence.
  - intros action filt_index p_filt_params Hrun.
    apply param_setup_keeps_target in Hrun. congruence.
Qed.

Lemma clear_resets_target filt_index cb (st st' : state) r :
  is_filtering_supported st = true →
  BTM_LE_PF_clear filt_index cb st = Ok (r, st') →
  target st' = tBLE_BD_ADDR_zero.
Proof.
  intros Hsup Hrun. unfold BTM_LE_PF_clear in Hrun.
  apply bind_inv in Hrun as (supported & st1 & Hgets & Hrun).
  unfold gets in Hgets. simplify_eq. rewrite Hsup in Hrun. simpl in Hrun.
  do 8 (apply bind_inv in Hrun as (? & ? & _ & Hrun)).
  by apply then_reset_target in Hrun.
Qed.

(** What initialisation leaves: the capabilities read, the operation type
    and the pending target zeroed, a table of [max_filter] entries where
    filtering is supported and no table where it is not; device records,
    map and trace as they were. *)
Lemma init_shape (st0 st : state) :
  btm_ble_adv_filter_init st0 = Ok (tt, st) →
  cmn_ble_vsc_cb st = BTM_BleGetVendorCapabilities
  ∧ op_type (btm_ble_adv_filt_cb st) = 0
  ∧ target st = tBLE_BD_ADDR_zero
  ∧ length (table st)
    = (if is_filtering_supported st then max_filter (cmn_ble_vsc_cb st)
       else 0%nat)
  ∧ remove_me_later_map st = remove_me_later_map st0
  ∧ sec st = sec st0
  ∧ trace st = trace st0.
Proof.
  unfold btm_ble_adv_filter_init. monad_simpl.
  unfold is_filtering_supported. simpl.
  destruct (negb (filter_support BTM_BleGetVendorCapabilities =? 0)
            && negb (max_filter BTM_BleGetVendorCapabilities =? 0)%nat)
    eqn:Hsup; simpl.
  - pose proof Hsup as [_ Hmax]%andb_true_iff.
    apply negb_true_iff, Nat.eqb_neq in Hmax.
    rewrite bool_decide_eq_true_2 by lia.
    intros [= <-]. simpl. rewrite Hsup.
    by rewrite table_set_table, osi_malloc_length.
  - intros [= <-]. simpl. by rewrite Hsup.
Qed.

(** Every call keeps an empty pending target empty. *)
Lemma call_keeps_empty_target (st st' : state) :
  call st st' → target st = tBLE_BD_ADDR_zero → target st' = tBLE_BD_ADDR_zero.
Proof.
  intros Hcall Hempty.
  destruct Hcall as [? ? ? ? ? Hrun|? ? ? ? Hrun|? ? ? ? ? ? Hrun
                    |? ? ? ? Hrun|? ? ? ? ? ? Hrun|? ? ? ? ? Hrun].
  - eapply (preserves_set (λ s, target s = tBLE_BD_ADDR_zero)); eauto.
  - eapply (preserves_clear (λ s, target s = tBLE_BD_ADDR_zero)); eauto.
  - eapply (preserves_param_setup (λ s, target s = tBLE_BD_ADDR_zero));
      eauto.
  - eapply (preserves_enable (λ s, target s = tBLE_BD_ADDR_zero)); eauto.
  - eapply (preserves_flt_update_cb (λ s, target s = tBLE_BD_ADDR_zero));
      eauto.
  - eapply (preserves_enable_cmpl_cback
              (λ s, target s = tBLE_BD_ADDR_zero)); eauto.
Qed.


End PendingTarget.

Section IdentityRecords.
Context `{Header} `{Collaborators} `{!HeaderOk}.

(** The service-data counter update of [BTM_LE_PF_clear]: the generic
    entry's service-data counter is bumped. *)
Lemma srvc_data_clear (filt_index : Z) (st : state)
    (s0 : tBTM_BLE_PF_COUNT) (c : Z) :
  table st !! 0%nat = Some s0 →
  pf_counter s0 !! Z.to_nat BTM_BLE_PF_SRVC_DATA = Some c →
  BTM_LE_PF_srvc_data BTM_BLE_SCAN_COND_CLEAR filt_index st
  = Ok (tt,
        set_table
          (<[0%nat := mk_tBTM_BLE_PF_COUNT (in_use s0) (bd_addr s0)
                        (<[Z.to_nat BTM_BLE_PF_SRVC_DATA := u8 (c + 1)]>
                           (pf_counter s0))]> (table st)) st).
Proof.
  intros Hs0 Hc. pose proof pf_srvc_data_range as Hr.
  pose proof pf_srvc_data_not_generic as Hg.
  pose proof scan_cond_add_clear as Hac.
  unfold BTM_LE_PF_srvc_data, btm_ble_cs_update_pf_counter.
  rewrite (bool_decide_eq_false_2
             (BTM_BLE_SCAN_COND_CLEAR = BTM_BLE_SCAN_COND_ADD))
    by congruence.
  rewrite (bool_decide_eq_false_2 (_ > _)) by lia.
  assert (Hnone : ∀ b : bool, (if b then None else None)
                              = (None : option tBLE_BD_ADDR))
    by (by intros []).
  rewrite Hnone. monad_simpl.
  rewrite (bool_decide_eq_false_2 (BTM_BLE_PF_TYPE_ALL = _)) by lia.
  rewrite (bool_decide_eq_false_2 (BTM_BLE_PF_ADDR_FILTER = _)) by done.
  simpl. rewrite bool_decide_eq_true_2 by lia.
  unfold bump_counter. rewrite Hs0, Hc.
  by rewrite bool_decide_eq_true_2.
Qed.

Lemma replace_existing_entry_found (filt_index : Z) (entry : RawAddress)
    (st : state) :
  remove_me_later_map st !! filt_index = Some entry →
  ∃ r st',
    replace_existing_entry filt_index st = Ok (r, st')
    ∧ sec st' = (if btm_sec_is_a_bonded_dev entry (sec st) then sec st
                 else snd (BTM_SecDeleteDevice entry (sec st)))
    ∧ remove_me_later_map st'
      = (if btm_sec_is_a_bonded_dev entry (sec st)
            || fst (BTM_SecDeleteDevice entry (sec st))
         then delete filt_index (remove_me_later_map st)
         else remove_me_later_map st)
    ∧ trace st' = trace st.
Proof.
  intros Hentry. unfold replace_existing_entry. monad_simpl.
  rewrite Hentry.
  destruct (btm_sec_is_a_bonded_dev entry (sec st)); simpl; [eauto 6|].
  destruct (BTM_SecDeleteDevice entry (sec st)) as [[] db']; simpl;
    eauto 6.
Qed.

(** C8 (amended). For a filter index with a pending identity-record
    mapping, the delete branch of filter-parameter setup and the clear
    operation call the device-record deletion exactly when the device is
    not bonded.  The delete branch then erases the mapping when the device
    is bonded or the deletion succeeded, and keeps it when the deletion
    failed. *)
Theorem identity_record_cleanup (filt_index : Z) (entry : RawAddress)
    (cb : callback) (st : state) (s0 : tBTM_BLE_PF_COUNT) (c : Z) :
  is_filtering_supported st = true →
  BLE_ADV_FILTER = true →
  remove_me_later_map st !! filt_index = Some entry →
  table st !! 0%nat = Some s0 →
  pf_counter s0 !! Z.to_nat BTM_BLE_PF_SRVC_DATA = Some c →
  let db_after :=
    if btm_sec_is_a_bonded_dev entry (sec st) then sec st
    else snd (BTM_SecDeleteDevice entry (sec st)) in
  (∀ p_filt_params,
     ∃ st',
       BTM_BleAdvFilterParamSetup BTM_BLE_SCAN_COND_DELETE filt_index
         p_filt_params cb st = Ok (tt, st')
       ∧ sec st' = db_after
       ∧ remove_me_later_map st'
         = (if btm_sec_is_a_bonded_dev entry (sec st)
               || fst (BTM_SecDeleteDevice entry (sec st))
            then delete filt_index (remove_me_later_map st)
            else remove_me_later_map st))
  ∧ (∃ st',
       BTM_LE_PF_clear filt_index cb st = Ok (tt, st')
       ∧ sec st' = db_after).
Proof.
  intros Hsup Hflag Hentry Hs0 Hc db_after. split.
  - intros p_filt_params. unfold BTM_BleAdvFilterParamSetup.
    unfold mbind at 1, M_bind at 1, bind at 1, gets at 1.
    rewrite Hsup. simpl.
    rewrite bool_decide_eq_false_2 by apply scan_cond_add_delete.
    rewrite bool_decide_eq_true_2 by done. rewrite Hflag.
    unfold btu_hcif_send_cmd_with_cb at 1.
    unfold mbind at 1, M_bind at 1, bind at 1, modify at 1.
    match goal with
    | |- context [emit ?e st] => set (st1 := emit e st)
    end.
    destruct (replace_existing_entry_found filt_index entry st1 Hentry)
      as (r & st' & Hrep & Hsec & Hmap & _).
    exists st'. unfold mbind, M_bind, bind. rewrite Hrep. done.
  - unfold BTM_LE_PF_clear.
    unfold mbind at 1, M_bind at 1, bind at 1, gets at 1.
    rewrite Hsup. simpl. unfold mbind, M_bind, bind.
    rewrite manu_data_clear, local_name_clear.
    erewrite srvc_data_clear by (simpl; eassumption).
    rewrite !uuid_filter_clear, srvc_data_pattern_clear.
    unfold gets. simpl. rewrite Hentry. unfold db_after.
    destruct (btm_sec_is_a_bonded_dev entry (sec st)) eqn:Hbonded;
      simpl; rewrite Hbonded; simpl; eauto.
Qed.

End IdentityRecords.

Section BatchSet.
Context `{Header} `{Collaborators}.

Lemma only_sends_refl (st : state) : only_sends st st.
Proof. exists []. by rewrite app_nil_r. Qed.

Lemma only_sends_trans (st1 st2 st3 : state) :
  only_sends st1 st2 → only_sends st2 st3 → only_sends st1 st3.
Proof.
  intros (l1 & H1 & Hs1) (l2 & H2 & Hs2). exists (l1 ++ l2).
  split; [by rewrite H2, H1, app_assoc|]. by apply Forall_app.
Qed.

Lemma only_sends_same_trace (st st' : state) :
  trace st' = trace st → only_sends st st'.
Proof. intros Ht. exists []. by rewrite app_nil_r. Qed.

Lemma sends_ret {A} (a : A) : sends_only (ret a).
Proof. intros st b st' [= <- <-]. apply only_sends_refl. Qed.

Lemma sends_gets {A} (f : state → A) : sends_only (gets f).
Proof. intros st b st' [= <- <-]. apply only_sends_refl. Qed.

Lemma sends_raise {A} (f : fault) : sends_only (raise f : M A).
Proof. intros st b st' [=]. Qed.

Lemma sends_modify (f : state → state) :
  (∀ st, trace (f st) = trace st) → sends_only (modify f).
Proof. intros Hf st b st' [= <- <-]. by apply only_sends_same_trace. Qed.

Lemma sends_send opcode param len k :
  sends_only (btu_hcif_send_cmd_with_cb opcode param len k).
Proof.
  intros st b st' [= <- <-]. exists [EvSend opcode (take (Z.to_nat len) param) k].
  split; [done|]. by apply Forall_singleton.
Qed.

Lemma sends_bind {A B} (m : M A) (k : A → M B) :
  sends_only m → (∀ a, sends_only (k a)) → sends_only (m ≫= k).
Proof.
  intros Hm Hk st b st' Hrun.
  apply bind_inv in Hrun as (a & st1 & Hrun1 & Hrun2).
  eapply only_sends_trans; [by eapply Hm | by eapply Hk].
Qed.

Lemma sends_table_update {A} (m : M A) :
  (∀ st a st', m st = Ok (a, st') → ∃ tbl, st' = set_table tbl st) →
  sends_only m.
Proof.
  intros Hm st a st' Hrun. destruct (Hm _ _ _ Hrun) as [tbl ->].
  by apply only_sends_same_trace.
Qed.

Lemma sends_find p_le_bda : sends_only (btm_ble_find_addr_filter_counter p_le_bda).
Proof.
  intros st a st'. unfold btm_ble_find_addr_filter_counter.
  repeat case_match; intros; simplify_eq; apply only_sends_refl.
Qed.

Lemma sends_alloc a : sends_only (btm_ble_alloc_addr_filter_counter a).
Proof.
  apply sends_table_update. intros st r st'.
  unfold btm_ble_alloc_addr_filter_counter.
  repeat case_match; intros; simplify_eq; eauto.
Qed.

Lemma sends_dealloc p_bd_addr filter_type :
  sends_only (btm_ble_dealloc_addr_filter_counter p_bd_addr filter_type).
Proof.
  apply sends_table_update. intros st r st'.
  unfold btm_ble_dealloc_addr_filter_counter.
  repeat case_match; intros; simplify_eq; eauto.
Qed.

Lemma sends_bump i cond_type num_available :
  sends_only (bump_counter i cond_type num_available).
Proof.
  apply sends_table_update. intros st r st'. unfold bump_counter.
  repeat case_match; intros; simplify_eq; eauto.
Qed.

Ltac sends_step :=
  match goal with
  | |- sends_only (_ ≫= _) => apply sends_bind; [|intros ?]
  | |- sends_only (ret _) => apply sends_ret
  | |- sends_only (gets _) => apply sends_gets
  | |- sends_only (raise _) => apply sends_raise
  | |- sends_only (modify _) => apply sends_modify; intros ?; reflexivity
  | |- sends_only (btu_hcif_send_cmd_with_cb _ _ _ _) => apply sends_send
  | |- sends_only (btm_ble_find_addr_filter_counter _) => apply sends_find
  | |- sends_only (btm_ble_alloc_addr_filter_counter _) => apply sends_alloc
  | |- sends_only (btm_ble_dealloc_addr_filter_counter _ _) =>
      apply sends_dealloc
  | |- sends_only (bump_counter _ _ _) => apply sends_bump
  | |- sends_only (match ?x with _ => _ end) => destruct x
  end.

Lemma sends_update action cond_type p_bd_addr num_available :
  sends_only (btm_ble_cs_update_pf_counter action cond_type p_bd_addr
                num_available).
Proof. unfold btm_ble_cs_update_pf_counter. repeat sends_step. Qed.

Lemma sends_ARRAY_TO_STREAM p v n : sends_only (ARRAY_TO_STREAM p v n).
Proof. unfold ARRAY_TO_STREAM. repeat sends_step. Qed.

Lemma sends_reset : sends_only reset_cur_filter_target.
Proof. unfold reset_cur_filter_target. repeat sends_step. Qed.

Ltac sends_enc :=
  repeat first
    [ apply sends_ARRAY_TO_STREAM | apply sends_reset | apply sends_update
    | sends_step ].

Lemma sends_local_name action filt_index name :
  sends_only (BTM_LE_PF_local_name action filt_index name CbDoNothing).
Proof. unfold BTM_LE_PF_local_name. sends_enc. Qed.

Lemma sends_srvc_data action filt_index :
  sends_only (BTM_LE_PF_srvc_data action filt_index).
Proof. unfold BTM_LE_PF_srvc_data. sends_enc. Qed.

Lemma sends_manu_data action filt_index company_id company_id_mask data
    data_mask :
  sends_only (BTM_LE_PF_manu_data action filt_index company_id
                company_id_mask data data_mask CbDoNothing).
Proof. unfold BTM_LE_PF_manu_data. sends_enc. Qed.

Lemma sends_srvc_data_pattern action filt_index data data_mask :
  sends_only (BTM_LE_PF_srvc_data_pattern action filt_index data data_mask
                CbDoNothing).
Proof. unfold BTM_LE_PF_srvc_data_pattern. sends_enc. Qed.

Lemma sends_addr_filter action filt_index addr :
  sends_only (BTM_LE_PF_addr_filter action filt_index addr CbDoNothing).
Proof. unfold BTM_LE_PF_addr_filter. sends_enc. Qed.

Lemma sends_uuid_filter action filt_index filter_type uuid cond_logic
    uuid_mask :
  sends_only (BTM_LE_PF_uuid_filter action filt_index filter_type uuid
                cond_logic uuid_mask CbDoNothing).
Proof. unfold BTM_LE_PF_uuid_filter, Run. sends_enc. Qed.

Lemma sends_replace_existing_entry filt_index :
  sends_only (replace_existing_entry filt_index).
Proof. unfold replace_existing_entry. sends_enc. Qed.

Lemma sends_set_cmd filt_index cmd :
  sends_only (BTM_LE_PF_set_cmd filt_index cmd).
Proof.
  unfold BTM_LE_PF_set_cmd.
  repeat first
    [ apply sends_addr_filter | apply sends_srvc_data
    | apply sends_uuid_filter | apply sends_local_name
    | apply sends_manu_data | apply sends_srvc_data_pattern
    | apply sends_replace_existing_entry | sends_step ].
Qed.

Lemma sends_set_loop filt_index commands :
  sends_only (BTM_LE_PF_set_loop filt_index commands).
Proof.
  induction commands as [|cmd rest IH]; simpl.
  - apply sends_ret.
  - apply sends_bind; [apply sends_set_cmd|].
    intros [|]; [done|apply sends_ret].
Qed.

End BatchSet.

Section BatchSetTheorem.
Context `{Header} `{Collaborators}.

Lemma set_cmd_size_mismatch filt_index (cmd : ApcfCommand) (st : state) :
  size_mismatch cmd = true →
  BTM_LE_PF_set_cmd filt_index cmd st = Ok (Next, st).
Proof. intros Hm. unfold BTM_LE_PF_set_cmd. by rewrite Hm. Qed.

Lemma set_cmd_unknown_type filt_index (cmd : ApcfCommand) (st : state) :
  unknown_type cmd = true →
  BTM_LE_PF_set_cmd filt_index cmd st = Ok (Next, st).
Proof.
  unfold unknown_type. intros Hu. apply bool_decide_eq_true_1 in Hu.
  rewrite !not_elem_of_cons in Hu.
  destruct Hu as (? & ? & ? & ? & ? & ? & ? & _).
  unfold BTM_LE_PF_set_cmd. destruct (size_mismatch cmd); [done|].
  by rewrite !bool_decide_eq_false_2.
Qed.

Lemma set_cmd_skipped filt_index (cmd : ApcfCommand) (st : state) :
  skipped cmd = true →
  BTM_LE_PF_set_cmd filt_index cmd st = Ok (Next, st).
Proof.
  unfold skipped. intros [Hs|Hs]%orb_true_iff.
  - by apply set_cmd_size_mismatch.
  - by apply set_cmd_unknown_type.
Qed.

(** The loop does on a batch what it does on the batch without the
    commands it passes over. *)
Lemma set_loop_effective filt_index (commands : list ApcfCommand)
    (st : state) :
  BTM_LE_PF_set_loop filt_index commands st
  = BTM_LE_PF_set_loop filt_index (effective commands) st.
Proof.
  revert st. induction commands as [|cmd rest IH]; intros st; [done|].
  unfold effective. simpl. fold (effective rest).
  destruct (skipped cmd) eqn:Hs; simpl.
  - unfold mbind, M_bind, bind. rewrite set_cmd_skipped by done. apply IH.
  - unfold mbind, M_bind, bind.
    destruct (BTM_LE_PF_set_cmd filt_index cmd st) as [[[|] st1]|f];
      [apply IH|done|done].
Qed.

(** A command that carries no identity resolving key never makes the
    operation return: when its pass through the loop ends, the loop goes
    on. *)
Lemma set_cmd_without_irk filt_index (cmd : ApcfCommand) (st st1 : state)
    (r : flow) :
  carries_irk cmd = false →
  BTM_LE_PF_set_cmd filt_index cmd st = Ok (r, st1) → r = Next.
Proof.
  unfold carries_irk. intros Hirk. unfold BTM_LE_PF_set_cmd.
  destruct (size_mismatch cmd); [by intros [= <- _]|].
  destruct (bool_decide (cmd_type cmd = BTM_BLE_PF_ADDR_FILTER)).
  { simpl in Hirk. rewrite Hirk. simpl. intros Hrun.
    apply bind_inv in Hrun as (? & ? & _ & Hret). by injection Hret. }
  repeat (match goal with
          | |- (if ?c then _ else _) _ = _ → _ => destruct c
          end);
    try (intros Hrun; apply bind_inv in Hrun as (? & ? & _ & Hret));
    try (intros Hret); by injection Hret.
Qed.

(** A command that carries an identity resolving key makes the operation
    return exactly on the two guards of the address case. *)
Lemma set_cmd_irk_flow filt_index (cmd : ApcfCommand) (st : state) :
  size_mismatch cmd = false →
  carries_irk cmd = true →
  ∃ st1,
    BTM_LE_PF_set_cmd filt_index cmd st
    = Ok (if irk_returns_early filt_index cmd st then Return else Next, st1).
Proof.
  intros Hsize Hirk. unfold carries_irk in Hirk.
  apply andb_true_iff in Hirk as [Htype Hkey].
  unfold BTM_LE_PF_set_cmd. rewrite Hsize, Htype, Hkey.
  destruct (addr_filter_total BTM_BLE_SCAN_COND_ADD filt_index
              (mk_tBLE_BD_ADDR (to_ble_addr_type (cmd_addr_type cmd))
                 (cmd_address cmd)) CbDoNothing st) as [payload Haddr].
  unfold mbind at 1, M_bind at 1, bind at 1. rewrite Haddr.
  unfold replace_existing_entry, irk_returns_early. monad_simpl.
  destruct (remove_me_later_map st !! filt_index) as [entry|]; simpl.
  - destruct (btm_sec_is_a_bonded_dev entry (sec st)); simpl.
    + destruct (btm_find_dev (cmd_address cmd) (sec st)); simpl; eauto.
    + destruct (BTM_SecDeleteDevice entry (sec st)) as [[] db']; simpl;
        [|eauto].
      destruct (btm_find_dev (cmd_address cmd) db'); simpl; eauto.
  - destruct (btm_find_dev (cmd_address cmd) (sec st)); simpl; eauto.
Qed.

Lemma set_loop_without_irk filt_index (commands : list ApcfCommand) :
  Forall (λ cmd, carries_irk cmd = false) commands →
  ∀ (st st1 : state) (r : flow),
    BTM_LE_PF_set_loop filt_index commands st = Ok (r, st1) → r = Next.
Proof.
  induction 1 as [|cmd rest Hcmd Hrest IH]; intros st st1 r Hrun;
    simpl in Hrun.
  - by injection Hrun.
  - apply bind_inv in Hrun as (r0 & st0 & Hcmd0 & Hrun).
    apply set_cmd_without_irk in Hcmd0 as ->; [|done]. by eapply IH.
Qed.


End BatchSetTheorem.

(** * The operations on the reference configuration *)

Section Reference.

#[local] Existing Instances reference_header reference_collaborators.

Lemma reference_header_ok : HeaderOk.
Proof.
  split; try (simpl; lia).
  - repeat constructor; simpl; lia.
  - apply (bool_decide_unpack _). by vm_compute.
  - apply (bool_decide_unpack _). by vm_compute.
Qed.

#[local] Existing Instance reference_header_ok.

Lemma update_pf_counter_unknown_type_witness :
  8 > BTM_BLE_PF_TYPE_ALL
  ∧ btm_ble_cs_update_pf_counter BTM_BLE_SCAN_COND_ADD 8
      (Some (mk_tBLE_BD_ADDR 0 AA_BB_CC_DD_EE_FF)) 1 busy_state
    = Ok (255, busy_state).
Proof.
  split; [reflexivity|].
  apply (update_pf_counter_unknown_type BTM_BLE_SCAN_COND_ADD 8
           (Some (mk_tBLE_BD_ADDR 0 AA_BB_CC_DD_EE_FF)) 1 busy_state).
  reflexivity.
Defined.

Lemma flt_update_cb_drops_mismatch_witness :
  btm_flt_update_cb BTM_BLE_META_PF_UUID (CbClient 1)
    (ack HCI_SUCCESS BTM_BLE_META_PF_LOCAL_NAME BTM_BLE_SCAN_COND_ADD 1) 4
    stale_target_state
  = Ok (tt, stale_target_state).
Proof.
  apply (flt_update_cb_drops_mismatch BTM_BLE_META_PF_UUID (CbClient 1)
           (ack HCI_SUCCESS BTM_BLE_META_PF_LOCAL_NAME BTM_BLE_SCAN_COND_ADD
              1) 4 stale_target_state).
  right. exists 0, 5, 1, 1, []. split; [reflexivity|]. simpl. lia.
Defined.

Lemma unsupported_fails_fast_witness :
  filter_support (cmn_ble_vsc_cb unsupported_state) = 0
  ∧ BTM_LE_PF_clear 5 (CbClient 1) unsupported_state
    = Ok (tt, emit (EvRun 1 [0; BTM_BLE_PF_ENABLE; BTM_MODE_UNSUPPORTED])
                unsupported_state).
Proof.
  split; [reflexivity|].
  apply (unsupported_fails_fast unsupported_state 1). left. reflexivity.
Defined.

Lemma addr_filter_add_acknowledged_witness :
  table ready_state !! 0%nat = Some free_slot
  ∧ ∃ st0 st1,
      BTM_LE_PF_addr_filter BTM_BLE_SCAN_COND_ADD 5
        (mk_tBLE_BD_ADDR 0 AA_BB_CC_DD_EE_FF) CbDoNothing ready_state
      = Ok (tt, st0)
      ∧ btm_flt_update_cb BTM_BLE_META_PF_ADDR CbDoNothing
          (ack HCI_SUCCESS BTM_BLE_META_PF_ADDR BTM_BLE_SCAN_COND_ADD 1) 4
          st0 = Ok (tt, st1)
      ∧ table st1
        = <[0%nat := mk_tBTM_BLE_PF_COUNT (in_use free_slot)
                       (bd_addr free_slot)
                       (<[Z.to_nat BTM_BLE_PF_ADDR_FILTER := u8 (0 + 1)]>
                          (pf_counter free_slot))]>
            (table ready_state)
      ∧ (∀ i, (1 ≤ i)%nat → table st1 !! i = table ready_state !! i).
Proof.
  split; [reflexivity|].
  apply (addr_filter_add_acknowledged CbDoNothing 5
           (mk_tBLE_BD_ADDR 0 AA_BB_CC_DD_EE_FF) ready_state free_slot 0).
  - reflexivity.
  - reflexivity.
  - discriminate.
Defined.

Lemma scans_read_past_the_allocated_table_witness :
  ∃ st,
    btm_ble_adv_filter_init idle_state = Ok (tt, st)
    ∧ length (table st) = 2%nat
    ∧ btm_ble_dealloc_addr_filter_counter None BTM_BLE_PF_TYPE_ALL st
      = Fault (OutOfBounds 2).
Proof.
  destruct (scans_read_past_the_allocated_table idle_state)
    as (st & Hinit & Hlen & Hdealloc & _).
  - simpl. lia.
  - simpl. lia.
  - exists st. assert (Hmax : max_filter (cmn_ble_vsc_cb st) = 2%nat).
    { unfold btm_ble_adv_filter_init in Hinit. vm_compute in Hinit.
      injection Hinit as <-. reflexivity. }
    rewrite Hmax in Hlen, Hdealloc. split; [exact Hinit|].
    split; [exact Hlen|]. apply Hdealloc.
Defined.


Lemma identity_record_cleanup_witness :
  is_filtering_supported pending_state = true
  ∧ remove_me_later_map pending_state !! 5 = Some AA_BB_CC_DD_EE_FF
  ∧ ∃ st',
      BTM_LE_PF_clear 5 (CbClient 1) pending_state = Ok (tt, st')
      ∧ sec st' = sec pending_state.
Proof.
  split; [reflexivity|]. split; [reflexivity|].
  destruct (identity_record_cleanup 5 AA_BB_CC_DD_EE_FF (CbClient 1)
              pending_state free_slot 0) as [_ (st' & Hrun & Hsec)];
    try reflexivity.
  exists st'. split; [exact Hrun|exact Hsec].
Defined.



(** The add of C1 on the state that initialisation leaves: after the add
    is sent and acknowledged the generic entry has changed, its
    address-filter counter is 1, and the per-address entry is neither bound
    nor counted.  The acknowledged delete then runs the scan for a null
    address, which reads past the table. *)
Lemma addr_filter_add_uses_generic_entry :
  ∃ st0 st1,
    btm_ble_adv_filter_init idle_state = Ok (tt, ready_state)
    ∧ BTM_LE_PF_addr_filter BTM_BLE_SCAN_COND_ADD 5
        (mk_tBLE_BD_ADDR 0 AA_BB_CC_DD_EE_FF) CbDoNothing ready_state
      = Ok (tt, st0)
    ∧ btm_flt_update_cb BTM_BLE_META_PF_ADDR CbDoNothing
        (ack HCI_SUCCESS BTM_BLE_META_PF_ADDR BTM_BLE_SCAN_COND_ADD 1) 4 st0
      = Ok (tt, st1)
    ∧ table st1
      = [mk_tBTM_BLE_PF_COUNT false RawAddress_kEmpty
           [1; 0; 0; 0; 0; 0; 0; 0];
         free_slot]
    ∧ table st1 !! 0%nat ≠ table ready_state !! 0%nat
    ∧ btm_flt_update_cb BTM_BLE_META_PF_ADDR CbDoNothing
        (ack HCI_SUCCESS BTM_BLE_META_PF_ADDR BTM_BLE_SCAN_COND_DELETE 1) 4
        st1
      = Fault (OutOfBounds 2).
Proof.
  eexists _, _. split; [reflexivity|]. split; [lazy; reflexivity|].
  split; [lazy; reflexivity|]. split; [reflexivity|].
  split; [discriminate|reflexivity].
Qed.

(** The delete branch on a device that is not bonded and cannot be
    deleted: the mapping for the filter index is still there. *)
Lemma delete_keeps_mapping_of_connected_device :
  ∃ st',
    BTM_BleAdvFilterParamSetup BTM_BLE_SCAN_COND_DELETE 5 None (CbClient 1)
      pending_state = Ok (tt, st')
    ∧ btm_sec_is_a_bonded_dev AA_BB_CC_DD_EE_FF (sec pending_state) = false
    ∧ fst (BTM_SecDeleteDevice AA_BB_CC_DD_EE_FF (sec pending_state)) = false
    ∧ remove_me_later_map st' !! 5 = Some AA_BB_CC_DD_EE_FF.
Proof.
  eexists. split; [lazy; reflexivity|]. split; [reflexivity|].
  split; reflexivity.
Qed.


End Reference.

(** * The deallocation on memory that was not initialised *)

Section StaleHeap.

#[local] Existing Instances reference_header stale_heap_collaborators.
#[local] Existing Instance reference_header_ok.



End StaleHeap.

(** * Further properties of the router and of the slot table *)

Section RouterPaths.
Context `{Header} `{Collaborators}.

Lemma set_table_same (st : state) : set_table (table st) st = st.
Proof. by destruct st as [vsc [op tbl tgt] m db tr]. Qed.

(** X1. A four-byte reply with the expected subcode and a status other
    than [HCI_SUCCESS], for a subcode other than feature selection, updates
    no counter: the slot table is kept, the operation type is reset, and
    the continuation runs with the number of available entries, the echoed
    action and the mapped status. *)
Theorem flt_update_cb_failure_status (expected_ocf : Z) (id : nat)
    (status action num_avail : Z) (rest : list Z) (st : state) :
  expected_ocf ≠ BTM_BLE_META_PF_FEAT_SEL →
  status ≠ HCI_SUCCESS →
  btm_flt_update_cb expected_ocf (CbClient id)
    (status :: expected_ocf :: action :: num_avail :: rest) 4 st
  = Ok (tt, emit (EvRun id [num_avail; action;
                            if bool_decide (status = 0) then BTM_SUCCESS
                            else BTM_ERR_PROCESSING])
              (set_op_type 0 st)).
Proof.
  intros Hsel Hstatus. unfold btm_flt_update_cb.
  rewrite bool_decide_eq_false_2 by (intros Hne; by apply Hne).
  rewrite bool_decide_eq_false_2 by (intros Hne; by apply Hne).
  rewrite (bool_decide_eq_false_2 (expected_ocf = _)) by done.
  rewrite (bool_decide_eq_false_2 (HCI_SUCCESS = status)) by congruence.
  reflexivity.
Qed.

(** X2. A reply to a feature-selection command is only forwarded: whatever
    its status, the continuation runs with the number of available
    entries, the echoed action and the mapped status, and nothing else of
    the state changes (no counter, not even the operation type). *)
Theorem flt_update_cb_feat_sel (id : nat) (status action num_avail : Z)
    (rest : list Z) (st : state) :
  btm_flt_update_cb BTM_BLE_META_PF_FEAT_SEL (CbClient id)
    (status :: BTM_BLE_META_PF_FEAT_SEL :: action :: num_avail :: rest) 4 st
  = Ok (tt, emit (EvRun id [num_avail; action;
                            if bool_decide (status = 0) then BTM_SUCCESS
                            else BTM_ERR_PROCESSING]) st)
  ∧ table (emit (EvRun id [num_avail; action;
                           if bool_decide (status = 0) then BTM_SUCCESS
                           else BTM_ERR_PROCESSING]) st) = table st.
Proof.
  split; [|reflexivity]. unfold btm_flt_update_cb.
  rewrite bool_decide_eq_false_2 by (intros Hne; by apply Hne).
  rewrite bool_decide_eq_false_2 by (intros Hne; by apply Hne).
  by rewrite bool_decide_eq_true_2.
Qed.

(** X3. The completion handler of the enable command drops a reply whose
    length is not three or whose subcode is not the enable subcode, leaving
    the state as it is; a three-byte reply with the enable subcode runs the
    status callback with the echoed action and the mapped status. *)
Theorem enable_cmpl_cback_routes (id : nat) (p : list Z) (evt_len : Z)
    (st : state) :
  (evt_len ≠ 3
   ∨ (∃ status op_subcode action rest,
        p = status :: op_subcode :: action :: rest
        ∧ op_subcode ≠ BTM_BLE_META_PF_ENABLE) →
   enable_cmpl_cback (CbClient id) p evt_len st = Ok (tt, st))
  ∧ (∀ status action rest,
       p = status :: BTM_BLE_META_PF_ENABLE :: action :: rest →
       enable_cmpl_cback (CbClient id) p 3 st
       = Ok (tt, emit (EvRun id [action;
                                 if bool_decide (status = 0) then BTM_SUCCESS
                                 else BTM_ERR_PROCESSING]) st)).
Proof.
  split.
  - intros [Hlen | (status & op_subcode & action & rest & -> & Hne)];
      unfold enable_cmpl_cback.
    + by rewrite bool_decide_eq_true_2.
    + destruct (bool_decide (evt_len ≠ 3)); [done|].
      by rewrite bool_decide_eq_true_2.
  - intros status action rest ->. unfold enable_cmpl_cback.
    rewrite bool_decide_eq_false_2 by (intros Hne; by apply Hne).
    by rewrite bool_decide_eq_false_2 by (intros Hne; by apply Hne).
Qed.

End RouterPaths.

Section UnknownSubcode.
Context `{Header} `{Collaborators} `{!HeaderOk}.

(** X4. A four-byte reply that echoes the expected subcode, where that
    subcode is none of the subcodes the router knows, maps to the condition
    type [BTM_BLE_PF_TYPE_MAX], which the counter update rejects: even on
    success the slot table is kept, and the continuation still runs. *)
Theorem flt_update_cb_unknown_subcode (expected_ocf : Z) (id : nat)
    (status action num_avail : Z) (rest : list Z) (st : state) :
  expected_ocf ∉
    [BTM_BLE_META_PF_FEAT_SEL; BTM_BLE_META_PF_ADDR; BTM_BLE_META_PF_UUID;
     BTM_BLE_META_PF_SOL_UUID; BTM_BLE_META_PF_LOCAL_NAME;
     BTM_BLE_META_PF_MANU_DATA; BTM_BLE_META_PF_SRVC_DATA;
     BTM_BLE_META_PF_ALL] →
  btm_ble_ocf_to_condtype expected_ocf = BTM_BLE_PF_TYPE_MAX
  ∧ btm_flt_update_cb expected_ocf (CbClient id)
      (status :: expected_ocf :: action :: num_avail :: rest) 4 st
    = Ok (tt, emit (EvRun id [num_avail; action;
                              if bool_decide (status = 0) then BTM_SUCCESS
                              else BTM_ERR_PROCESSING])
                (set_op_type 0 st)).
Proof.
  intros Hunknown. rewrite !not_elem_of_cons in Hunknown.
  destruct Hunknown as (? & ? & ? & ? & ? & ? & ? & ? & _).
  assert (Hmax : btm_ble_ocf_to_condtype expected_ocf = BTM_BLE_PF_TYPE_MAX).
  { unfold btm_ble_ocf_to_condtype. by rewrite !bool_decide_eq_false_2. }
  split; [done|]. unfold btm_flt_update_cb.
  rewrite bool_decide_eq_false_2 by (intros Hne; by apply Hne).
  rewrite bool_decide_eq_false_2 by (intros Hne; by apply Hne).
  rewrite (bool_decide_eq_false_2 (expected_ocf = _)) by done.
  rewrite Hmax. pose proof pf_type_all_range as Hr.
  assert (Hrej : ∀ p,
            btm_ble_cs_update_pf_counter action BTM_BLE_PF_TYPE_MAX p
              num_avail st = Ok (BTM_BLE_INVALID_COUNTER, st)).
  { intros p. unfold btm_ble_cs_update_pf_counter.
    by rewrite bool_decide_eq_true_2 by lia. }
  unfold mbind, M_bind, bind, gets, modify, ret.
  case_bool_decide; [|done].
  destruct (IsEmpty (bda (target st))); by rewrite Hrej.
Qed.

End UnknownSubcode.

Section SlotScans.
Context `{Header} `{Collaborators}.

Lemma find_scan_None_inv (n : nat) :
  ∀ (tbl : list tBTM_BLE_PF_COUNT) (a : RawAddress) (idx : nat),
    find_scan tbl a n idx = Ok None →
    ∀ j, (idx ≤ j < idx + n)%nat →
         ∃ s, tbl !! j = Some s
              ∧ in_use s && bool_decide (a = bd_addr s) = false.
Proof.
  induction n as [|n IH]; intros tbl a idx Hfind j Hj; [lia|].
  simpl in Hfind. destruct (tbl !! idx) as [s|] eqn:Hs; [|done].
  destruct (in_use s && bool_decide (a = bd_addr s)) eqn:Hm; [done|].
  destruct (decide (j = idx)) as [->|Hne]; [eauto|].
  apply (IH _ _ _ Hfind). lia.
Qed.

Lemma find_scan_Some_inv (n : nat) :
  ∀ (tbl : list tBTM_BLE_PF_COUNT) (a : RawAddress) (idx i : nat),
    find_scan tbl a n idx = Ok (Some i) →
    (idx ≤ i < idx + n)%nat
    ∧ (∃ s, tbl !! i = Some s ∧ in_use s = true ∧ bd_addr s = a)
    ∧ ∀ j, (idx ≤ j < i)%nat →
           ∃ s, tbl !! j = Some s
                ∧ in_use s && bool_decide (a = bd_addr s) = false.
Proof.
  induction n as [|n IH]; intros tbl a idx i Hfind; [done|].
  simpl in Hfind. destruct (tbl !! idx) as [s|] eqn:Hs; [|done].
  destruct (in_use s && bool_decide (a = bd_addr s)) eqn:Hm.
  - injection Hfind as <-. apply andb_true_iff in Hm as [Huse Ha].
    apply bool_decide_eq_true_1 in Ha.
    split; [lia|]. split; [eauto|]. intros j Hj. lia.
  - destruct (IH _ _ _ _ Hfind) as (Hi & Hentry & Hbefore).
    split; [lia|]. split; [done|]. intros j Hj.
    destruct (decide (j = idx)) as [->|Hne]; [eauto|].
    apply Hbefore. lia.
Qed.

Lemma find_scan_first_match (n : nat) :
  ∀ (tbl : list tBTM_BLE_PF_COUNT) (a : RawAddress) (idx i : nat) s,
    (idx ≤ i < idx + n)%nat →
    tbl !! i = Some s → in_use s = true → bd_addr s = a →
    (∀ j, (idx ≤ j < i)%nat →
          ∃ sj, tbl !! j = Some sj
                ∧ in_use sj && bool_decide (a = bd_addr sj) = false) →
    find_scan tbl a n idx = Ok (Some i).
Proof.
  induction n as [|n IH]; intros tbl a idx i s Hi Hs Huse Ha Hbefore; [lia|].
  simpl. destruct (decide (i = idx)) as [->|Hne].
  - rewrite Hs, Huse. simpl. by rewrite bool_decide_eq_true_2.
  - destruct (Hbefore idx) as (sj & -> & ->); [lia|].
    eapply IH; eauto. { lia. } intros j Hj. apply Hbefore. lia.
Qed.

Lemma alloc_scan_Some_inv (n : nat) :
  ∀ (tbl tbl' : list tBTM_BLE_PF_COUNT) (a : RawAddress) (idx i : nat),
    alloc_scan tbl a n idx = Ok (Some i, tbl') →
    (idx ≤ i < idx + n)%nat
    ∧ ∃ s, tbl !! i = Some s ∧ IsEmpty (bd_addr s) = true
           ∧ tbl' = <[i := mk_tBTM_BLE_PF_COUNT true a (pf_counter s)]> tbl.
Proof.
  induction n as [|n IH]; intros tbl tbl' a idx i Halloc; [done|].
  simpl in Halloc. destruct (tbl !! idx) as [s|] eqn:Hs; [|done].
  destruct (IsEmpty (bd_addr s)) eqn:He.
  - injection Halloc as <- <-. split; [lia|]. eauto.
  - destruct (IH _ _ _ _ _ Halloc) as (Hi & Hentry). split; [lia|done].
Qed.

Lemma alloc_scan_full (n : nat) :
  ∀ (tbl : list tBTM_BLE_PF_COUNT) (a : RawAddress) (idx : nat),
    (∀ j, (idx ≤ j < idx + n)%nat →
          ∃ s, tbl !! j = Some s ∧ IsEmpty (bd_addr s) = false) →
    alloc_scan tbl a n idx = Ok (None, tbl).
Proof.
  induction n as [|n IH]; intros tbl a idx Hfull; [done|].
  simpl. destruct (Hfull idx) as (s & -> & ->); [lia|].
  apply IH. intros j Hj. apply Hfull. lia.
Qed.

(** Deallocation by address follows the lookup: it zeroes the entry the
    lookup finds, and changes nothing when the lookup finds none. *)
Lemma dealloc_scan_follows_find (n : nat) :
  ∀ (tbl : list tBTM_BLE_PF_COUNT) (b : tBLE_BD_ADDR) (idx : nat)
    (found : bool),
    match find_scan tbl (bda b) n idx with
    | Ok (Some i) =>
        dealloc_scan tbl (Some b) n idx found
        = Ok (true, <[i := tBTM_BLE_PF_COUNT_zero]> tbl)
    | Ok None => dealloc_scan tbl (Some b) n idx found = Ok (found, tbl)
    | Fault f => dealloc_scan tbl (Some b) n idx found = Fault f
    end.
Proof.
  induction n as [|n IH]; intros tbl b idx found; [done|].
  simpl. destruct (tbl !! idx) as [s|]; [|done].
  destruct (in_use s && bool_decide (bda b = bd_addr s)); [done|].
  apply IH.
Qed.

(** What a deallocation scan leaves in use was in use, unchanged, before. *)
Lemma dealloc_scan_in_use (n : nat) :
  ∀ (tbl tbl' : list tBTM_BLE_PF_COUNT) (p : option tBLE_BD_ADDR)
    (idx : nat) (found found' : bool),
    dealloc_scan tbl p n idx found = Ok (found', tbl') →
    ∀ j s', tbl' !! j = Some s' → in_use s' = true → tbl !! j = Some s'.
Proof.
  induction n as [|n IH]; intros tbl tbl' p idx found found' Hscan j s' Hj Hu.
  { simpl in Hscan. by simplify_eq. }
  simpl in Hscan. destruct (tbl !! idx) as [s|] eqn:Hs; [|done].
  assert (Hzero : ∀ t : list tBTM_BLE_PF_COUNT,
            <[idx := tBTM_BLE_PF_COUNT_zero]> t !! j = Some s' →
            t !! j = Some s').
  { intros t Ht. destruct (decide (j = idx)) as [->|Hne].
    - destruct (decide (idx < length t)%nat).
      + rewrite list_lookup_insert_eq in Ht by done. by simplify_eq.
      + by rewrite list_insert_ge in Ht by lia.
    - by rewrite list_lookup_insert_ne in Ht by done. }
  destruct (in_use s && _).
  - destruct p as [b|].
    + simplify_eq. by apply Hzero.
    + apply Hzero. eapply IH; eauto.
  - eapply IH; eauto.
Qed.

End SlotScans.

Section SlotTableOperations.
Context `{Header} `{Collaborators}.

Lemma find_pure (p : option tBLE_BD_ADDR) (st st1 : state) r :
  btm_ble_find_addr_filter_counter p st = Ok (r, st1) → st1 = st.
Proof.
  unfold btm_ble_find_addr_filter_counter.
  repeat case_match; intros; by simplify_eq.
Qed.

Lemma alloc_scan_None_inv (n : nat) :
  ∀ (tbl tbl' : list tBTM_BLE_PF_COUNT) (a : RawAddress) (idx : nat),
    alloc_scan tbl a n idx = Ok (None, tbl') → tbl' = tbl.
Proof.
  induction n as [|n IH]; intros tbl tbl' a idx Halloc; simpl in Halloc.
  - by simplify_eq.
  - repeat case_match; simplify_eq. eauto.
Qed.

(** The entries that an allocation passes before it binds one hold an
    address. *)
Lemma alloc_scan_Some_before (n : nat) :
  ∀ (tbl tbl' : list tBTM_BLE_PF_COUNT) (a : RawAddress) (idx i : nat),
    alloc_scan tbl a n idx = Ok (Some i, tbl') →
    ∀ j, (idx ≤ j < i)%nat →
         ∃ s, tbl !! j = Some s ∧ IsEmpty (bd_addr s) = false.
Proof.
  induction n as [|n IH]; intros tbl tbl' a idx i Halloc j Hj; [done|].
  simpl in Halloc. destruct (tbl !! idx) as [s|] eqn:Hs; [|done].
  destruct (IsEmpty (bd_addr s)) eqn:He.
  - injection Halloc as <- _. lia.
  - destruct (decide (j = idx)) as [->|Hne]; [eauto|].
    apply (IH _ _ _ _ _ Halloc). lia.
Qed.

(** A lookup that runs to the end of the table without a match reads the
    entry past the end. *)
Lemma find_scan_no_match_past_end (n : nat) :
  ∀ (tbl : list tBTM_BLE_PF_COUNT) (a : RawAddress) (idx : nat),
    (idx + n = length tbl)%nat →
    (∀ j s, (idx ≤ j)%nat → tbl !! j = Some s →
            in_use s && bool_decide (a = bd_addr s) = false) →
    find_scan tbl a (S n) idx = Fault (OutOfBounds (length tbl)).
Proof.
  induction n as [|n IH]; intros tbl a idx Hlen Hnone.
  - simpl. rewrite lookup_ge_None_2 by lia. do 2 f_equal. lia.
  - change (find_scan tbl a (S (S n)) idx) with
      (match tbl !! idx with
       | None => Fault (OutOfBounds idx)
       | Some s =>
           if in_use s && bool_decide (a = bd_addr s) then Ok (Some idx)
           else find_scan tbl a (S n) (S idx)
       end).
    destruct (lookup_lt_is_Some_2 tbl idx) as [s Hs]; [lia|].
    rewrite Hs, (Hnone idx s) by (done || lia).
    apply IH; [lia|]. intros j s' Hj. apply Hnone. lia.
Qed.

(** X5. An allocation that returns an entry has bound the first entry
    among 1, ..., [max_filter] whose address is empty: the entry gets the
    address and the in-use flag, its counters are kept as they were, and
    no other entry changes.  When no entry in use before it holds the
    address, the lookup of the address then returns that entry. *)
Theorem alloc_then_find (b : tBLE_BD_ADDR) (i : nat) (st st' : state) :
  btm_ble_alloc_addr_filter_counter (bda b) st = Ok (Some i, st') →
  (∀ j s, (1 ≤ j < i)%nat → table st !! j = Some s → in_use s = true →
          bd_addr s ≠ bda b) →
  (1 ≤ i ≤ max_filter (cmn_ble_vsc_cb st))%nat
  ∧ (∃ s, table st !! i = Some s
          ∧ IsEmpty (bd_addr s) = true
          ∧ st' = set_table
                    (<[i := mk_tBTM_BLE_PF_COUNT true (bda b) (pf_counter s)]>
                       (table st)) st)
  ∧ (∀ j, (1 ≤ j < i)%nat →
          ∃ s, table st !! j = Some s ∧ IsEmpty (bd_addr s) = false)
  ∧ btm_ble_find_addr_filter_counter (Some b) st' = Ok (Some i, st').
Proof.
  intros Halloc Hother.
  unfold btm_ble_alloc_addr_filter_counter in Halloc.
  destruct (alloc_scan (table st) (bda b) (max_filter (cmn_ble_vsc_cb st)) 1)
    as [[r tbl']|f] eqn:Hascan; [|done].
  injection Halloc as -> <-.
  pose proof (alloc_scan_Some_before _ _ _ _ _ _ Hascan) as Hbefore.
  apply alloc_scan_Some_inv in Hascan as (Hi & s & Hs & Hempty & ->).
  split; [lia|]. split; [eauto|]. split; [done|].
  unfold btm_ble_find_addr_filter_counter.
  rewrite table_set_table, vsc_set_table.
  erewrite find_scan_first_match; [done|exact Hi| | | |].
  - apply list_lookup_insert_eq. by eapply lookup_lt_Some.
  - done.
  - done.
  - intros j Hj. rewrite list_lookup_insert_ne by lia.
    destruct (Hbefore j Hj) as (sj & Hsj & _). exists sj. split; [done|].
    destruct (in_use sj) eqn:Huse; [|done]. simpl.
    apply bool_decide_eq_false_2. intros Heq.
    by apply (Hother j sj Hj Hsj Huse).
Qed.

(** X6. On a table of [max_filter] entries, as initialisation allocates
    it, an address that no entry in use holds is never accounted: the
    lookup runs to entry [max_filter], past the end of the table, and so
    does the counter update of a condition type accounted per address,
    whatever the action.  The allocation is not reached, and the
    invalid-counter sentinel is not returned. *)
Theorem update_pf_counter_unknown_address_overruns
    (action cond_type num_available : Z) (b : tBLE_BD_ADDR) (st : state) :
  length (table st) = max_filter (cmn_ble_vsc_cb st) →
  (1 ≤ max_filter (cmn_ble_vsc_cb st))%nat →
  cond_type ≤ BTM_BLE_PF_TYPE_ALL →
  cond_type ∉ [BTM_BLE_PF_ADDR_FILTER; BTM_BLE_PF_MANU_DATA;
               BTM_BLE_PF_LOCAL_NAME; BTM_BLE_PF_SRVC_DATA_PATTERN] →
  (∀ j s, (1 ≤ j)%nat → table st !! j = Some s →
          in_use s && bool_decide (bda b = bd_addr s) = false) →
  btm_ble_find_addr_filter_counter (Some b) st
  = Fault (OutOfBounds (max_filter (cmn_ble_vsc_cb st)))
  ∧ btm_ble_cs_update_pf_counter action cond_type (Some b) num_available st
    = Fault (OutOfBounds (max_filter (cmn_ble_vsc_cb st))).
Proof.
  intros Hlen Hmax Hrange Hper Hnone. rewrite !not_elem_of_cons in Hper.
  destruct Hper as (? & ? & ? & ? & _).
  assert (Hfind : btm_ble_find_addr_filter_counter (Some b) st
                  = Fault (OutOfBounds (max_filter (cmn_ble_vsc_cb st)))).
  { unfold btm_ble_find_addr_filter_counter.
    destruct (max_filter (cmn_ble_vsc_cb st)) as [|n] eqn:Hm; [lia|].
    rewrite find_scan_no_match_past_end by (done || lia).
    by rewrite Hlen. }
  split; [done|]. unfold btm_ble_cs_update_pf_counter.
  rewrite bool_decide_eq_false_2 by lia.
  rewrite (bool_decide_eq_false_2 (BTM_BLE_PF_ADDR_FILTER = _)),
    (bool_decide_eq_false_2 (BTM_BLE_PF_MANU_DATA = _)),
    (bool_decide_eq_false_2 (BTM_BLE_PF_LOCAL_NAME = _)),
    (bool_decide_eq_false_2 (BTM_BLE_PF_SRVC_DATA_PATTERN = _))
    by congruence.
  simpl. unfold mbind, M_bind, bind. by rewrite Hfind.
Qed.

(** X7. Deallocation for a given address zeroes the entry that the lookup
    of the address returns, no other, and reports success; when the lookup
    finds none it reports failure and changes nothing.  The generic entry
    is not touched, whatever the filter type. *)
Theorem dealloc_by_address (b : tBLE_BD_ADDR) (filter_type : Z)
    (st : state) :
  (∀ i, btm_ble_find_addr_filter_counter (Some b) st = Ok (Some i, st) →
        btm_ble_dealloc_addr_filter_counter (Some b) filter_type st
        = Ok (true,
              set_table (<[i := tBTM_BLE_PF_COUNT_zero]> (table st)) st)
        ∧ (1 ≤ i)%nat)
  ∧ (btm_ble_find_addr_filter_counter (Some b) st = Ok (None, st) →
     btm_ble_dealloc_addr_filter_counter (Some b) filter_type st
     = Ok (false, st)).
Proof.
  pose proof (dealloc_scan_follows_find (max_filter (cmn_ble_vsc_cb st))
                (table st) b 1 false) as Hscan.
  unfold btm_ble_find_addr_filter_counter,
    btm_ble_dealloc_addr_filter_counter.
  rewrite (bool_decide_eq_false_2 (Some b = None)), andb_false_r by done.
  destruct (find_scan (table st) (bda b) (max_filter (cmn_ble_vsc_cb st)) 1)
    as [[j|]|f] eqn:Hfind; rewrite Hscan; split; try done.
  - intros i [= <-]. split; [done|].
    apply find_scan_Some_inv in Hfind. lia.
  - intros _. by rewrite set_table_same.
Qed.

End SlotTableOperations.

Section OneSlotPerAddress.
Context `{Header} `{Collaborators}.

Lemma one_slot_shrinks (max : nat) (tbl tbl' : list tBTM_BLE_PF_COUNT) :
  one_slot_per_address max tbl →
  (∀ j s', tbl' !! j = Some s' → in_use s' = true →
           ∃ s, tbl !! j = Some s ∧ in_use s = true
                ∧ bd_addr s = bd_addr s') →
  one_slot_per_address max tbl'.
Proof.
  intros Hinv Hsub i j si sj Hi Hj Hsi Hsj Hui Huj Heq.
  destruct (Hsub i si Hsi Hui) as (ti & Hti & Htu & Hta).
  destruct (Hsub j sj Hsj Huj) as (tj & Htj & Htju & Htja).
  eapply (Hinv i j ti tj); eauto. congruence.
Qed.

Lemma dealloc_keeps_one_slot (p : option tBLE_BD_ADDR) (filter_type : Z)
    (st st' : state) r :
  one_slot_per_address (max_filter (cmn_ble_vsc_cb st)) (table st) →
  btm_ble_dealloc_addr_filter_counter p filter_type st = Ok (r, st') →
  one_slot_per_address (max_filter (cmn_ble_vsc_cb st')) (table st').
Proof.
  intros Hinv. unfold btm_ble_dealloc_addr_filter_counter.
  destruct (_ && _).
  - destruct (table st) as [|s0 rest] eqn:Htbl; [done|].
    destruct (dealloc_scan _ _ _ _ _) as [[found tbl']|f] eqn:Hscan; [|done].
    intros [= <- <-]. rewrite table_set_table, vsc_set_table.
    eapply one_slot_shrinks; [exact Hinv|]. intros j s' Hj Hu.
    pose proof (dealloc_scan_in_use _ _ _ _ _ _ _ Hscan j s' Hj Hu) as Hold.
    destruct j as [|j]; [simpl in Hold; by simplify_eq|]. eauto.
  - destruct (dealloc_scan _ _ _ _ _) as [[found tbl']|f] eqn:Hscan; [|done].
    intros [= <- <-]. rewrite table_set_table, vsc_set_table.
    eapply one_slot_shrinks; [exact Hinv|]. intros j s' Hj Hu.
    pose proof (dealloc_scan_in_use _ _ _ _ _ _ _ Hscan j s' Hj Hu). eauto.
Qed.

Lemma bump_keeps_one_slot (i : nat) (cond_type num_available : Z)
    (st st' : state) r :
  one_slot_per_address (max_filter (cmn_ble_vsc_cb st)) (table st) →
  bump_counter i cond_type num_available st = Ok (r, st') →
  one_slot_per_address (max_filter (cmn_ble_vsc_cb st')) (table st').
Proof.
  intros Hinv. unfold bump_counter.
  destruct (table st !! i) as [s|] eqn:Hs; [|done].
  destruct (pf_counter s !! _) as [c|]; [|done].
  intros [= <- <-]. rewrite table_set_table, vsc_set_table.
  eapply one_slot_shrinks; [exact Hinv|]. intros j s' Hj Hu.
  destruct (decide (j = i)) as [->|Hne].
  - rewrite list_lookup_insert_eq in Hj by (by eapply lookup_lt_Some).
    simplify_eq. simpl in *. eauto.
  - rewrite list_lookup_insert_ne in Hj by done. eauto.
Qed.

Lemma alloc_keeps_one_slot (b : tBLE_BD_ADDR) (st st' : state) r :
  one_slot_per_address (max_filter (cmn_ble_vsc_cb st)) (table st) →
  btm_ble_find_addr_filter_counter (Some b) st = Ok (None, st) →
  btm_ble_alloc_addr_filter_counter (bda b) st = Ok (r, st') →
  one_slot_per_address (max_filter (cmn_ble_vsc_cb st')) (table st').
Proof.
  intros Hinv Hfind Halloc.
  unfold btm_ble_find_addr_filter_counter in Hfind.
  destruct (find_scan (table st) (bda b) (max_filter (cmn_ble_vsc_cb st)) 1)
    as [[j|]|f] eqn:Hscan; try done. clear Hfind.
  unfold btm_ble_alloc_addr_filter_counter in Halloc.
  destruct (alloc_scan (table st) (bda b) (max_filter (cmn_ble_vsc_cb st)) 1)
    as [[[k|] tbl']|f] eqn:Hascan; [| |done]; injection Halloc as <- <-;
    rewrite table_set_table, vsc_set_table.
  2: { by rewrite (alloc_scan_None_inv _ _ _ _ _ Hascan). }
  apply alloc_scan_Some_inv in Hascan as (Hk & s & Hs & _ & ->).
  assert (Hfresh : ∀ j sj, (1 ≤ j ≤ max_filter (cmn_ble_vsc_cb st))%nat →
            table st !! j = Some sj → in_use sj = true →
            bd_addr sj ≠ bda b).
  { intros j sj Hj Hsj Hu Heq.
    destruct (find_scan_None_inv _ _ _ _ Hscan j) as (s' & Hs' & Hm); [lia|].
    simplify_eq. rewrite Hu in Hm. simpl in Hm.
    by apply bool_decide_eq_false_1 in Hm. }
  assert (Hlt : (k < length (table st))%nat) by (by eapply lookup_lt_Some).
  intros i j si sj Hi Hj Hsi Hsj Hui Huj Heq.
  destruct (decide (i = k)) as [->|Hik], (decide (j = k)) as [->|Hjk];
    [done| | |].
  - rewrite list_lookup_insert_eq in Hsi by done.
    rewrite list_lookup_insert_ne in Hsj by done. simplify_eq. simpl in Heq.
    by destruct (Hfresh j sj Hj Hsj Huj).
  - rewrite list_lookup_insert_ne in Hsi by done.
    rewrite list_lookup_insert_eq in Hsj by done. simplify_eq. simpl in Heq.
    by destruct (Hfresh i si Hi Hsi Hui).
  - rewrite list_lookup_insert_ne in Hsi, Hsj by done.
    eapply (Hinv i j si sj); eauto.
Qed.


End OneSlotPerAddress.

Section GenericEntry.
Context `{Header} `{Collaborators} `{!HeaderOk}.

Lemma with_counter_same (s : tBTM_BLE_PF_COUNT) (cond_type c : Z) :
  pf_counter s !! Z.to_nat cond_type = Some c →
  with_counter s cond_type c = s.
Proof.
  intros Hc. destruct s as [u a pf]. unfold with_counter. simpl in *.
  by rewrite list_insert_id.
Qed.

Lemma pf_type_facts (cond_type : Z) :
  cond_type ∈ [BTM_BLE_PF_SRVC_DATA; BTM_BLE_PF_SRVC_UUID;
               BTM_BLE_PF_SRVC_SOL_UUID; BTM_BLE_PF_LOCAL_NAME;
               BTM_BLE_PF_MANU_DATA; BTM_BLE_PF_SRVC_DATA_PATTERN] →
  0 ≤ cond_type < BTM_BLE_PF_TYPE_ALL
  ∧ BTM_BLE_PF_ADDR_FILTER ≠ cond_type.
Proof.
  intros Hin. pose proof pf_types_range as Hr. pose proof pf_labels as Hl.
  rewrite Forall_forall in Hr. split.
  - apply Hr. by apply list_elem_of_further.
  - apply NoDup_cons in Hl as [Hnotin _]. intros Heq. apply Hnotin.
    by rewrite Heq.
Qed.

(** The update of a counter of the generic entry. *)
Lemma update_pf_counter_generic_entry (action cond_type num_available : Z)
    (st : state) (s0 : tBTM_BLE_PF_COUNT) (c : Z) :
  0 ≤ cond_type < BTM_BLE_PF_TYPE_ALL →
  BTM_BLE_PF_ADDR_FILTER ≠ cond_type →
  table st !! 0%nat = Some s0 →
  pf_counter s0 !! Z.to_nat cond_type = Some c →
  let c' := if bool_decide (num_available > 0) then u8 (c + 1) else c in
  (btm_ble_find_addr_filter_counter None ≫= λ found,
   (match found with
    | None =>
        if bool_decide (BTM_BLE_SCAN_COND_ADD = action)
        then raise NullDeref
        else ret None
    | Some i => ret (Some i)
    end) ≫= λ p_addr_filter,
   match p_addr_filter with
   | Some i =>
       if (bool_decide (BTM_BLE_PF_TYPE_ALL = cond_type)
           && bool_decide (BTM_BLE_SCAN_COND_CLEAR = action))
          || (bool_decide (BTM_BLE_PF_ADDR_FILTER = cond_type)
              && (bool_decide (BTM_BLE_SCAN_COND_DELETE = action)
                  || bool_decide (BTM_BLE_SCAN_COND_CLEAR = action)))
       then
         btm_ble_dealloc_addr_filter_counter None cond_type ;;
         ret BTM_BLE_INVALID_COUNTER
       else if bool_decide (cond_type ≠ BTM_BLE_PF_TYPE_ALL)
       then bump_counter i cond_type num_available
       else ret BTM_BLE_INVALID_COUNTER
   | None => ret BTM_BLE_INVALID_COUNTER
   end) st
  = Ok (c', set_table (<[0%nat := with_counter s0 cond_type c']> (table st))
              st).
Proof.
  intros Hr Hna Hs0 Hc c'. monad_simpl.
  rewrite (bool_decide_eq_false_2 (BTM_BLE_PF_TYPE_ALL = _)) by lia.
  rewrite (bool_decide_eq_false_2 (BTM_BLE_PF_ADDR_FILTER = _)) by done.
  simpl. rewrite bool_decide_eq_true_2 by lia.
  unfold bump_counter. by rewrite Hs0, Hc.
Qed.

(** X9. The local-name, manufacturer-data and service-data-pattern
    conditions are accounted in the generic entry whatever address is
    passed, and for every action, delete and clear included: the update
    adds one (modulo 256) to the entry's counter of that type when the
    controller reports an available entry, keeps it otherwise, and returns
    the counter. *)
Theorem update_pf_counter_generic_types (action cond_type num_available : Z)
    (p_bd_addr : option tBLE_BD_ADDR) (st : state)
    (s0 : tBTM_BLE_PF_COUNT) (c : Z) :
  cond_type ∈ [BTM_BLE_PF_LOCAL_NAME; BTM_BLE_PF_MANU_DATA;
               BTM_BLE_PF_SRVC_DATA_PATTERN] →
  table st !! 0%nat = Some s0 →
  pf_counter s0 !! Z.to_nat cond_type = Some c →
  let c' := if bool_decide (num_available > 0) then u8 (c + 1) else c in
  btm_ble_cs_update_pf_counter action cond_type p_bd_addr num_available st
  = Ok (c', set_table (<[0%nat := with_counter s0 cond_type c']> (table st))
              st).
Proof.
  intros Hty Hs0 Hc c'.
  destruct (pf_type_facts cond_type) as [Hr Hna].
  { rewrite !elem_of_cons in Hty. rewrite !elem_of_cons. tauto. }
  unfold btm_ble_cs_update_pf_counter.
  rewrite bool_decide_eq_false_2 by lia.
  assert (Hgeneric :
    bool_decide (BTM_BLE_PF_ADDR_FILTER = cond_type)
    || bool_decide (BTM_BLE_PF_MANU_DATA = cond_type)
    || bool_decide (BTM_BLE_PF_LOCAL_NAME = cond_type)
    || bool_decide (BTM_BLE_PF_SRVC_DATA_PATTERN = cond_type) = true).
  { rewrite !elem_of_cons in Hty.
    destruct Hty as [Heq|[Heq|[Heq|Hnil]]];
      [..|by apply elem_of_nil in Hnil].
    - rewrite (bool_decide_eq_true_2 (BTM_BLE_PF_LOCAL_NAME = _)) by done.
      by rewrite ?orb_true_r.
    - rewrite (bool_decide_eq_true_2 (BTM_BLE_PF_MANU_DATA = _)) by done.
      by rewrite ?orb_true_r.
    - rewrite (bool_decide_eq_true_2 (BTM_BLE_PF_SRVC_DATA_PATTERN = _))
        by done.
      by rewrite ?orb_true_r. }
  rewrite Hgeneric. by apply update_pf_counter_generic_entry.
Qed.

(** X10. The service-data entry point passes no address and an
    availability of 0 for an add, of 1 otherwise: an add leaves the state
    as it is, while a delete or a clear adds one (modulo 256) to the
    service-data counter of the generic entry. *)
Theorem srvc_data_counts_removals (action filt_index : Z) (st : state)
    (s0 : tBTM_BLE_PF_COUNT) (c : Z) :
  table st !! 0%nat = Some s0 →
  pf_counter s0 !! Z.to_nat BTM_BLE_PF_SRVC_DATA = Some c →
  BTM_LE_PF_srvc_data action filt_index st
  = Ok (tt,
        if bool_decide (action = BTM_BLE_SCAN_COND_ADD) then st
        else set_table
               (<[0%nat := with_counter s0 BTM_BLE_PF_SRVC_DATA (u8 (c + 1))]>
                  (table st)) st).
Proof.
  intros Hs0 Hc.
  destruct (pf_type_facts BTM_BLE_PF_SRVC_DATA) as [Hr Hna].
  { apply list_elem_of_here. }
  unfold BTM_LE_PF_srvc_data, btm_ble_cs_update_pf_counter.
  rewrite (bool_decide_eq_false_2 (_ > _)) by lia.
  assert (Hnone : ∀ b : bool, (if b then None else None)
                              = (None : option tBLE_BD_ADDR))
    by (by intros []).
  rewrite Hnone. unfold mbind at 1, M_bind at 1, bind at 1.
  rewrite (update_pf_counter_generic_entry action BTM_BLE_PF_SRVC_DATA _
             st s0 c Hr Hna Hs0 Hc).
  destruct (bool_decide (action = BTM_BLE_SCAN_COND_ADD)); simpl;
    unfold ret; [|done].
  by rewrite with_counter_same, list_insert_id, set_table_same.
Qed.

End GenericEntry.

(** * Further properties of the encoders *)

Section Payloads.
Context `{Header} `{Collaborators}.

Arguments u8 : simpl never.

Lemma u8_small (x : Z) : 0 ≤ x < 256 → u8 x = x.
Proof. intros Hx. unfold u8. by apply Z.mod_small. Qed.

Lemma take_min_length (l : list Z) (m : Z) :
  0 ≤ m →
  take (Z.to_nat (Z.min (Z.of_nat (length l)) m)) l = take (Z.to_nat m) l.
Proof.
  intros Hm. destruct (Z.min_spec (Z.of_nat (length l)) m) as [[Hlt ->]|[Hle ->]];
    [|done].
  rewrite Nat2Z.id. rewrite firstn_all. symmetry. apply take_ge. lia.
Qed.

Lemma ARRAY_TO_STREAM_ok (p v : list Z) (n : Z) (st : state) :
  n ≤ Z.of_nat (length v) →
  ARRAY_TO_STREAM p v n st = Ok (p ++ take (Z.to_nat n) v, st).
Proof. intros Hn. unfold ARRAY_TO_STREAM. by rewrite bool_decide_eq_true_2. Qed.

Lemma ARRAY_TO_STREAM_past_end (p v : list Z) (n : Z) (st : state) :
  Z.of_nat (length v) < n →
  ARRAY_TO_STREAM p v n st = Fault (OutOfBounds (length v)).
Proof.
  intros Hn. unfold ARRAY_TO_STREAM. by rewrite bool_decide_eq_false_2 by lia.
Qed.

(** What is sent when the length handed to the transport is the number of
    bytes written. *)
Lemma sent_exact (len_max len : Z) (p : list Z) :
  Z.of_nat (length p) = len →
  take (Z.to_nat len) (param_of len_max p) = p.
Proof.
  intros <-. unfold param_of. rewrite Nat2Z.id. by rewrite take_app_length.
Qed.

Lemma send_exact (opcode len_max len : Z) (p : list Z) (k : continuation)
    (st : state) :
  Z.of_nat (length p) = len →
  btu_hcif_send_cmd_with_cb opcode (param_of len_max p) len k st
  = Ok (tt, emit (EvSend opcode p k) st).
Proof.
  intros Hlen. unfold btu_hcif_send_cmd_with_cb, modify.
  by rewrite sent_exact.
Qed.

(** X11. For an add or a delete the local-name encoder sends the three
    header bytes followed by the name cut to its first
    [BTM_BLE_PF_STR_LEN_MAX] bytes: a longer name is truncated, not
    refused. *)
Theorem local_name_payload (action filt_index : Z) (name : list Z)
    (cb : callback) (st : state) :
  action ≠ BTM_BLE_SCAN_COND_CLEAR →
  0 ≤ BTM_BLE_PF_STR_LEN_MAX ≤ 252 →
  BTM_LE_PF_local_name action filt_index name cb st
  = Ok (tt, set_target tBLE_BD_ADDR_zero
              (emit (EvSend HCI_BLE_ADV_FILTER
                       (header_bytes BTM_BLE_META_PF_LOCAL_NAME action
                          filt_index
                        ++ take (Z.to_nat BTM_BLE_PF_STR_LEN_MAX) name)
                       (Bind_btm_flt_update_cb BTM_BLE_META_PF_LOCAL_NAME cb))
                 st)).
Proof.
  intros Hact Hmax. unfold BTM_LE_PF_local_name.
  rewrite bool_decide_eq_true_2 by done.
  set (size := Z.min (Z.of_nat (length name)) BTM_BLE_PF_STR_LEN_MAX).
  assert (Hsize : 0 ≤ size ≤ Z.of_nat (length name) ∧ size ≤ 252)
    by (unfold size; lia).
  unfold mbind, M_bind, bind.
  rewrite ARRAY_TO_STREAM_ok by lia. unfold ret.
  rewrite send_exact.
  - unfold size. rewrite take_min_length by lia. reflexivity.
  - rewrite u8_small by (unfold BTM_BLE_ADV_FILT_META_HDR_LENGTH; lia).
    rewrite length_app, length_take. simpl.
    unfold BTM_BLE_ADV_FILT_META_HDR_LENGTH. lia.
Qed.

(** X12. For an add or a delete the manufacturer-data encoder sends the
    header, the company identifier and the company-identifier mask, where a
    mask of zero is replaced by 0xFFFF.  The data and the data mask are sent
    only when both are given: the data cut to
    [BTM_BLE_PF_STR_LEN_MAX - 2] bytes goes between the identifier and its
    mask, and as many bytes of the data mask go last.  With an empty data
    or an empty data mask neither is sent, and the payload has seven
    bytes. *)
Theorem manu_data_payload (action filt_index company_id company_id_mask : Z)
    (data data_mask : list Z) (cb : callback) (st : state) :
  action ≠ BTM_BLE_SCAN_COND_CLEAR →
  3 ≤ BTM_BLE_PF_STR_LEN_MAX ≤ 125 →
  let size := Z.to_nat (Z.min (Z.of_nat (length data))
                              (BTM_BLE_PF_STR_LEN_MAX - 2)) in
  let id_mask := if bool_decide (company_id_mask ≠ 0) then company_id_mask
                 else 65535 in
  let sent payload :=
    Ok (tt, set_target tBLE_BD_ADDR_zero
              (emit (EvSend HCI_BLE_ADV_FILTER payload
                       (Bind_btm_flt_update_cb BTM_BLE_META_PF_MANU_DATA cb))
                 st)) in
  (data = [] ∨ data_mask = [] →
   BTM_LE_PF_manu_data action filt_index company_id company_id_mask data
     data_mask cb st
   = sent (header_bytes BTM_BLE_META_PF_MANU_DATA action filt_index
           ++ le16 company_id ++ le16 id_mask))
  ∧ (data ≠ [] → data_mask ≠ [] → (size ≤ length data_mask)%nat →
     BTM_LE_PF_manu_data action filt_index company_id company_id_mask data
       data_mask cb st
     = sent (header_bytes BTM_BLE_META_PF_MANU_DATA action filt_index
             ++ le16 company_id ++ take size data
             ++ le16 id_mask ++ take size data_mask)).
Proof.
  intros Hact Hmax size id_mask sent.
  set (zsize := Z.min (Z.of_nat (length data)) (BTM_BLE_PF_STR_LEN_MAX - 2)).
  assert (Hz : 0 ≤ zsize ≤ Z.of_nat (length data) ∧ zsize ≤ 123)
    by (unfold zsize; lia).
  assert (Hu8 : u8 zsize = zsize) by (apply u8_small; lia).
  assert (Hpos : data ≠ [] → zsize > 0).
  { intros Hd. destruct data; [done|]. unfold zsize. simpl length. lia. }
  split.
  - intros Hempty. unfold BTM_LE_PF_manu_data.
    rewrite bool_decide_eq_true_2 by done. fold zsize. rewrite Hu8.
    assert (Hcond : bool_decide (zsize > 0)
                    && bool_decide (length data_mask ≠ 0%nat) = false).
    { destruct Hempty as [->| ->].
      - rewrite (bool_decide_eq_false_2 (zsize > 0)); [done|].
        unfold zsize. simpl. lia.
      - rewrite (bool_decide_eq_false_2 (length _ ≠ _));
          [by rewrite andb_false_r|]. simpl. lia. }
    rewrite Hcond. unfold mbind, M_bind, bind, ret.
    destruct (bool_decide (company_id_mask ≠ 0)); by rewrite send_exact.
  - intros Hdata Hmask Hlen. unfold BTM_LE_PF_manu_data.
    rewrite bool_decide_eq_true_2 by done. fold zsize. rewrite Hu8.
    rewrite (bool_decide_eq_true_2 (zsize > 0)) by auto.
    rewrite (bool_decide_eq_true_2 (length data_mask ≠ 0%nat))
      by (by destruct data_mask).
    simpl. unfold mbind, M_bind, bind, ret.
    rewrite ARRAY_TO_STREAM_ok by lia.
    rewrite ARRAY_TO_STREAM_ok by (unfold size in Hlen; fold zsize in Hlen; lia).
    assert (Hlenp : ∀ cm : Z,
      Z.of_nat (length
        (UINT16_TO_STREAM
           (UINT16_TO_STREAM
              (UINT8_TO_STREAM
                 (UINT8_TO_STREAM
                    (UINT8_TO_STREAM [] BTM_BLE_META_PF_MANU_DATA) action)
                 filt_index) company_id ++ take (Z.to_nat zsize) data) cm
         ++ take (Z.to_nat zsize) data_mask))
      = u8 (u8 (u8 (BTM_BLE_ADV_FILT_META_HDR_LENGTH + (zsize + 2)) + 2)
            + zsize)).
    { intros cm. unfold UINT16_TO_STREAM, UINT8_TO_STREAM,
        BTM_BLE_ADV_FILT_META_HDR_LENGTH.
      rewrite !length_app, !length_take. simpl length.
      unfold size in Hlen. fold zsize in Hlen.
      rewrite (u8_small (3 + (zsize + 2))) by lia.
      rewrite (u8_small (3 + (zsize + 2) + 2)) by lia.
      rewrite u8_small by lia. lia. }
    destruct (bool_decide (company_id_mask ≠ 0));
      rewrite send_exact by apply Hlenp;
      unfold sent, size, UINT16_TO_STREAM, UINT8_TO_STREAM, header_bytes,
        le16; fold zsize; by rewrite <- ?app_assoc.
Qed.

(** X13. For an add or a delete the service-data-pattern encoder sends
    only the header when the data is empty; otherwise it sends the data cut
    to [BTM_BLE_PF_STR_LEN_MAX - 2] bytes followed by as many bytes of the
    mask, and a mask with fewer bytes than that is read past its end. *)
Theorem srvc_data_pattern_payload (action filt_index : Z)
    (data data_mask : list Z) (cb : callback) (st : state) :
  action ≠ BTM_BLE_SCAN_COND_CLEAR →
  3 ≤ BTM_BLE_PF_STR_LEN_MAX ≤ 125 →
  let size := Z.to_nat (Z.min (Z.of_nat (length data))
                              (BTM_BLE_PF_STR_LEN_MAX - 2)) in
  let sent payload :=
    Ok (tt, set_target tBLE_BD_ADDR_zero
              (emit (EvSend HCI_BLE_ADV_FILTER payload
                       (Bind_btm_flt_update_cb BTM_BLE_META_PF_SRVC_DATA cb))
                 st)) in
  (data = [] →
   BTM_LE_PF_srvc_data_pattern action filt_index data data_mask cb st
   = sent (header_bytes BTM_BLE_META_PF_SRVC_DATA action filt_index))
  ∧ (data ≠ [] → (size ≤ length data_mask)%nat →
     BTM_LE_PF_srvc_data_pattern action filt_index data data_mask cb st
     = sent (header_bytes BTM_BLE_META_PF_SRVC_DATA action filt_index
             ++ take size data ++ take size data_mask))
  ∧ (data ≠ [] → (length data_mask < size)%nat →
     BTM_LE_PF_srvc_data_pattern action filt_index data data_mask cb st
     = Fault (OutOfBounds (length data_mask))).
Proof.
  intros Hact Hmax size sent.
  set (zsize := Z.min (Z.of_nat (length data)) (BTM_BLE_PF_STR_LEN_MAX - 2)).
  assert (Hz : 0 ≤ zsize ≤ Z.of_nat (length data) ∧ zsize ≤ 123)
    by (unfold zsize; lia).
  assert (Hu8 : u8 zsize = zsize) by (apply u8_small; lia).
  assert (Hpos : data ≠ [] → zsize > 0).
  { intros Hd. destruct data; [done|]. unfold zsize. simpl length. lia. }
  split; [|split].
  - intros Hdata. unfold BTM_LE_PF_srvc_data_pattern.
    rewrite bool_decide_eq_true_2 by done. fold zsize. rewrite Hu8.
    rewrite (bool_decide_eq_false_2 (zsize > 0))
      by (rewrite Hdata in Hz; simpl in Hz; lia).
    unfold mbind, M_bind, bind, ret. by rewrite send_exact.
  - intros Hdata Hlen. unfold BTM_LE_PF_srvc_data_pattern.
    rewrite bool_decide_eq_true_2 by done. fold zsize. rewrite Hu8.
    rewrite (bool_decide_eq_true_2 (zsize > 0)) by auto.
    unfold mbind, M_bind, bind, ret.
    rewrite ARRAY_TO_STREAM_ok by lia.
    rewrite ARRAY_TO_STREAM_ok by (unfold size in Hlen; fold zsize in Hlen; lia).
    rewrite send_exact.
    + unfold sent, size, UINT8_TO_STREAM, header_bytes. fold zsize.
      by rewrite <- ?app_assoc.
    + unfold UINT8_TO_STREAM, BTM_BLE_ADV_FILT_META_HDR_LENGTH.
      rewrite !length_app, !length_take. simpl length.
      unfold size in Hlen. fold zsize in Hlen.
      rewrite (u8_small (3 + zsize)) by lia.
      rewrite u8_small by lia. lia.
  - intros Hdata Hlen. unfold BTM_LE_PF_srvc_data_pattern.
    rewrite bool_decide_eq_true_2 by done. fold zsize. rewrite Hu8.
    rewrite (bool_decide_eq_true_2 (zsize > 0)) by auto.
    unfold mbind, M_bind, bind, ret.
    rewrite ARRAY_TO_STREAM_ok by lia.
    by rewrite ARRAY_TO_STREAM_past_end
      by (unfold size in Hlen; fold zsize in Hlen; lia).
Qed.

(** X14. For an add or a delete with an empty UUID mask, the UUID encoder
    sends the header, the UUID in its shortest form (2, 4 or 16 bytes) and
    a mask of as many 0xFF bytes. *)
Theorem uuid_filter_default_mask (action filt_index filter_type : Z)
    (uuid : Uuid) (cond_logic : Z) (uuid_mask : Uuid) (cb : callback)
    (st : state) :
  action ≠ BTM_BLE_SCAN_COND_CLEAR →
  Uuid_IsEmpty uuid_mask = true →
  let evt_type := if bool_decide (BTM_BLE_PF_SRVC_UUID = filter_type)
                  then BTM_BLE_META_PF_UUID else BTM_BLE_META_PF_SOL_UUID in
  let sent payload :=
    Ok (tt, set_target tBLE_BD_ADDR_zero
              (emit (EvSend HCI_BLE_ADV_FILTER payload
                       (Bind_btm_flt_update_cb evt_type cb)) st)) in
  (u8 (GetShortestRepresentationSize uuid) = Uuid_kNumBytes16 →
   BTM_LE_PF_uuid_filter action filt_index filter_type uuid cond_logic
     uuid_mask cb st
   = sent (header_bytes evt_type action filt_index
           ++ le16 (As16Bit uuid) ++ replicate 2%nat 255))
  ∧ (u8 (GetShortestRepresentationSize uuid) = Uuid_kNumBytes32 →
     BTM_LE_PF_uuid_filter action filt_index filter_type uuid cond_logic
       uuid_mask cb st
     = sent (header_bytes evt_type action filt_index
             ++ le32 (As32Bit uuid) ++ replicate 4%nat 255))
  ∧ (u8 (GetShortestRepresentationSize uuid) = Uuid_kNumBytes128 →
     length (To128BitLE uuid) = 16%nat →
     BTM_LE_PF_uuid_filter action filt_index filter_type uuid cond_logic
       uuid_mask cb st
     = sent (header_bytes evt_type action filt_index
             ++ To128BitLE uuid ++ replicate 16%nat 255)).
Proof.
  intros Hact Hmask evt_type sent. repeat split.
  - intros Hw. unfold BTM_LE_PF_uuid_filter.
    rewrite bool_decide_eq_true_2 by done. rewrite Hw, Hmask. simpl.
    unfold mbind, M_bind, bind. by rewrite send_exact.
  - intros Hw. unfold BTM_LE_PF_uuid_filter.
    rewrite bool_decide_eq_true_2 by done. rewrite Hw, Hmask. simpl.
    unfold mbind, M_bind, bind. by rewrite send_exact.
  - intros Hw Hlen. unfold BTM_LE_PF_uuid_filter.
    rewrite bool_decide_eq_true_2 by done. rewrite Hw, Hmask. simpl.
    unfold mbind, M_bind, bind.
    rewrite (take_ge (To128BitLE uuid))
      by (rewrite Hlen; unfold Uuid_kNumBytes128; lia).
    rewrite send_exact; [done|].
    simpl length. rewrite length_app, Hlen. reflexivity.
Qed.

(** X15. For an add or a delete the address encoder sends the header, the
    identity address that the address resolution returns, and the address
    type 2: the type passed in and the type resolved are not sent. *)
Theorem addr_filter_payload (action filt_index : Z) (addr : tBLE_BD_ADDR)
    (cb : callback) (st : state) :
  action ≠ BTM_BLE_SCAN_COND_CLEAR →
  let identity :=
    fst (btm_random_pseudo_to_identity_addr (bda addr) (type addr)
           (sec st)) in
  length (BDADDR_TO_STREAM identity) = 6%nat →
  BTM_LE_PF_addr_filter action filt_index addr cb st
  = Ok (tt, set_target tBLE_BD_ADDR_zero
              (emit (EvSend HCI_BLE_ADV_FILTER
                       (header_bytes BTM_BLE_META_PF_ADDR action filt_index
                        ++ BDADDR_TO_STREAM identity ++ [2])
                       (Bind_btm_flt_update_cb BTM_BLE_META_PF_ADDR cb))
                 st)).
Proof.
  intros Hact identity Hlen. unfold BTM_LE_PF_addr_filter.
  rewrite bool_decide_eq_true_2 by done.
  unfold mbind, M_bind, bind, gets, ret. unfold identity in *.
  destruct (btm_random_pseudo_to_identity_addr (bda addr) (type addr)
              (sec st)) as [id_addr id_type]. simpl in *.
  rewrite (take_app_length' (BDADDR_TO_STREAM id_addr ++ [u8 2]))
    by (rewrite length_app, Hlen; reflexivity).
  reflexivity.
Qed.

End Payloads.

(** * Further properties of the public operations *)

Section ParamSetupAdd.
Context `{Header} `{Collaborators}.

Lemma length_param_of (len_max : Z) (p : list Z) :
  (Z.to_nat len_max ≤ length (param_of len_max p))%nat.
Proof. unfold param_of. rewrite length_app, length_replicate. lia. Qed.

(** X16. Where filtering is supported, the add branch of filter-parameter
    setup sends one feature-selection command and nothing else changes.
    The payload has 16 bytes when the chip version is the L version and 18
    otherwise, and starts with the header.  When the delivery mode is not 1
    only the ten bytes up to the delivery mode are written and the rest of
    the payload is zero.  Without parameters the branch dereferences a null
    pointer. *)
Theorem param_setup_add_payload (filt_index : Z)
    (params : btgatt_filt_param_setup_t) (cb : callback) (st : state) :
  is_filtering_supported st = true →
  BLE_ADV_FILTER = true →
  let len : nat :=
    if bool_decide (version_supported (cmn_ble_vsc_cb st)
                    = BTM_VSC_CHIP_CAPABILITY_L_VERSION)
    then 16%nat else 18%nat in
  (∃ payload,
     BTM_BleAdvFilterParamSetup BTM_BLE_SCAN_COND_ADD filt_index
       (Some params) cb st
     = Ok (tt, emit (EvSend HCI_BLE_ADV_FILTER payload
                       (Bind_btm_flt_update_cb BTM_BLE_META_PF_FEAT_SEL cb))
                 st)
     ∧ length payload = len
     ∧ take 3 payload
       = header_bytes BTM_BLE_META_PF_FEAT_SEL BTM_BLE_SCAN_COND_ADD
           filt_index
     ∧ (dely_mode params ≠ 1 →
        payload
        = header_bytes BTM_BLE_META_PF_FEAT_SEL BTM_BLE_SCAN_COND_ADD
            filt_index
          ++ le16 (feat_seln params) ++ le16 (list_logic_type params)
          ++ [u8 (filt_logic_type params); u8 (rssi_high_thres params);
              u8 (dely_mode params)]
          ++ replicate (len - 10) 0))
  ∧ BTM_BleAdvFilterParamSetup BTM_BLE_SCAN_COND_ADD filt_index None cb st
    = Fault NullDeref.
Proof.
  intros Hsup Hflag len. split.
  - unfold BTM_BleAdvFilterParamSetup.
    unfold mbind, M_bind, bind, gets. rewrite Hsup. simpl negb. cbv iota.
    rewrite bool_decide_eq_true_2 by done.
    unfold btm_ble_find_addr_filter_counter. cbv iota beta.
    rewrite Hflag. unfold btu_hcif_send_cmd_with_cb, modify.
    eexists. split; [reflexivity|].
    assert (Hn : Z.to_nat
                   (if bool_decide (version_supported (cmn_ble_vsc_cb st)
                                    = BTM_VSC_CHIP_CAPABILITY_L_VERSION)
                    then u8 (BTM_BLE_ADV_FILT_META_HDR_LENGTH
                             + BTM_BLE_ADV_FILT_FEAT_SELN_LEN)
                    else u8 (BTM_BLE_ADV_FILT_META_HDR_LENGTH
                             + BTM_BLE_ADV_FILT_FEAT_SELN_LEN
                             + BTM_BLE_ADV_FILT_TRACK_NUM)) = len).
    { unfold len. by case_bool_decide. }
    rewrite Hn.
    match goal with
    | |- context [param_of ?m ?q] => set (p := q); set (len_max := m)
    end.
    assert (Hmax : Z.to_nat len_max = 18%nat) by reflexivity.
    pose proof (length_param_of len_max p) as Hlen.
    split; [|split].
    + rewrite length_take. unfold len in *. case_bool_decide; lia.
    + rewrite take_take.
      assert (Hmin : (3 `min` len)%nat = 3%nat).
      { unfold len. case_bool_decide; reflexivity. }
      rewrite Hmin.
      unfold p, param_of.
      destruct (bool_decide (1 = dely_mode params));
        [destruct (bool_decide (version_supported (cmn_ble_vsc_cb st)
                                > BTM_VSC_CHIP_CAPABILITY_L_VERSION))|];
        reflexivity.
    + intros Hdely. unfold p.
      rewrite (bool_decide_eq_false_2 (1 = dely_mode params)) by congruence.
      unfold len. by case_bool_decide.
  - unfold BTM_BleAdvFilterParamSetup.
    unfold mbind, M_bind, bind, gets. rewrite Hsup. simpl negb. cbv iota.
    by rewrite bool_decide_eq_true_2.
Qed.

End ParamSetupAdd.

Section Frames.
Context `{Header} `{Collaborators}.

Lemma keeps_ret {A} (a : A) : keeps_records (ret a).
Proof. by intros st b st' [= <- <-]. Qed.

Lemma keeps_gets {A} (f : state → A) : keeps_records (gets f).
Proof. by intros st b st' [= <- <-]. Qed.

Lemma keeps_raise {A} (f : fault) : keeps_records (raise f : M A).
Proof. intros st b st' [=]. Qed.

Lemma keeps_modify (f : state → state) :
  (∀ st, sec (f st) = sec st
         ∧ remove_me_later_map (f st) = remove_me_later_map st) →
  keeps_records (modify f).
Proof. intros Hf st b st' [= <- <-]. apply Hf. Qed.

Lemma keeps_send opcode param len k :
  keeps_records (btu_hcif_send_cmd_with_cb opcode param len k).
Proof. by intros st b st' [= <- <-]. Qed.

Lemma keeps_bind {A B} (m : M A) (k : A → M B) :
  keeps_records m → (∀ a, keeps_records (k a)) → keeps_records (m ≫= k).
Proof.
  intros Hm Hk st b st' Hrun.
  apply bind_inv in Hrun as (a & st1 & Hrun1 & Hrun2).
  destruct (Hm _ _ _ Hrun1) as [Hs1 Hm1].
  destruct (Hk _ _ _ _ Hrun2) as [Hs2 Hm2]. split; congruence.
Qed.

Lemma keeps_table_update {A} (m : M A) :
  (∀ st a st', m st = Ok (a, st') → ∃ tbl, st' = set_table tbl st) →
  keeps_records m.
Proof. intros Hm st a st' Hrun. by destruct (Hm _ _ _ Hrun) as [tbl ->]. Qed.

Lemma keeps_find p_le_bda :
  keeps_records (btm_ble_find_addr_filter_counter p_le_bda).
Proof.
  intros st a st'. unfold btm_ble_find_addr_filter_counter.
  repeat case_match; intros; by simplify_eq.
Qed.

Lemma keeps_alloc a : keeps_records (btm_ble_alloc_addr_filter_counter a).
Proof.
  apply keeps_table_update. intros st r st'.
  unfold btm_ble_alloc_addr_filter_counter.
  repeat case_match; intros; simplify_eq; eauto.
Qed.

Lemma keeps_dealloc p_bd_addr filter_type :
  keeps_records (btm_ble_dealloc_addr_filter_counter p_bd_addr filter_type).
Proof.
  apply keeps_table_update. intros st r st'.
  unfold btm_ble_dealloc_addr_filter_counter.
  repeat case_match; intros; simplify_eq; eauto.
Qed.

Lemma keeps_bump i cond_type num_available :
  keeps_records (bump_counter i cond_type num_available).
Proof.
  apply keeps_table_update. intros st r st'. unfold bump_counter.
  repeat case_match; intros; simplify_eq; eauto.
Qed.

Lemma keeps_Run cb args : keeps_records (Run cb args).
Proof.
  destruct cb; simpl; [apply keeps_raise|apply keeps_ret|].
  by apply keeps_modify.
Qed.

Ltac keeps_step :=
  match goal with
  | |- keeps_records (_ ≫= _) => apply keeps_bind; [|intros ?]
  | |- keeps_records (ret _) => apply keeps_ret
  | |- keeps_records (gets _) => apply keeps_gets
  | |- keeps_records (raise _) => apply keeps_raise
  | |- keeps_records (Run _ _) => apply keeps_Run
  | |- keeps_records (btu_hcif_send_cmd_with_cb _ _ _ _) => apply keeps_send
  | |- keeps_records (btm_ble_find_addr_filter_counter _) => apply keeps_find
  | |- keeps_records (btm_ble_alloc_addr_filter_counter _) =>
      apply keeps_alloc
  | |- keeps_records (btm_ble_dealloc_addr_filter_counter _ _) =>
      apply keeps_dealloc
  | |- keeps_records (bump_counter _ _ _) => apply keeps_bump
  | |- keeps_records (match ?x with _ => _ end) => destruct x
  end.

Lemma keeps_update action cond_type p_bd_addr num_available :
  keeps_records (btm_ble_cs_update_pf_counter action cond_type p_bd_addr
                   num_available).
Proof. unfold btm_ble_cs_update_pf_counter. repeat keeps_step. Qed.

Lemma keeps_ARRAY_TO_STREAM p v n : keeps_records (ARRAY_TO_STREAM p v n).
Proof. unfold ARRAY_TO_STREAM. repeat keeps_step. Qed.

Lemma keeps_reset : keeps_records reset_cur_filter_target.
Proof. unfold reset_cur_filter_target. by apply keeps_modify. Qed.

Ltac keeps_enc :=
  repeat first
    [ apply keeps_ARRAY_TO_STREAM | apply keeps_reset | apply keeps_update
    | keeps_step ].

Lemma keeps_local_name action filt_index name cb :
  keeps_records (BTM_LE_PF_local_name action filt_index name cb).
Proof. unfold BTM_LE_PF_local_name. keeps_enc. Qed.

Lemma keeps_srvc_data action filt_index :
  keeps_records (BTM_LE_PF_srvc_data action filt_index).
Proof. unfold BTM_LE_PF_srvc_data. keeps_enc. Qed.

Lemma keeps_manu_data action filt_index company_id company_id_mask data
    data_mask cb :
  keeps_records (BTM_LE_PF_manu_data action filt_index company_id
                   company_id_mask data data_mask cb).
Proof. unfold BTM_LE_PF_manu_data. keeps_enc. Qed.

Lemma keeps_srvc_data_pattern action filt_index data data_mask cb :
  keeps_records (BTM_LE_PF_srvc_data_pattern action filt_index data data_mask
                   cb).
Proof. unfold BTM_LE_PF_srvc_data_pattern. keeps_enc. Qed.

Lemma keeps_addr_filter action filt_index addr cb :
  keeps_records (BTM_LE_PF_addr_filter action filt_index addr cb).
Proof. unfold BTM_LE_PF_addr_filter. keeps_enc. Qed.

Lemma keeps_uuid_filter action filt_index filter_type uuid cond_logic
    uuid_mask cb :
  keeps_records (BTM_LE_PF_uuid_filter action filt_index filter_type uuid
                   cond_logic uuid_mask cb).
Proof. unfold BTM_LE_PF_uuid_filter. keeps_enc. Qed.

Lemma keeps_set_cmd filt_index (cmd : ApcfCommand) :
  carries_irk cmd = false →
  keeps_records (BTM_LE_PF_set_cmd filt_index cmd).
Proof.
  unfold carries_irk. intros Hirk. unfold BTM_LE_PF_set_cmd.
  destruct (size_mismatch cmd); [apply keeps_ret|].
  destruct (bool_decide (cmd_type cmd = BTM_BLE_PF_ADDR_FILTER)).
  { simpl in Hirk. rewrite Hirk.
    apply keeps_bind; [apply keeps_addr_filter|intros ?; apply keeps_ret]. }
  repeat first
    [ apply keeps_srvc_data | apply keeps_uuid_filter
    | apply keeps_local_name | apply keeps_manu_data
    | apply keeps_srvc_data_pattern | keeps_step ].
Qed.

Lemma keeps_set_loop filt_index (commands : list ApcfCommand) :
  Forall (λ cmd, carries_irk cmd = false) commands →
  keeps_records (BTM_LE_PF_set_loop filt_index commands).
Proof.
  induction 1 as [|cmd rest Hcmd Hrest IH]; simpl.
  - apply keeps_ret.
  - apply keeps_bind; [by apply keeps_set_cmd|].
    intros [|]; [done|apply keeps_ret].
Qed.

(** X17. Only an address command that carries an identity resolving key
    makes the batch operation touch device records: when no command of the
    batch is one, the operation leaves the device records and the map of
    temporary identity records as they were, whatever else the commands
    are. *)
Theorem set_without_irk_keeps_records (filt_index : Z)
    (commands : list ApcfCommand) (cb : callback) (st st' : state) :
  Forall (λ cmd, carries_irk cmd = false) commands →
  BTM_LE_PF_set filt_index commands cb st = Ok (tt, st') →
  sec st' = sec st ∧ remove_me_later_map st' = remove_me_later_map st.
Proof.
  intros Hirk. revert st'. 
  assert (Hk : keeps_records (BTM_LE_PF_set filt_index commands cb)).
  { unfold BTM_LE_PF_set. apply keeps_bind; [apply keeps_gets|].
    intros supported. destruct (negb supported); [apply keeps_Run|].
    apply keeps_bind; [by apply keeps_set_loop|].
    intros [|]; [apply keeps_Run|apply keeps_ret]. }
  intros st' Hrun. by eapply Hk.
Qed.

End Frames.

Section IrkPath.
Context `{Header} `{Collaborators}.

(** X18. An address command that carries an identity resolving key, for a
    filter index without a temporary identity record: when the device
    records have no record of the address, a record is allocated, the
    index is mapped to the address and the key is installed on the new
    record, and the loop goes on; when a record of the address exists, the
    operation returns with records and map untouched.  Either way the
    filter command has been sent and the slot table is as it was. *)
Theorem set_cmd_irk_installs_key (filt_index : Z) (cmd : ApcfCommand)
    (st : state) :
  size_mismatch cmd = false →
  carries_irk cmd = true →
  remove_me_later_map st !! filt_index = None →
  let known := btm_find_dev (cmd_address cmd) (sec st) in
  let pid_keys :=
    mk_tBTM_LE_PID_KEYS (cmd_irk cmd) (to_ble_addr_type (cmd_addr_type cmd))
      (cmd_address cmd) in
  ∃ st' payload,
    BTM_LE_PF_set_cmd filt_index cmd st
    = Ok (if known then Return else Next, st')
    ∧ trace st'
      = trace st ++ [EvSend HCI_BLE_ADV_FILTER payload
                       (Bind_btm_flt_update_cb BTM_BLE_META_PF_ADDR
                          CbDoNothing)]
    ∧ table st' = table st
    ∧ sec st'
      = (if known then sec st
         else BTM_SecAddBleKey (cmd_address cmd) pid_keys BTM_LE_KEY_PID
                (btm_sec_alloc_dev (cmd_address cmd) (sec st)))
    ∧ remove_me_later_map st'
      = (if known then remove_me_later_map st
         else <[filt_index := cmd_address cmd]> (remove_me_later_map st)).
Proof.
  intros Hsize Hirk Hmap known pid_keys. unfold carries_irk in Hirk.
  apply andb_true_iff in Hirk as [Htype Hkey].
  unfold BTM_LE_PF_set_cmd. rewrite Hsize, Htype, Hkey.
  destruct (addr_filter_total BTM_BLE_SCAN_COND_ADD filt_index
              (mk_tBLE_BD_ADDR (to_ble_addr_type (cmd_addr_type cmd))
                 (cmd_address cmd)) CbDoNothing st) as [payload Haddr].
  unfold mbind at 1, M_bind at 1, bind at 1. rewrite Haddr.
  unfold replace_existing_entry, emplace. monad_simpl. rewrite Hmap. simpl.
  fold known. destruct known; simpl; [by eexists _, payload|].
  rewrite Hmap. by eexists _, payload.
Qed.

End IrkPath.

Section ClearTrace.
Context `{Header} `{Collaborators} `{!HeaderOk}.

(** X19. Where filtering is supported and the generic entry exists, the
    clear operation sends six commands, in this order: the clear of the
    manufacturer-data, local-name, service-UUID, solicitation-UUID and
    service-data filters, each of three bytes and each bound to a null
    callback, then a feature selection of 21 bytes that selects nothing,
    bound to the caller's callback.  It counts one service-data removal in
    the generic entry, leaves the pending target empty, and erases nothing
    from the map of temporary identity records. *)
Theorem clear_sends_six_commands (filt_index : Z) (cb : callback)
    (st : state) (s0 : tBTM_BLE_PF_COUNT) (c : Z) :
  is_filtering_supported st = true →
  table st !! 0%nat = Some s0 →
  pf_counter s0 !! Z.to_nat BTM_BLE_PF_SRVC_DATA = Some c →
  let cleared ocf :=
    EvSend HCI_BLE_ADV_FILTER
      (header_bytes ocf BTM_BLE_SCAN_COND_CLEAR filt_index)
      (Bind_btm_flt_update_cb ocf CbNull) in
  ∃ st',
    BTM_LE_PF_clear filt_index cb st = Ok (tt, st')
    ∧ trace st'
      = trace st
        ++ [cleared BTM_BLE_META_PF_MANU_DATA;
            cleared BTM_BLE_META_PF_LOCAL_NAME;
            cleared BTM_BLE_META_PF_UUID;
            cleared BTM_BLE_META_PF_SOL_UUID;
            cleared BTM_BLE_META_PF_SRVC_DATA;
            EvSend HCI_BLE_ADV_FILTER
              (header_bytes BTM_BLE_META_PF_FEAT_SEL BTM_BLE_SCAN_COND_CLEAR
                 filt_index
               ++ [0; 0; 0; 0; u8 BTM_BLE_PF_LOGIC_OR] ++ replicate 13 0)
              (Bind_btm_flt_update_cb BTM_BLE_META_PF_FEAT_SEL cb)]
    ∧ table st'
      = <[0%nat := with_counter s0 BTM_BLE_PF_SRVC_DATA (u8 (c + 1))]>
          (table st)
    ∧ target st' = tBLE_BD_ADDR_zero
    ∧ remove_me_later_map st' = remove_me_later_map st.
Proof.
  intros Hsup Hs0 Hc cleared. unfold BTM_LE_PF_clear.
  unfold mbind at 1, M_bind at 1, bind at 1, gets at 1.
  rewrite Hsup. simpl. unfold mbind, M_bind, bind.
  rewrite manu_data_clear, local_name_clear.
  erewrite srvc_data_clear by (simpl; eassumption).
  rewrite !uuid_filter_clear, srvc_data_pattern_clear.
  rewrite (bool_decide_eq_true_2 (BTM_BLE_PF_SRVC_UUID = BTM_BLE_PF_SRVC_UUID))
    by done.
  rewrite (bool_decide_eq_false_2
             (BTM_BLE_PF_SRVC_UUID = BTM_BLE_PF_SRVC_SOL_UUID))
    by apply srvc_uuid_not_sol.
  unfold gets. simpl.
  destruct (remove_me_later_map st !! filt_index) as [entry|]; simpl;
    [destruct (btm_sec_is_a_bonded_dev entry (sec st)); simpl|];
    (eexists; split; [reflexivity|]; simpl;
     rewrite <- !app_assoc; done).
Qed.

End ClearTrace.

Section NullCallback.
Context `{Header} `{Collaborators}.

(** X20. The router runs its callback on every path behind the length and
    subcode tests: a four-byte reply that echoes the expected subcode,
    routed to a null callback, never returns normally.  The five clear
    commands of the clear operation are bound to such a callback. *)
Theorem flt_update_cb_null_callback (expected_ocf status action num_avail : Z)
    (rest : list Z) (st : state) :
  ∃ f,
    btm_flt_update_cb expected_ocf CbNull
      (status :: expected_ocf :: action :: num_avail :: rest) 4 st
    = Fault f.
Proof.
  unfold btm_flt_update_cb.
  rewrite bool_decide_eq_false_2 by (intros Hne; by apply Hne).
  rewrite bool_decide_eq_false_2 by (intros Hne; by apply Hne).
  case_bool_decide; [by eexists|].
  unfold mbind, M_bind, bind, gets, modify, ret. simpl.
  case_bool_decide; [|by eexists].
  destruct (IsEmpty (bda (target st)));
    destruct (btm_ble_cs_update_pf_counter _ _ _ _ st) as [[r st1]|f];
    by eexists.
Qed.

End NullCallback.

Section Initialisation.
Context `{Header} `{Collaborators}.

(** X21. Initialisation always returns.  It reads the capabilities, zeroes
    the operation type and the pending target, and leaves a slot table of
    [max_filter] entries where filtering is supported and no table where it
    is not; device records, the map of temporary identity records and the
    trace are kept. *)
Theorem init_resets_control_block (st0 : state) :
  ∃ st,
    btm_ble_adv_filter_init st0 = Ok (tt, st)
    ∧ cmn_ble_vsc_cb st = BTM_BleGetVendorCapabilities
    ∧ op_type (btm_ble_adv_filt_cb st) = 0
    ∧ target st = tBLE_BD_ADDR_zero
    ∧ length (table st)
      = (if is_filtering_supported st then max_filter (cmn_ble_vsc_cb st)
         else 0%nat)
    ∧ remove_me_later_map st = remove_me_later_map st0
    ∧ sec st = sec st0
    ∧ trace st = trace st0.
Proof.
  assert (Hruns : ∃ st, btm_ble_adv_filter_init st0 = Ok (tt, st)).
  { unfold btm_ble_adv_filter_init. monad_simpl.
    destruct (negb (is_filtering_supported _)); [by eexists|].
    case_bool_decide; by eexists. }
  destruct Hruns as [st Hinit]. exists st. split; [done|].
  by apply init_shape in Hinit.
Qed.

(** Every call keeps the capabilities and the length of the table. *)
Lemma call_keeps_shape (st st' : state) :
  call st st' →
  cmn_ble_vsc_cb st' = cmn_ble_vsc_cb st
  ∧ length (table st') = length (table st).
Proof.
  set (I := λ s : state, cmn_ble_vsc_cb s = cmn_ble_vsc_cb st
                         ∧ length (table s) = length (table st)).
  assert (HI : I st) by done.
  assert (Htable : ∀ tbl s, I s → length tbl = length (table s) →
                            I (set_table tbl s)).
  { intros tbl s [Hc Hl] Hlen. unfold I.
    rewrite table_set_table, vsc_set_table. split; congruence. }
  intros Hcall.
  destruct Hcall as [? ? ? ? ? Hrun|? ? ? ? Hrun|? ? ? ? ? ? Hrun
                    |? ? ? ? Hrun|? ? ? ? ? ? Hrun|? ? ? ? ? Hrun].
  - eapply (preserves_set I); eauto.
  - eapply (preserves_clear I); eauto.
  - eapply (preserves_param_setup I); eauto.
  - eapply (preserves_enable I); eauto.
  - eapply (preserves_flt_update_cb I); eauto.
  - eapply (preserves_enable_cmpl_cback I); eauto.
Qed.

(** X27. On every state of a run the capabilities are those read at
    initialisation and the slot table has the length that initialisation
    gave it: [max_filter] entries where filtering is supported, none where
    it is not.  No call allocates, frees or resizes the table, so the scans
    of entries 1, ..., [max_filter] always meet a table one entry short. *)
Theorem run_keeps_table_size (st : state) :
  reachable st →
  cmn_ble_vsc_cb st = BTM_BleGetVendorCapabilities
  ∧ length (table st)
    = (if is_filtering_supported st then max_filter (cmn_ble_vsc_cb st)
       else 0%nat).
Proof.
  induction 1 as [st0 st Hinit|st st' _ [IHc IHl] Hcall].
  - by apply init_shape in Hinit as (? & _ & _ & ? & _).
  - apply call_keeps_shape in Hcall as [Hc Hl].
    unfold is_filtering_supported in *. by rewrite Hc, Hl.
Qed.

End Initialisation.

Section EnableCommand.
Context `{Header} `{Collaborators}.

(** X22. Where filtering is supported, enabling or disabling the feature
    sends the first two bytes of its twenty-byte buffer, the enable subcode
    and the flag, bound to the completion handler of the status callback;
    the callback is not tested for null on this path, and no callback
    runs. *)
Theorem enable_sends_two_bytes (enable : Z) (p_stat_cback : callback)
    (st : state) :
  is_filtering_supported st = true →
  BTM_BleEnableDisableFilterFeature enable p_stat_cback st
  = Ok (tt, emit (EvSend HCI_BLE_ADV_FILTER
                    [u8 BTM_BLE_META_PF_ENABLE; u8 enable]
                    (Bind_enable_cmpl_cback p_stat_cback)) st).
Proof.
  intros Hsup. unfold BTM_BleEnableDisableFilterFeature.
  unfold mbind, M_bind, bind, gets. by rewrite Hsup.
Qed.

End EnableCommand.

Section ParamSetupBranches.
Context `{Header} `{Collaborators} `{!HeaderOk}.

(** X23. Filter-parameter setup with an action that is neither add, delete
    nor clear does nothing where filtering is supported: no command is
    sent and the callback does not run. *)
Theorem param_setup_unknown_action (action filt_index : Z)
    (p_filt_params : option btgatt_filt_param_setup_t) (cb : callback)
    (st : state) :
  is_filtering_supported st = true →
  action ∉ [BTM_BLE_SCAN_COND_ADD; BTM_BLE_SCAN_COND_DELETE;
            BTM_BLE_SCAN_COND_CLEAR] →
  BTM_BleAdvFilterParamSetup action filt_index p_filt_params cb st
  = Ok (tt, st).
Proof.
  intros Hsup Haction. rewrite !not_elem_of_cons in Haction.
  destruct Haction as (Hadd & Hdel & Hclr & _).
  unfold BTM_BleAdvFilterParamSetup.
  unfold mbind, M_bind, bind, gets. rewrite Hsup. simpl.
  rewrite (bool_decide_eq_false_2 (BTM_BLE_SCAN_COND_ADD = action))
    by congruence.
  rewrite (bool_decide_eq_false_2 (BTM_BLE_SCAN_COND_DELETE = action))
    by congruence.
  by rewrite (bool_decide_eq_false_2 (BTM_BLE_SCAN_COND_CLEAR = action))
    by congruence.
Qed.

(** X24. On a table of [max_filter] entries, as initialisation allocates
    it, the clear branch of filter-parameter setup does not return where
    filtering is supported: its deallocation of all filters scans the
    entries 1, ..., [max_filter] and reads the entry past the end of the
    table, before any command is sent, whatever the filter index, the
    parameters and the callback. *)
Theorem param_setup_clear_overruns_table (filt_index : Z)
    (p_filt_params : option btgatt_filt_param_setup_t) (cb : callback)
    (st : state) :
  is_filtering_supported st = true →
  length (table st) = max_filter (cmn_ble_vsc_cb st) →
  BTM_BleAdvFilterParamSetup BTM_BLE_SCAN_COND_CLEAR filt_index
    p_filt_params cb st
  = Fault (OutOfBounds (max_filter (cmn_ble_vsc_cb st))).
Proof.
  intros Hsup Hlen. unfold BTM_BleAdvFilterParamSetup.
  unfold mbind at 1, M_bind at 1, bind at 1, gets at 1.
  rewrite Hsup. change (negb true) with false. cbv iota beta.
  rewrite (bool_decide_eq_false_2
             (BTM_BLE_SCAN_COND_ADD = BTM_BLE_SCAN_COND_CLEAR))
    by apply scan_cond_add_clear.
  rewrite (bool_decide_eq_false_2
             (BTM_BLE_SCAN_COND_DELETE = BTM_BLE_SCAN_COND_CLEAR))
    by apply scan_cond_delete_clear.
  rewrite (bool_decide_eq_true_2
             (BTM_BLE_SCAN_COND_CLEAR = BTM_BLE_SCAN_COND_CLEAR)) by done.
  assert (Hde : btm_ble_dealloc_addr_filter_counter None BTM_BLE_PF_TYPE_ALL
                  st
                = Fault (OutOfBounds (max_filter (cmn_ble_vsc_cb st)))).
  { unfold btm_ble_dealloc_addr_filter_counter.
    rewrite (bool_decide_eq_true_2 (BTM_BLE_PF_TYPE_ALL = _)) by done.
    rewrite (bool_decide_eq_true_2 (None = None)) by done. simpl andb.
    cbv iota.
    assert (Hmax : max_filter (cmn_ble_vsc_cb st) ≠ 0%nat).
    { unfold is_filtering_supported in Hsup.
      apply andb_true_iff in Hsup as [_ Hm].
      by apply negb_true_iff, Nat.eqb_neq in Hm. }
    destruct (table st) as [|s0 rest] eqn:Htbl; [simpl in Hlen; lia|].
    destruct (max_filter (cmn_ble_vsc_cb st)) as [|n] eqn:Hm; [done|].
    rewrite dealloc_scan_null_past_end by (simpl in *; lia).
    simpl in *. do 2 f_equal. lia. }
  unfold mbind, M_bind, bind. by rewrite Hde.
Qed.

(** X25. The delete branch of filter-parameter setup, for a filter index
    without a temporary identity record: the three header bytes are sent,
    bound to the caller's callback, and nothing else changes; the
    parameters are not read. *)
Theorem param_setup_delete_without_mapping (filt_index : Z)
    (p_filt_params : option btgatt_filt_param_setup_t) (cb : callback)
    (st : state) :
  is_filtering_supported st = true →
  BLE_ADV_FILTER = true →
  remove_me_later_map st !! filt_index = None →
  BTM_BleAdvFilterParamSetup BTM_BLE_SCAN_COND_DELETE filt_index
    p_filt_params cb st
  = Ok (tt, emit (EvSend HCI_BLE_ADV_FILTER
                    (header_bytes BTM_BLE_META_PF_FEAT_SEL
                       BTM_BLE_SCAN_COND_DELETE filt_index)
                    (Bind_btm_flt_update_cb BTM_BLE_META_PF_FEAT_SEL cb))
              st).
Proof.
  intros Hsup Hflag Hmap. unfold BTM_BleAdvFilterParamSetup.
  unfold mbind at 1, M_bind at 1, bind at 1, gets at 1.
  rewrite Hsup. change (negb true) with false. cbv iota beta.
  rewrite (bool_decide_eq_false_2
             (BTM_BLE_SCAN_COND_ADD = BTM_BLE_SCAN_COND_DELETE))
    by apply scan_cond_add_delete.
  rewrite (bool_decide_eq_true_2
             (BTM_BLE_SCAN_COND_DELETE = BTM_BLE_SCAN_COND_DELETE)) by done.
  rewrite Hflag. unfold replace_existing_entry. monad_simpl.
  by rewrite Hmap.
Qed.

End ParamSetupBranches.

Section GenericAcknowledgement.
Context `{Header} `{Collaborators} `{!HeaderOk}.

Lemma ocf_to_condtype_generic :
  btm_ble_ocf_to_condtype BTM_BLE_META_PF_LOCAL_NAME = BTM_BLE_PF_LOCAL_NAME
  ∧ btm_ble_ocf_to_condtype BTM_BLE_META_PF_MANU_DATA = BTM_BLE_PF_MANU_DATA
  ∧ btm_ble_ocf_to_condtype BTM_BLE_META_PF_SRVC_DATA
    = BTM_BLE_PF_SRVC_DATA_PATTERN
  ∧ BTM_BLE_META_PF_LOCAL_NAME ≠ BTM_BLE_META_PF_FEAT_SEL
  ∧ BTM_BLE_META_PF_MANU_DATA ≠ BTM_BLE_META_PF_FEAT_SEL
  ∧ BTM_BLE_META_PF_SRVC_DATA ≠ BTM_BLE_META_PF_FEAT_SEL.
Proof.
  pose proof meta_pf_labels as Hl.
  rewrite !NoDup_cons, !not_elem_of_cons in Hl. destruct_and!.
  unfold btm_ble_ocf_to_condtype.
  repeat split; try congruence;
    repeat first
      [ rewrite bool_decide_eq_true_2 by done
      | rewrite bool_decide_eq_false_2 by congruence ];
    done.
Qed.

(** X26. A successful four-byte reply to a local-name, manufacturer-data
    or service-data-pattern command, for any action and whatever the
    pending target is: the subcode maps to its condition type, the counter
    of that type in the generic entry goes up by one (modulo 256) when the
    controller reports an available entry, the operation type is reset and
    the continuation runs. *)
Theorem flt_update_cb_generic_ack (ocf cond_type : Z) (id : nat)
    (action num_avail : Z) (rest : list Z) (st : state)
    (s0 : tBTM_BLE_PF_COUNT) (c : Z) :
  (ocf, cond_type) ∈
    [(BTM_BLE_META_PF_LOCAL_NAME, BTM_BLE_PF_LOCAL_NAME);
     (BTM_BLE_META_PF_MANU_DATA, BTM_BLE_PF_MANU_DATA);
     (BTM_BLE_META_PF_SRVC_DATA, BTM_BLE_PF_SRVC_DATA_PATTERN)] →
  table st !! 0%nat = Some s0 →
  pf_counter s0 !! Z.to_nat cond_type = Some c →
  let c' := if bool_decide (num_avail > 0) then u8 (c + 1) else c in
  btm_flt_update_cb ocf (CbClient id)
    (HCI_SUCCESS :: ocf :: action :: num_avail :: rest) 4 st
  = Ok (tt, emit (EvRun id [num_avail; action;
                            if bool_decide (HCI_SUCCESS = 0) then BTM_SUCCESS
                            else BTM_ERR_PROCESSING])
              (set_op_type 0
                 (set_table
                    (<[0%nat := with_counter s0 cond_type c']> (table st))
                    st))).
Proof.
  intros Hin Hs0 Hc c'.
  destruct ocf_to_condtype_generic as (Hn & Hm & Hs & Hnf & Hmf & Hsf).
  assert (Hfacts : btm_ble_ocf_to_condtype ocf = cond_type
                   ∧ ocf ≠ BTM_BLE_META_PF_FEAT_SEL
                   ∧ cond_type ∈ [BTM_BLE_PF_LOCAL_NAME; BTM_BLE_PF_MANU_DATA;
                                  BTM_BLE_PF_SRVC_DATA_PATTERN]).
  { rewrite !elem_of_cons in Hin. rewrite !elem_of_cons.
    destruct Hin as [[= -> ->]|[[= -> ->]|[[= -> ->]|Hnil]]];
      [tauto..|by apply elem_of_nil in Hnil]. }
  destruct Hfacts as (Hty & Hsel & Hgen).
  destruct (pf_type_facts cond_type) as [Hr Hna].
  { rewrite !elem_of_cons in Hgen. rewrite !elem_of_cons. tauto. }
  assert (Hupd : ∀ p,
            btm_ble_cs_update_pf_counter action cond_type p num_avail st
            = Ok (c', set_table
                        (<[0%nat := with_counter s0 cond_type c']> (table st))
                        st)).
  { intros p. unfold btm_ble_cs_update_pf_counter.
    rewrite bool_decide_eq_false_2 by lia.
    assert (Hgeneric :
      bool_decide (BTM_BLE_PF_ADDR_FILTER = cond_type)
      || bool_decide (BTM_BLE_PF_MANU_DATA = cond_type)
      || bool_decide (BTM_BLE_PF_LOCAL_NAME = cond_type)
      || bool_decide (BTM_BLE_PF_SRVC_DATA_PATTERN = cond_type) = true).
    { rewrite !elem_of_cons in Hgen.
      destruct Hgen as [Heq|[Heq|[Heq|Hnil]]];
        [..|by apply elem_of_nil in Hnil].
      - rewrite (bool_decide_eq_true_2 (BTM_BLE_PF_LOCAL_NAME = _)) by done.
        by rewrite ?orb_true_r.
      - rewrite (bool_decide_eq_true_2 (BTM_BLE_PF_MANU_DATA = _)) by done.
        by rewrite ?orb_true_r.
      - rewrite (bool_decide_eq_true_2 (BTM_BLE_PF_SRVC_DATA_PATTERN = _))
          by done.
        by rewrite ?orb_true_r. }
    rewrite Hgeneric. by apply update_pf_counter_generic_entry. }
  unfold btm_flt_update_cb.
  rewrite bool_decide_eq_false_2 by (intros Hne; by apply Hne).
  rewrite bool_decide_eq_false_2 by (intros Hne; by apply Hne).
  rewrite (bool_decide_eq_false_2 (ocf = _)) by done.
  rewrite Hty.
  rewrite (bool_decide_eq_true_2 (HCI_SUCCESS = HCI_SUCCESS)) by done.
  unfold mbind, M_bind, bind, gets, modify, ret.
  destruct (IsEmpty (bda (target st))); by rewrite Hupd.
Qed.

End GenericAcknowledgement.

(** * The further properties on the reference configuration *)

Section ReferenceRuns.

#[local] Existing Instances reference_header reference_collaborators.
#[local] Existing Instance reference_header_ok.

Lemma flt_update_cb_failure_status_witness :
  btm_flt_update_cb BTM_BLE_META_PF_LOCAL_NAME (CbClient 1)
    [12; BTM_BLE_META_PF_LOCAL_NAME; BTM_BLE_SCAN_COND_ADD; 0] 4 idle_state
  = Ok (tt, emit (EvRun 1 [0; BTM_BLE_SCAN_COND_ADD;
                           if bool_decide (12 = 0) then BTM_SUCCESS
                           else BTM_ERR_PROCESSING])
              (set_op_type 0 idle_state)).
Proof.
  apply (flt_update_cb_failure_status BTM_BLE_META_PF_LOCAL_NAME 1 12
           BTM_BLE_SCAN_COND_ADD 0 [] idle_state).
  - simpl. lia.
  - simpl. lia.
Defined.

Lemma enable_cmpl_cback_routes_witness :
  enable_cmpl_cback (CbClient 1) [0; BTM_BLE_META_PF_ENABLE; 1] 3 idle_state
  = Ok (tt, emit (EvRun 1 [1; if bool_decide (0 = 0) then BTM_SUCCESS
                              else BTM_ERR_PROCESSING]) idle_state).
Proof.
  apply (proj2 (enable_cmpl_cback_routes 1 [0; BTM_BLE_META_PF_ENABLE; 1] 3
                  idle_state) 0 1 []).
  reflexivity.
Defined.

Lemma flt_update_cb_unknown_subcode_witness :
  btm_ble_ocf_to_condtype 9 = BTM_BLE_PF_TYPE_MAX
  ∧ btm_flt_update_cb 9 (CbClient 1) [0; 9; BTM_BLE_SCAN_COND_ADD; 1] 4
      idle_state
    = Ok (tt, emit (EvRun 1 [1; BTM_BLE_SCAN_COND_ADD;
                             if bool_decide (0 = 0) then BTM_SUCCESS
                             else BTM_ERR_PROCESSING])
                (set_op_type 0 idle_state)).
Proof.
  apply (flt_update_cb_unknown_subcode 9 1 0 BTM_BLE_SCAN_COND_ADD 1 []
           idle_state).
  apply (bool_decide_unpack _). by vm_compute.
Defined.

Lemma alloc_then_find_witness :
  length (table ready_state) = max_filter (cmn_ble_vsc_cb ready_state)
  ∧ btm_ble_alloc_addr_filter_counter AA_BB_CC_DD_EE_FF ready_state
    = Ok (Some 1%nat, bound_state)
  ∧ btm_ble_find_addr_filter_counter
      (Some (mk_tBLE_BD_ADDR 0 AA_BB_CC_DD_EE_FF)) bound_state
    = Ok (Some 1%nat, bound_state).
Proof.
  split; [reflexivity|]. split; [reflexivity|].
  apply (alloc_then_find (mk_tBLE_BD_ADDR 0 AA_BB_CC_DD_EE_FF) 1 ready_state
           bound_state).
  - reflexivity.
  - intros j s Hj. lia.
Defined.

Lemma update_pf_counter_unknown_address_overruns_witness :
  reachable ready_state
  ∧ length (table ready_state) = max_filter (cmn_ble_vsc_cb ready_state)
  ∧ btm_ble_find_addr_filter_counter
      (Some (mk_tBLE_BD_ADDR 0 AA_BB_CC_DD_EE_FF)) ready_state
    = Fault (OutOfBounds (max_filter (cmn_ble_vsc_cb ready_state)))
  ∧ btm_ble_cs_update_pf_counter BTM_BLE_SCAN_COND_ADD BTM_BLE_PF_SRVC_UUID
      (Some (mk_tBLE_BD_ADDR 0 AA_BB_CC_DD_EE_FF)) 1 ready_state
    = Fault (OutOfBounds (max_filter (cmn_ble_vsc_cb ready_state))).
Proof.
  split; [apply (reachable_init idle_state); reflexivity|].
  split; [reflexivity|].
  apply (update_pf_counter_unknown_address_overruns BTM_BLE_SCAN_COND_ADD
           BTM_BLE_PF_SRVC_UUID 1
           (mk_tBLE_BD_ADDR 0 AA_BB_CC_DD_EE_FF) ready_state).
  - reflexivity.
  - simpl. lia.
  - simpl. lia.
  - apply (bool_decide_unpack _). by vm_compute.
  - intros j s Hj Hs.
    destruct j as [|[|j]]; [lia| |done]. by injection Hs as <-.
Defined.

Lemma dealloc_by_address_witness :
  btm_ble_dealloc_addr_filter_counter
    (Some (mk_tBLE_BD_ADDR 0 AA_BB_CC_DD_EE_FF)) BTM_BLE_PF_SRVC_UUID
    busy_state
  = Ok (true,
        set_table (<[1%nat := tBTM_BLE_PF_COUNT_zero]> (table busy_state))
          busy_state)
  ∧ (1 ≤ 1)%nat.
Proof.
  apply (proj1 (dealloc_by_address (mk_tBLE_BD_ADDR 0 AA_BB_CC_DD_EE_FF)
                  BTM_BLE_PF_SRVC_UUID busy_state) 1%nat).
  reflexivity.
Defined.


Lemma update_pf_counter_generic_types_witness :
  btm_ble_cs_update_pf_counter BTM_BLE_SCAN_COND_DELETE BTM_BLE_PF_LOCAL_NAME
    (Some (mk_tBLE_BD_ADDR 0 AA_BB_CC_DD_EE_FF)) 1 idle_state
  = Ok (if bool_decide (1 > 0) then u8 (0 + 1) else 0,
        set_table
          (<[0%nat := with_counter free_slot BTM_BLE_PF_LOCAL_NAME
                        (if bool_decide (1 > 0) then u8 (0 + 1) else 0)]>
             (table idle_state)) idle_state).
Proof.
  apply (update_pf_counter_generic_types BTM_BLE_SCAN_COND_DELETE
           BTM_BLE_PF_LOCAL_NAME 1
           (Some (mk_tBLE_BD_ADDR 0 AA_BB_CC_DD_EE_FF)) idle_state free_slot
           0).
  - apply list_elem_of_here.
  - reflexivity.
  - reflexivity.
Defined.

Lemma srvc_data_counts_removals_witness :
  BTM_LE_PF_srvc_data BTM_BLE_SCAN_COND_DELETE 5 idle_state
  = Ok (tt,
        if bool_decide (BTM_BLE_SCAN_COND_DELETE = BTM_BLE_SCAN_COND_ADD)
        then idle_state
        else set_table
               (<[0%nat := with_counter free_slot BTM_BLE_PF_SRVC_DATA
                             (u8 (0 + 1))]> (table idle_state)) idle_state).
Proof.
  apply (srvc_data_counts_removals BTM_BLE_SCAN_COND_DELETE 5 idle_state
           free_slot 0).
  - reflexivity.
  - reflexivity.
Defined.

Lemma local_name_payload_witness :
  BTM_LE_PF_local_name BTM_BLE_SCAN_COND_ADD 5 (replicate 40%nat 65)
    (CbClient 1) idle_state
  = Ok (tt, set_target tBLE_BD_ADDR_zero
              (emit (EvSend HCI_BLE_ADV_FILTER
                       (header_bytes BTM_BLE_META_PF_LOCAL_NAME
                          BTM_BLE_SCAN_COND_ADD 5
                        ++ take (Z.to_nat BTM_BLE_PF_STR_LEN_MAX)
                             (replicate 40%nat 65))
                       (Bind_btm_flt_update_cb BTM_BLE_META_PF_LOCAL_NAME
                          (CbClient 1)))
                 idle_state)).
Proof.
  apply (local_name_payload BTM_BLE_SCAN_COND_ADD 5 (replicate 40%nat 65)
           (CbClient 1) idle_state).
  - simpl. lia.
  - simpl. lia.
Defined.

Lemma manu_data_payload_witness :
  BTM_LE_PF_manu_data BTM_BLE_SCAN_COND_ADD 5 76 0 [1; 2] [255; 255]
    (CbClient 1) idle_state
  = Ok (tt, set_target tBLE_BD_ADDR_zero
              (emit (EvSend HCI_BLE_ADV_FILTER
                       [6; 1; 5; 76; 0; 1; 2; 255; 255; 255; 255]
                       (Bind_btm_flt_update_cb BTM_BLE_META_PF_MANU_DATA
                          (CbClient 1)))
                 idle_state)).
Proof.
  destruct (manu_data_payload BTM_BLE_SCAN_COND_ADD 5 76 0 [1; 2]
              [255; 255] (CbClient 1) idle_state) as [_ Hboth].
  - simpl. lia.
  - simpl. lia.
  - apply Hboth.
    + discriminate.
    + discriminate.
    + simpl. lia.
Defined.

Lemma srvc_data_pattern_payload_witness :
  BTM_LE_PF_srvc_data_pattern BTM_BLE_SCAN_COND_ADD 5 [1; 2] [255]
    (CbClient 1) idle_state
  = Fault (OutOfBounds (length [255])).
Proof.
  destruct (srvc_data_pattern_payload BTM_BLE_SCAN_COND_ADD 5 [1; 2] [255]
              (CbClient 1) idle_state) as (_ & _ & Hshort).
  - simpl. lia.
  - simpl. lia.
  - apply Hshort.
    + discriminate.
    + simpl. lia.
Defined.

Lemma uuid_filter_default_mask_witness :
  BTM_LE_PF_uuid_filter BTM_BLE_SCAN_COND_ADD 5 BTM_BLE_PF_SRVC_UUID
    uuid_180F BTM_BLE_PF_LOGIC_AND Uuid_kEmpty (CbClient 1) idle_state
  = Ok (tt, set_target tBLE_BD_ADDR_zero
              (emit (EvSend HCI_BLE_ADV_FILTER [3; 1; 5; 15; 24; 255; 255]
                       (Bind_btm_flt_update_cb BTM_BLE_META_PF_UUID
                          (CbClient 1)))
                 idle_state)).
Proof.
  destruct (uuid_filter_default_mask BTM_BLE_SCAN_COND_ADD 5
              BTM_BLE_PF_SRVC_UUID uuid_180F BTM_BLE_PF_LOGIC_AND
              Uuid_kEmpty (CbClient 1) idle_state) as (Hshort & _ & _).
  - simpl. lia.
  - reflexivity.
  - apply Hshort. reflexivity.
Defined.

Lemma addr_filter_payload_witness :
  BTM_LE_PF_addr_filter BTM_BLE_SCAN_COND_ADD 5
    (mk_tBLE_BD_ADDR 1 AA_BB_CC_DD_EE_FF) (CbClient 1) idle_state
  = Ok (tt, set_target tBLE_BD_ADDR_zero
              (emit (EvSend HCI_BLE_ADV_FILTER
                       (header_bytes BTM_BLE_META_PF_ADDR
                          BTM_BLE_SCAN_COND_ADD 5
                        ++ BDADDR_TO_STREAM AA_BB_CC_DD_EE_FF ++ [2])
                       (Bind_btm_flt_update_cb BTM_BLE_META_PF_ADDR
                          (CbClient 1)))
                 idle_state)).
Proof.
  apply (addr_filter_payload BTM_BLE_SCAN_COND_ADD 5
           (mk_tBLE_BD_ADDR 1 AA_BB_CC_DD_EE_FF) (CbClient 1) idle_state).
  - simpl. lia.
  - reflexivity.
Defined.

Lemma param_setup_add_payload_witness :
  is_filtering_supported idle_state = true
  ∧ (∃ payload,
       BTM_BleAdvFilterParamSetup BTM_BLE_SCAN_COND_ADD 5
         (Some immediate_params) (CbClient 1) idle_state
       = Ok (tt, emit (EvSend HCI_BLE_ADV_FILTER payload
                         (Bind_btm_flt_update_cb BTM_BLE_META_PF_FEAT_SEL
                            (CbClient 1))) idle_state)
       ∧ length payload = 18%nat)
  ∧ BTM_BleAdvFilterParamSetup BTM_BLE_SCAN_COND_ADD 5 None (CbClient 1)
      idle_state
    = Fault NullDeref.
Proof.
  split; [reflexivity|].
  destruct (param_setup_add_payload 5 immediate_params (CbClient 1)
              idle_state) as [(payload & Hrun & Hlen & _) Hnull].
  - reflexivity.
  - reflexivity.
  - split; [|exact Hnull]. exists payload. split; [exact Hrun|exact Hlen].
Defined.

Lemma set_without_irk_keeps_records_witness :
  ∃ st',
    BTM_LE_PF_set 5 [name_command; mismatched_command] (CbClient 1)
      pending_state = Ok (tt, st')
    ∧ sec st' = sec pending_state
    ∧ remove_me_later_map st' = remove_me_later_map pending_state.
Proof.
  eexists. split; [lazy; reflexivity|].
  apply (set_without_irk_keeps_records 5 [name_command; mismatched_command]
           (CbClient 1) pending_state).
  - repeat constructor.
  - lazy. reflexivity.
Defined.

Lemma set_cmd_irk_installs_key_witness :
  carries_irk irk_command = true
  ∧ ∃ st',
      BTM_LE_PF_set_cmd 5 irk_command idle_state = Ok (Next, st')
      ∧ remove_me_later_map st'
        = <[5 := AA_BB_CC_DD_EE_FF]> (remove_me_later_map idle_state).
Proof.
  split; [reflexivity|].
  destruct (set_cmd_irk_installs_key 5 irk_command idle_state)
    as (st' & payload & Hrun & _ & _ & _ & Hmap).
  - reflexivity.
  - reflexivity.
  - reflexivity.
  - exists st'. split; [exact Hrun|exact Hmap].
Defined.

Lemma clear_sends_six_commands_witness :
  is_filtering_supported idle_state = true
  ∧ ∃ st',
      BTM_LE_PF_clear 5 (CbClient 1) idle_state = Ok (tt, st')
      ∧ table st'
        = <[0%nat := with_counter free_slot BTM_BLE_PF_SRVC_DATA (u8 (0 + 1))]>
            (table idle_state)
      ∧ target st' = tBLE_BD_ADDR_zero.
Proof.
  split; [reflexivity|].
  destruct (clear_sends_six_commands 5 (CbClient 1) idle_state free_slot 0)
    as (st' & Hrun & _ & Htbl & Htgt & _).
  - reflexivity.
  - reflexivity.
  - reflexivity.
  - exists st'. split; [exact Hrun|]. split; [exact Htbl|exact Htgt].
Defined.

Lemma enable_sends_two_bytes_witness :
  BTM_BleEnableDisableFilterFeature 1 CbNull idle_state
  = Ok (tt, emit (EvSend HCI_BLE_ADV_FILTER [u8 BTM_BLE_META_PF_ENABLE; u8 1]
                    (Bind_enable_cmpl_cback CbNull)) idle_state).
Proof.
  apply (enable_sends_two_bytes 1 CbNull idle_state). reflexivity.
Defined.

Lemma param_setup_unknown_action_witness :
  BTM_BleAdvFilterParamSetup 7 5 (Some immediate_params) (CbClient 1)
    idle_state
  = Ok (tt, idle_state).
Proof.
  apply (param_setup_unknown_action 7 5 (Some immediate_params) (CbClient 1)
           idle_state).
  - reflexivity.
  - apply (bool_decide_unpack _). by vm_compute.
Defined.

Lemma param_setup_clear_overruns_table_witness :
  reachable ready_state
  ∧ BTM_BleAdvFilterParamSetup BTM_BLE_SCAN_COND_CLEAR 5 None (CbClient 1)
      ready_state
    = Fault (OutOfBounds (max_filter (cmn_ble_vsc_cb ready_state))).
Proof.
  split; [apply (reachable_init idle_state); reflexivity|].
  apply (param_setup_clear_overruns_table 5 None (CbClient 1) ready_state).
  - reflexivity.
  - reflexivity.
Defined.

Lemma run_keeps_table_size_witness :
  ∃ st,
    BTM_BleEnableDisableFilterFeature 1 (CbClient 1) ready_state
    = Ok (tt, st)
    ∧ reachable st
    ∧ length (table st)
      = (if is_filtering_supported st then max_filter (cmn_ble_vsc_cb st)
         else 0%nat).
Proof.
  eexists. split; [lazy; reflexivity|].
  match goal with
  | |- reachable ?s ∧ _ => assert (Hreach : reachable s)
  end.
  { apply (reachable_call ready_state).
    - apply (reachable_init idle_state). reflexivity.
    - apply (call_enable 1 (CbClient 1)). reflexivity. }
  split; [exact Hreach|].
  apply (run_keeps_table_size _ Hreach).
Defined.

Lemma param_setup_delete_without_mapping_witness :
  BTM_BleAdvFilterParamSetup BTM_BLE_SCAN_COND_DELETE 5 None (CbClient 1)
    idle_state
  = Ok (tt, emit (EvSend HCI_BLE_ADV_FILTER
                    (header_bytes BTM_BLE_META_PF_FEAT_SEL
                       BTM_BLE_SCAN_COND_DELETE 5)
                    (Bind_btm_flt_update_cb BTM_BLE_META_PF_FEAT_SEL
                       (CbClient 1)))
              idle_state).
Proof.
  apply (param_setup_delete_without_mapping 5 None (CbClient 1) idle_state).
  - reflexivity.
  - reflexivity.
  - reflexivity.
Defined.

Lemma flt_update_cb_generic_ack_witness :
  btm_flt_update_cb BTM_BLE_META_PF_MANU_DATA (CbClient 1)
    [HCI_SUCCESS; BTM_BLE_META_PF_MANU_DATA; BTM_BLE_SCAN_COND_ADD; 1] 4
    stale_target_state
  = Ok (tt, emit (EvRun 1 [1; BTM_BLE_SCAN_COND_ADD;
                           if bool_decide (HCI_SUCCESS = 0) then BTM_SUCCESS
                           else BTM_ERR_PROCESSING])
              (set_op_type 0
                 (set_table
                    (<[0%nat := with_counter free_slot BTM_BLE_PF_MANU_DATA
                                  (if bool_decide (1 > 0) then u8 (0 + 1)
                                   else 0)]> (table stale_target_state))
                    stale_target_state))).
Proof.
  apply (flt_update_cb_generic_ack BTM_BLE_META_PF_MANU_DATA
           BTM_BLE_PF_MANU_DATA 1 BTM_BLE_SCAN_COND_ADD 1 []
           stale_target_state free_slot 0).
  - apply list_elem_of_further, list_elem_of_here.
  - reflexivity.
  - reflexivity.
Defined.

End ReferenceRuns.
